(** * Kats detector constants: a shallow embedding of
    [kats/detectors/detector_consts.py]

    The file embeds the three classes of the module,
    [ChangePointInterval], [PercentageChange] and [AnomalyResponse],
    as Rocq functions, proves or refutes statements of the
    specification about them, and proves further properties that the
    code has: invariants of the interval table, the error behaviour of
    the t-test, and what the in-place and the copying updates of a
    response read and write.

    Conventions.
    - Python [float] and NumPy [float64] are IEEE 754 binary64: they are
      Rocq's primitive floats, so that not-a-number and the infinities
      behave as they do in the program.
    - Python [int] is [Z]; a [datetime] is the [Z] of its position on
      the time line (only its order and equality are used).
    - A call that may raise returns a [Py.Result]; a method that assigns
      to [self] returns the new [self].
    - Objects that are shared and mutated in place (the series held by
      an [AnomalyResponse]) live in an explicit store. *)

From Stdlib Require Import ZArith List String Ascii Bool Lia Sorted.
From Stdlib Require Import DecimalString.
From Stdlib Require Import Floats.
From stdpp Require Import base option list gmap.

Local Open Scope string_scope.
Local Open Scope list_scope.
Local Open Scope Z_scope.

(** ** Python: exceptions and results *)

Module Py.

(** The exceptions the module and its libraries raise. [QueryError]
    stands for the errors of [DataFrame.query] on an expression it
    cannot evaluate. [NotModelled] is no Python exception: it marks a
    call that leaves the part of pandas described here, and no theorem
    below draws a conclusion from it. *)
Inductive Exception : Type :=
| ValueError (msg : string)
| TypeError (msg : string)
| AttributeError (msg : string)
| KeyError (key : string)
| IndexError
| ZeroDivisionError
| IndexingError (msg : string)
| QueryError (expr : string)
| NotModelled (what : string).

Inductive Result (A : Type) : Type :=
| Ok (a : A)
| Raise (e : Exception).
Global Arguments Ok {A} a.
Global Arguments Raise {A} e.

Global Instance result_ret : MRet Result := fun A a => Ok a.
Global Instance result_bind : MBind Result := fun A B f m =>
  match m with
  | Ok a => f a
  | Raise e => Raise e
  end.


(** [str(n)] for an [int]: its decimal digits, as an f-string prints
    it. *)
Definition str (n : Z) : string := NilZero.string_of_int (Z.to_int n).

(** [l[i]] on a Python list or a one-dimensional array. *)
Definition index {A} (l : list A) (i : nat) : Result A :=
  match nth_error l i with
  | Some a => Ok a
  | None => Raise IndexError
  end.

End Py.
Export Py.

(** A [datetime]. *)
Definition datetime : Type := Z.

(** ** NumPy: the array functions the module calls *)

(** The scalar-or-vector values of the module
    ([Union[float, ArrayLike]]). *)
Inductive Num : Type :=
| Scalar (x : float)
| Vector (xs : list float).

(** The arrays returned by [ChangePointInterval.data]: one-dimensional
    for a univariate interval, two-dimensional otherwise (the number of
    rows, and the columns). *)
Inductive ArrayLike : Type :=
| Arr1 (v : list float)
| Arr2 (rows : nat) (columns : list (list float)).

Module Np.

(** Conversion of a Python [int] to [float] (round to nearest even). *)
Definition of_int (z : Z) : float :=
  SF2Prim (binary_normalize prec emax z 0 false).

(** The loop of NumPy's pairwise summation that adds [k] groups of
    eight elements to the eight partial sums [r]. *)
Fixpoint add_groups (k : nat) (r rest : list float)
  : list float * list float :=
  match k with
  | O => (r, rest)
  | S k' =>
      add_groups k' (zip_with PrimFloat.add r (firstn 8 rest)) (skipn 8 rest)
  end.

(** A block of at most 128 elements. Fewer than eight are added from
    left to right. Otherwise the first eight start eight partial sums,
    every further full group of eight is added to them, the partial
    sums are added in pairs, and the elements after the last full
    group are added one by one. *)
Definition unrolled_sum (a : list float) : float :=
  let '(r, rest) :=
    add_groups (length a / 8 - 1)%nat (firstn 8 a) (skipn 8 a) in
  match r with
  | [r0; r1; r2; r3; r4; r5; r6; r7] =>
      fold_left PrimFloat.add rest
        (((r0 + r1) + (r2 + r3)) + ((r4 + r5) + (r6 + r7)))%float
  | _ => fold_left PrimFloat.add a neg_zero
  end.

(** NumPy's [pairwise_sum]: an array of more than 128 elements is
    split in two, the first part a multiple of eight long, and the
    sums of the parts are added. The parts are shorter than the array,
    so a [fuel] of the length of the array is never used up. *)
Fixpoint pairwise_sum (fuel : nat) (a : list float) : float :=
  let n := length a in
  if (n <=? 128)%nat then unrolled_sum a
  else
    match fuel with
    | O => unrolled_sum a
    | S fuel' =>
        let n2 := (n / 2)%nat in
        let n2 := (n2 - n2 mod 8)%nat in
        (pairwise_sum fuel' (firstn n2 a)
         + pairwise_sum fuel' (skipn n2 a))%float
    end.

(** [np.add.reduce] on a one-dimensional array: the pairwise sum of the
    elements, added to the initial value 0 (so that a sum of negative
    zeros is the positive zero). *)
Definition sum (a : list float) : float :=
  (0 + pairwise_sum (length a) a)%float.

(** [np.mean(a)]: the sum divided by the number of elements; the empty
    array gives [0/0], not-a-number. *)
Definition mean (a : list float) : float :=
  (sum a / of_int (Z.of_nat (length a)))%float.

(** [np.var(a, ddof=ddof)]: the squared deviations from the mean,
    summed and divided by [max(n - ddof, 0)]. *)
Definition var (a : list float) (ddof : Z) : float :=
  let arrmean := mean a in
  let x := map (fun v => (v - arrmean)%float) a in
  let x := map (fun v => (v * v)%float) x in
  (sum x / of_int (Z.max (Z.of_nat (length a) - ddof) 0))%float.

(** [np.zeros(n)] and [np.ones(n)]; a negative dimension is refused. *)
Definition zeros (n : Z) : Result (list float) :=
  if n <? 0 then Raise (ValueError "negative dimensions are not allowed")
  else Ok (repeat 0%float (Z.to_nat n)).

Definition ones (n : Z) : Result (list float) :=
  if n <? 0 then Raise (ValueError "negative dimensions are not allowed")
  else Ok (repeat 1%float (Z.to_nat n)).

Definition flat (a : ArrayLike) : list float :=
  match a with
  | Arr1 v => v
  | Arr2 _ cols => concat cols
  end.

(** [len(a)]: the length of the first axis. *)
Definition len (a : ArrayLike) : Z :=
  match a with
  | Arr1 v => Z.of_nat (length v)
  | Arr2 rows _ => Z.of_nat rows
  end.

End Np.

(** ** pandas: the table a [ChangePointInterval] materializes *)

Module Pd.

(** A [DataFrame] whose first column is ["time"]; the other columns
    hold floats and are kept in order under their names. *)
Record DataFrame : Type := mkDataFrame {
  df_time : list datetime;
  df_cols : list (string * list float)
}.

Definition len (df : DataFrame) : Z := Z.of_nat (length (df_time df)).

Definition columns (df : DataFrame) : list string := map fst (df_cols df).

Fixpoint lookup_col (cols : list (string * list float)) (c : string)
  : option (list float) :=
  match cols with
  | [] => None
  | (name, v) :: rest => if String.eqb c name then Some v else lookup_col rest c
  end.

(** [c in df.columns] *)
Definition has_column (df : DataFrame) (c : string) : bool :=
  match lookup_col (df_cols df) c with
  | Some _ => true
  | None => false
  end.

(** [df[c]] *)
Definition getitem (df : DataFrame) (c : string) : Result (list float) :=
  match lookup_col (df_cols df) c with
  | Some v => Ok v
  | None => Raise (KeyError c)
  end.

(** [df.c] *)
Definition getattr (df : DataFrame) (c : string) : Result (list float) :=
  match lookup_col (df_cols df) c with
  | Some v => Ok v
  | None => Raise (AttributeError c)
  end.

Fixpoint replace_col (cols : list (string * list float)) (c : string)
  (v : list float) : list (string * list float) :=
  match cols with
  | [] => [(c, v)]
  | (name, w) :: rest =>
      if String.eqb c name then (name, v) :: rest
      else (name, w) :: replace_col rest c v
  end.

(** [df[c] = v]: the column is replaced where it exists and appended
    as the last column otherwise. *)
Definition setitem (df : DataFrame) (c : string) (v : list float)
  : DataFrame :=
  mkDataFrame (df_time df) (replace_col (df_cols df) c v).

(** Rows selected by a boolean mask. *)
Fixpoint select {A} (mask : list bool) (l : list A) : list A :=
  match mask, l with
  | b :: mask', a :: l' => if b then a :: select mask' l' else select mask' l'
  | _, _ => []
  end.

(** [df.loc[mask]] *)
Definition loc (df : DataFrame) (mask : list bool) : DataFrame :=
  mkDataFrame (select mask (df_time df))
              (map (fun p => (fst p, select mask (snd p))) (df_cols df)).

(** [df.columns = ["time"] + names]: the value columns are renamed by
    position; pandas refuses a list of another length. *)
Definition set_columns (df : DataFrame) (names : list string)
  : Result DataFrame :=
  if (length names =? length (df_cols df))%nat
  then Ok (mkDataFrame (df_time df)
             (map (fun p => (fst p, snd (snd p))) (combine names (df_cols df))))
  else Raise (ValueError "Length mismatch").

Definition nans (n : nat) : list float := repeat nan n.

Definition col_or_nan (df : DataFrame) (c : string) : list float :=
  match lookup_col (df_cols df) c with
  | Some v => v
  | None => nans (length (df_time df))
  end.

(** [pd.concat([a, b])]: the rows of [b] under the rows of [a], over the
    union of the columns ([a]'s first); a column one side lacks is
    filled with not-a-number there. *)
Definition concat (a b : DataFrame) : DataFrame :=
  let names :=
    columns a ++ List.filter (fun c => negb (has_column a c)) (columns b) in
  mkDataFrame (df_time a ++ df_time b)
    (map (fun c => (c, col_or_nan a c ++ col_or_nan b c)) names).

(** The characters of a Python identifier (ASCII). *)
Definition ident_char (a : ascii) : bool :=
  let n := nat_of_ascii a in
  ((48 <=? n) && (n <=? 57) || (65 <=? n) && (n <=? 90)
   || (97 <=? n) && (n <=? 122) || (n =? 95))%nat.

Definition ident_chars (s : string) : bool :=
  forallb ident_char (list_ascii_of_string s).

(** [df.query(f"{c} >={thr}")]: the rows whose column [c] is at least
    [thr] (a comparison with not-a-number is false; the thresholds
    [inf] and [-inf] are compared as any other). The expression is
    parsed as Python: a column name that is not an identifier, or a
    threshold printed as [nan], does not denote the intended
    comparison, and is refused here. *)
Definition query_ge (df : DataFrame) (c : string) (thr : float)
  : Result DataFrame :=
  if ident_chars c && negb (is_nan thr) then
    z ← getitem df c;
    Ok (loc df (map (fun x => PrimFloat.leb thr x) z))
  else Raise (QueryError c).

End Pd.

(** ** The time-series container *)

Module TimeSeriesData.

(** Modelled from the spec: the class [kats.consts.TimeSeriesData],
    which the module imports and whose source is not part of the
    module. The specification describes it as a time-aligned container
    with a timestamp column and one (univariate) or many named
    (multivariate) value columns, convertible to a flat table. The
    values of a univariate series are a pandas [Series], those of a
    multivariate one a [DataFrame] of named columns. *)
Inductive Value : Type :=
| Series (v : list float)
| Frame (cols : list (string * list float)).

(** Modelled from the spec: the attributes [time] and [value] of a
    [TimeSeriesData]. *)
Record t : Type := mk {
  time : list datetime;
  value : Value
}.

(** Modelled from the spec: [ts.is_univariate()], whether the series
    has one value column. *)
Definition is_univariate (ts : t) : bool :=
  match value ts with Series _ => true | Frame _ => false end.

(** Modelled from the spec: [list(ts.value.columns)], the names of the
    value columns of a multivariate series. *)
Definition value_columns (ts : t) : list string :=
  match value ts with
  | Series _ => []
  | Frame cols => map fst cols
  end.

(** Modelled from the spec: [ts.to_dataframe()], the conversion to a
    flat table: the time column followed by the value column(s). *)
Definition to_dataframe (ts : t) : Pd.DataFrame :=
  Pd.mkDataFrame (time ts)
    match value ts with
    | Series v => [("value", v)]
    | Frame cols => cols
    end.

End TimeSeriesData.

(** ** [SingleSpike] *)

Module SingleSpike.

Record t : Type := mk {
  time : datetime;
  value : float;
  n_sigma : float
}.

End SingleSpike.

(** The value of [ChangePointInterval.spikes]: a list of spikes for a
    univariate interval, a list of such lists otherwise. *)
Inductive Spikes : Type :=
| SpikeList (l : list SingleSpike.t)
| SpikeLists (ls : list (list SingleSpike.t)).

(** ** [ChangePointInterval] *)

Module ChangePointInterval.

(** The attributes of the class. [previous_interval] is a link to
    another interval that no method of the module reads; it is left
    out. *)
Record t : Type := mk {
  start_time : datetime;
  end_time : datetime;
  _all_spikes : option Spikes;
  spike_std_threshold : float;
  data_df : option Pd.DataFrame;
  _ts_cols : list string;
  num_series : Z
}.

(** The generated constructor: [ChangePointInterval(start, end,
    num_series=1)]. *)
Definition init (start_time end_time : datetime) (num_series : Z) : t :=
  mk start_time end_time None 2%float None ["value"] num_series.

Definition set_data_df (self : t) (df : option Pd.DataFrame) : t :=
  mk (start_time self) (end_time self) (_all_spikes self)
     (spike_std_threshold self) df (_ts_cols self) (num_series self).

Definition set__all_spikes (self : t) (s : option Spikes) : t :=
  mk (start_time self) (end_time self) s
     (spike_std_threshold self) (data_df self) (_ts_cols self)
     (num_series self).

Definition set__ts_cols (self : t) (cols : list string) : t :=
  mk (start_time self) (end_time self) (_all_spikes self)
     (spike_std_threshold self) (data_df self) cols (num_series self).

Definition set_num_series (self : t) (n : Z) : t :=
  mk (start_time self) (end_time self) (_all_spikes self)
     (spike_std_threshold self) (data_df self) (_ts_cols self) n.

(** The rows inside the interval: [start_time <= time < end_time]. *)
Definition in_bound (self : t) (tm : datetime) : bool :=
  (start_time self <=? tm) && (tm <? end_time self).

(** The getter of the [data] property. *)
Definition data (self : t) : Result (option ArrayLike) :=
  match data_df self with
  | None => Ok None
  | Some df =>
      if num_series self =? 1 then
        v ← Pd.getattr df "value"; Ok (Some (Arr1 v))
      else
        cols ← mapM (Pd.getitem df) (_ts_cols self);
        Ok (Some (Arr2 (length (Pd.df_time df)) cols))
  end.

(** [name in names] *)
Definition contains (names : list string) (name : string) : bool :=
  existsb (String.eqb name) names.

(** The setter of the [data] property. When a value column is named
    ["time"] the table has two columns of that name after the
    renaming, [all_data_df["time"]] is a table and not a column, and
    [pd.to_datetime] refuses it. *)
Definition set_data (self : t) (data : TimeSeriesData.t) : Result t :=
  let self :=
    if negb (TimeSeriesData.is_univariate data)
    then
      let self := set__ts_cols self (TimeSeriesData.value_columns data) in
      set_num_series self (Z.of_nat (length (_ts_cols self)))
    else self in
  all_data_df ←
    Pd.set_columns (TimeSeriesData.to_dataframe data) (_ts_cols self);
  if contains (_ts_cols self) "time"
  then Raise (ValueError "cannot assemble with duplicate keys")
  else
    let all_data_df :=
      Pd.loc all_data_df (map (in_bound self) (Pd.df_time all_data_df)) in
    Ok (set_data_df self (Some all_data_df)).

(** [extend_data]. The time column is kept apart from the value
    columns: a value column named ["time"], which in pandas is a second
    column of that name, is not described here. *)
Definition extend_data (self : t) (data : TimeSeriesData.t) : Result t :=
  new_data_df ←
    Pd.set_columns (TimeSeriesData.to_dataframe data) (_ts_cols self);
  let new_data_df :=
    match data_df self with
    | Some df => Pd.concat df new_data_df
    | None => new_data_df
    end in
  Ok (set_data_df self
        (Some (Pd.loc new_data_df
                 (map (in_bound self) (Pd.df_time new_data_df))))).

Definition mean_val (self : t) : Result Num :=
  if num_series self =? 1 then
    vals ← data self;
    match vals with
    | None => Ok (Scalar 0%float)
    | Some vals => Ok (Scalar (Np.mean (Np.flat vals)))
    end
  else
    match data_df self with
    | None => z ← Np.zeros (num_series self); Ok (Vector z)
    | Some data_df =>
        cols ← mapM (Pd.getitem data_df) (_ts_cols self);
        Ok (Vector (map Np.mean cols))
    end.

Definition variance_val (self : t) : Result Num :=
  if num_series self =? 1 then
    vals ← data self;
    match vals with
    | None => Ok (Scalar 0%float)
    | Some vals =>
        if Np.len vals =? 1 then Ok (Scalar 0%float)
        else Ok (Scalar (Np.var (Np.flat vals) 1))
    end
  else
    match data_df self with
    | None => z ← Np.zeros (num_series self); Ok (Vector z)
    | Some data_df =>
        if Pd.len data_df =? 1
        then z ← Np.zeros (num_series self); Ok (Vector z)
        else
          cols ← mapM (Pd.getitem data_df) (_ts_cols self);
          Ok (Vector (map (fun c => Np.var c 1) cols))
    end.

(** [len(self)] *)
Definition __len__ (self : t) : Z :=
  match data_df self with
  | None => 0
  | Some df => Pd.len df
  end.

(** The rows of a table of spikes, as [SingleSpike] records:
    [time=row["time"], value=row[c], n_sigma=row[z]]. *)
Fixpoint spike_rows (tm : list datetime) (v z : list float)
  : list SingleSpike.t :=
  match tm, v, z with
  | t0 :: tm', v0 :: v', z0 :: z' =>
      SingleSpike.mk t0 v0 z0 :: spike_rows tm' v' z'
  | _, _, _ => []
  end.

Definition z_score (mean var : float) (x : float) : float :=
  ((x - mean) / sqrt var)%float.

(** The loop of the multivariate branch of [_detect_spikes], from
    position [i] of [self._ts_cols] on. [df] is [self.data_df]: the
    columns written to it are seen by [mean_val] and [variance_val] in
    the later rounds. *)
Fixpoint _detect_spikes_loop (self : t) (df : Pd.DataFrame) (i : nat)
  (cols : list string) (spikes : list (list SingleSpike.t))
  : Result (list (list SingleSpike.t) * t) :=
  match cols with
  | [] => Ok (spikes, self)
  | c :: rest =>
      mean_val ← mean_val self;
      variance_val ← variance_val self;
      match mean_val, variance_val with
      | Vector mean_val, Vector variance_val =>
          col ← Pd.getitem df c;
          m ← index mean_val i;
          v ← index variance_val i;
          let zc := String.append "z_score_" c in
          let df := Pd.setitem df zc (map (z_score m v) col) in
          let self := set_data_df self (Some df) in
          spike_df ← Pd.query_ge df zc (spike_std_threshold self);
          if Pd.len spike_df =? 0
          then _detect_spikes_loop self df (S i) rest spikes
          else
            value ← Pd.getitem spike_df c;
            n_sigma ← Pd.getitem spike_df zc;
            _detect_spikes_loop self df (S i) rest
              (spikes ++ [spike_rows (Pd.df_time spike_df) value n_sigma])
      | _, _ =>
          Raise (ValueError
                   (String.append "num_series = "
                      (String.append (str (num_series self))
                         " so mean_val and variance_val should have type ArrayLike.")))
      end
  end.

(** [_detect_spikes]: the spikes, and [self] with the score columns
    written to its table. The table is created by the setter and
    [extend_data] and held by the interval alone, so the writes through
    the local name [df] are writes to [self.data_df]. *)
Definition _detect_spikes (self : t) : Result (Spikes * t) :=
  match data_df self with
  | None => Raise (ValueError "data must be set before spike detection")
  | Some df =>
      if num_series self =? 1 then
        value ← Pd.getattr df "value";
        mean_val ← mean_val self;
        variance_val ← variance_val self;
        match mean_val, variance_val with
        | Scalar m, Scalar v =>
            let df := Pd.setitem df "z_score" (map (z_score m v) value) in
            let self := set_data_df self (Some df) in
            spike_df ← Pd.query_ge df "z_score" (spike_std_threshold self);
            value ← Pd.getitem spike_df "value";
            n_sigma ← Pd.getitem spike_df "z_score";
            Ok (SpikeList (spike_rows (Pd.df_time spike_df) value n_sigma),
                self)
        | _, _ => Raise (TypeError "unsupported operand")
        end
      else
        '(spikes, self) ← _detect_spikes_loop self df 0 (_ts_cols self) [];
        Ok (SpikeLists spikes, self)
  end.

(** The [spikes] property: the memoized list when there is one,
    otherwise the detected spikes, which are memoized. *)
Definition spikes (self : t) : Result (Spikes * t) :=
  match _all_spikes self with
  | Some spikes => Ok (spikes, self)
  | None =>
      '(spikes, self) ← _detect_spikes self;
      Ok (spikes, set__all_spikes self (Some spikes))
  end.

End ChangePointInterval.

(** ** Arithmetic on scalar-or-vector values *)

Module NumOps.

(** NumPy's broadcasting of two one-dimensional shapes. *)
Definition broadcast (f : float -> float -> float) (xs ys : list float)
  : Result (list float) :=
  match xs, ys with
  | [x], _ => Ok (map (f x) ys)
  | _, [y] => Ok (map (fun x => f x y) xs)
  | _, _ =>
      if (length xs =? length ys)%nat
      then Ok (map (fun p => f (fst p) (snd p)) (combine xs ys))
      else Raise (ValueError "operands could not be broadcast together")
  end.

Definition map2 (f : float -> float -> float) (a b : Num) : Result Num :=
  match a, b with
  | Scalar x, Scalar y => Ok (Scalar (f x y))
  | Scalar x, Vector ys => Ok (Vector (map (f x) ys))
  | Vector xs, Scalar y => Ok (Vector (map (fun x => f x y) xs))
  | Vector xs, Vector ys => zs ← broadcast f xs ys; Ok (Vector zs)
  end.

Definition map1 (f : float -> float) (a : Num) : Num :=
  match a with
  | Scalar x => Scalar (f x)
  | Vector xs => Vector (map f xs)
  end.

Definition add := map2 PrimFloat.add.
Definition sub := map2 PrimFloat.sub.
Definition div := map2 PrimFloat.div.

(** [k * a] and [a / k] for a Python [int] [k]. *)
Definition int_mul (k : Z) (a : Num) : Num :=
  map1 (fun x => (Np.of_int k * x)%float) a.
Definition div_int (a : Num) (k : Z) : Num :=
  map1 (fun x => (x / Np.of_int k)%float) a.

(** [a[i]]: a float has no items. *)
Definition getitem (a : Num) (i : nat) : Result float :=
  match a with
  | Scalar _ => Raise (TypeError "'float' object is not subscriptable")
  | Vector xs => index xs i
  end.

End NumOps.

(** ** [PercentageChange] *)

Module PercentageChange.

(** The attributes set by [__init__]; [alpha] is the float nearest to
    0.05. The bounds [upper] and [lower] belong to the delta method,
    which is not embedded here. *)
Record t : Type := mk {
  current : ChangePointInterval.t;
  previous : ChangePointInterval.t;
  _t_score : option Num;
  _p_value : option Num;
  alpha : float;
  method : string;
  num_series : Z;
  skip_rescaling : bool;
  use_corrected_scores : bool;
  min_perc_change : float
}.

Definition __init__ (current previous : ChangePointInterval.t)
  (method : string) (skip_rescaling use_corrected_scores : bool)
  (min_perc_change : float) : t :=
  mk current previous None None 0x1.999999999999ap-5%float method
     (ChangePointInterval.num_series current)
     skip_rescaling use_corrected_scores min_perc_change.

Definition set_ttest (self : t) (t_score p_value : Num) : t :=
  mk (current self) (previous self) (Some t_score) (Some p_value)
     (alpha self) (method self) (num_series self) (skip_rescaling self)
     (use_corrected_scores self) (min_perc_change self).

(** [ratio_estimate]. The two means are Python's own floats, whose
    quotient raises on a zero divisor, exactly when both intervals are
    univariate and have no data (the divisor is then [0.0]); otherwise
    the division is NumPy's. *)
Definition ratio_estimate (self : t) : Result Num :=
  c ← ChangePointInterval.mean_val (current self);
  p ← ChangePointInterval.mean_val (previous self);
  match ChangePointInterval.data_df (current self),
        ChangePointInterval.data_df (previous self), c, p with
  | None, None, Scalar _, Scalar _ => Raise ZeroDivisionError
  | _, _, _, _ => NumOps.div c p
  end.

Definition perc_change (self : t) : Result Num :=
  r ← ratio_estimate self;
  Ok (NumOps.map1 (fun x => ((x - 1) * 100)%float) r).

(** Degrees of freedom of the t-test. *)
Definition _get_df (self : t) : Z :=
  let n_1 := ChangePointInterval.__len__ (previous self) in
  let n_2 := ChangePointInterval.__len__ (current self) in
  n_1 + n_2 - 2.

Definition _pooled_stddev (self : t) : Result Num :=
  s_1_sq ← ChangePointInterval.variance_val (previous self);
  s_2_sq ← ChangePointInterval.variance_val (current self);
  let n_1 := ChangePointInterval.__len__ (previous self) in
  let n_2 := ChangePointInterval.__len__ (current self) in
  if (n_1 =? 0) || (n_2 =? 0) || ((n_1 =? n_2) && (n_2 =? 1))
  then Ok (Scalar 0%float)
  else
    num ← NumOps.add (NumOps.int_mul (n_1 - 1) s_1_sq)
                     (NumOps.int_mul (n_2 - 1) s_2_sq);
    let s_p := NumOps.map1 sqrt (NumOps.div_int num (n_1 + n_2 - 2)) in
    if negb (use_corrected_scores self) then Ok s_p
    else
      let k := sqrt (1 / Np.of_int n_1 + 1 / Np.of_int n_2)%float in
      Ok (NumOps.map1 (fun x => (x * k)%float) s_p).

Section Scipy.

(** The functions of [scipy.stats] and [statsmodels] the class calls:
    the survival function and the quantile function of Student's t
    distribution, the two-sample t-test (statistic and p-value), and
    the corrected p-values of [multipletests]. *)
Variable t_sf : float -> Z -> float.
Variable t_ppf : float -> Z -> float.
Variable ttest_ind : list float -> list float -> float * float.
Variable multipletests : list float -> float -> string -> Result (list float).

(** [_ttest_manual]. Python's own floats raise on a division by zero
    where NumPy's return an infinity or not-a-number: the quotient
    below divides two Python floats exactly when the interval is
    univariate and neither interval has data. *)
Definition _ttest_manual (self : t) : Result (Num * Num) :=
  sp_mean ← _pooled_stddev self;
  let df := _get_df self in
  c ← ChangePointInterval.mean_val (current self);
  p ← ChangePointInterval.mean_val (previous self);
  d ← NumOps.sub c p;
  match ChangePointInterval.data_df (current self),
        ChangePointInterval.data_df (previous self), d, sp_mean with
  | None, None, Scalar _, Scalar _ =>
      Raise ZeroDivisionError
  | _, _, _, _ =>
      t_score ← NumOps.div d sp_mean;
      let p_value :=
        NumOps.map1 (fun x => (t_sf (abs x) df * 2)%float) t_score in
      Ok (t_score, p_value)
  end.

(** The column [a[:, i]] of a two-dimensional array. *)
Definition column (a : ArrayLike) (i : nat) : Result (list float) :=
  match a with
  | Arr1 _ => Raise IndexError
  | Arr2 _ cols => index cols i
  end.

(** The per-column tests of [_ttest_multivariate], written to positions
    [0 .. n-1] of the two arrays. *)
Fixpoint ttest_columns (current_data prev_data : ArrayLike)
  (t_value p_value : list float) (i : nat) (n : nat)
  : Result (list float * list float) :=
  match n with
  | O => Ok (t_value, p_value)
  | S n' =>
      current_slice ← column current_data i;
      prev_slice ← column prev_data i;
      let '(tv, pv) := ttest_ind current_slice prev_slice in
      if (i <? length t_value)%nat
      then ttest_columns current_data prev_data
             (<[i := tv]> t_value) (<[i := pv]> p_value) (S i) n'
      else Raise IndexError
  end.

(** The last loop of [_ttest_multivariate]: the t-scores that match the
    corrected p-values. *)
Fixpoint rescale_t (df : Z) (t_value_start : Num) (p_value t_score : list float)
  (i : nat) (n : nat) : Result (list float) :=
  match n with
  | O => Ok t_score
  | S n' =>
      tv ← NumOps.getitem t_value_start i;
      pv ← index p_value i;
      let x :=
        if (tv <? 0)%float then t_ppf (pv / 2)%float df
        else t_ppf (1 - pv / 2)%float df in
      if (i <? length t_score)%nat
      then rescale_t df t_value_start p_value (<[i := x]> t_score) (S i) n'
      else Raise IndexError
  end.

Definition as_vector (a : Num) : list float :=
  match a with
  | Scalar x => [x]
  | Vector xs => xs
  end.

Definition _ttest_multivariate (self : t) : Result t :=
  let num_series := num_series self in
  p_value_start ← Np.zeros num_series;
  t_value_start ← Np.zeros num_series;
  let n_1 := ChangePointInterval.__len__ (previous self) in
  let n_2 := ChangePointInterval.__len__ (current self) in
  if (n_1 =? 1) && (n_2 =? 1) then
    ones ← Np.ones num_series;
    zeros ← Np.zeros num_series;
    Ok (set_ttest self (Vector (map (fun x => (infinity * x)%float) ones))
                       (Vector zeros))
  else
    '(t_value_start, p_value_start) ←
      (if (n_1 =? 1) || (n_2 =? 1) then _ttest_manual self
       else
         current_data ← ChangePointInterval.data (current self);
         prev_data ← ChangePointInterval.data (previous self);
         match current_data, prev_data with
         | Some current_data, Some prev_data =>
             '(tv, pv) ← ttest_columns current_data prev_data
                            t_value_start p_value_start 0
                            (Z.to_nat num_series);
             Ok (Vector tv, Vector pv)
         | _, _ => Raise (ValueError "Interval data not set")
         end);
    if skip_rescaling self
    then Ok (set_ttest self t_value_start p_value_start)
    else
      p_value ← multipletests (as_vector p_value_start) (alpha self)
                              (method self);
      zeros ← Np.zeros num_series;
      t_score ← rescale_t (_get_df self) t_value_start p_value zeros 0
                  (Z.to_nat (ChangePointInterval.num_series (current self)));
      Ok (set_ttest self (Vector t_score) (Vector p_value)).

Definition _ttest (self : t) : Result t :=
  if 1 <? num_series self then _ttest_multivariate self
  else
    let n_1 := ChangePointInterval.__len__ (previous self) in
    let n_2 := ChangePointInterval.__len__ (current self) in
    if (n_1 =? n_2) && (n_2 =? 1)
    then Ok (set_ttest self (Scalar nan) (Scalar 0%float))
    else
      '(t_score, p_value) ← _ttest_manual self;
      Ok (set_ttest self t_score p_value).

(** The [p_value] property: computed by [_ttest] on the first access. *)
Definition p_value (self : t) : Result (Num * t) :=
  match _p_value self with
  | Some p => Ok (p, self)
  | None =>
      self ← _ttest self;
      match _p_value self with
      | Some p => Ok (p, self)
      | None => Raise (TypeError "p_value is None")
      end
  end.

(** The [score] property: the t-score, computed by [_ttest] on the
    first access, set to 0 where the percent change is smaller in
    magnitude than [min_perc_change]. In the univariate branch the
    percent change is tested as a truth value, which NumPy refuses for
    an array of several entries. *)
Definition score (self : t) : Result (Num * t) :=
  self ← match _t_score self with
         | None => _ttest self
         | Some _ => Ok self
         end;
  match _t_score self with
  | None => Raise (TypeError "t_score is None")
  | Some t_score =>
      pc ← perc_change self;
      let small x := (abs x <? min_perc_change self)%float in
      if num_series self =? 1 then
        match pc with
        | Scalar x | Vector [x] =>
            Ok (if small x then Scalar 0%float else t_score, self)
        | Vector [] => Raise (NotModelled "truth value of an empty array")
        | Vector _ =>
            Raise (ValueError "The truth value of an array is ambiguous")
        end
      else
        r ← NumOps.map2 (fun p t => if small p then 0%float else t)
              pc t_score;
        Ok (r, self)
  end.

End Scipy.

End PercentageChange.

(** ** [AnomalyResponse] *)

Module AnomalyResponse.

(** The series of a response are objects: a response holds references
    to them, two references may name one object, and [inplace_update]
    and [extend] write to the object itself. The heap maps a reference
    to the present contents of its object. *)
Abbreviation ref := nat.
Abbreviation heap := (gmap nat TimeSeriesData.t).

Definition deref (h : heap) (r : ref) : Result TimeSeriesData.t :=
  match h !! r with
  | Some ts => Ok ts
  | None => Raise (NotModelled "no object at this reference")
  end.

(** A new object: a reference no object of the heap has. *)
Definition alloc (h : heap) (ts : TimeSeriesData.t) : heap * ref :=
  let r := fresh (dom h) in (<[r := ts]> h, r).

(** The dataclass [ConfidenceBand]; no method of the module assigns to
    its fields. *)
Record ConfidenceBand : Type := mkConfidenceBand {
  lower : ref;
  upper : ref
}.

Record t : Type := mk {
  scores : ref;
  confidence_band : option ConfidenceBand;
  predicted_ts : option ref;
  anomaly_magnitude_ts : ref;
  stat_sig_ts : option ref;
  key_mapping : list string;
  num_series : Z
}.

Definition __init__ (h : heap) (scores : ref)
  (confidence_band : option ConfidenceBand) (predicted_ts : option ref)
  (anomaly_magnitude_ts : ref) (stat_sig_ts : option ref) : Result t :=
  s ← deref h scores;
  if negb (TimeSeriesData.is_univariate s)
  then Ok (mk scores confidence_band predicted_ts anomaly_magnitude_ts
              stat_sig_ts (TimeSeriesData.value_columns s)
              (Z.of_nat (length (TimeSeriesData.value_columns s))))
  else Ok (mk scores confidence_band predicted_ts anomaly_magnitude_ts
              stat_sig_ts [] 1).

Definition set_scores (self : t) (r : ref) : t :=
  mk r (confidence_band self) (predicted_ts self)
     (anomaly_magnitude_ts self) (stat_sig_ts self) (key_mapping self)
     (num_series self).

Definition set_confidence_band (self : t) (cb : option ConfidenceBand) : t :=
  mk (scores self) cb (predicted_ts self)
     (anomaly_magnitude_ts self) (stat_sig_ts self) (key_mapping self)
     (num_series self).

Definition set_predicted_ts (self : t) (r : option ref) : t :=
  mk (scores self) (confidence_band self) r
     (anomaly_magnitude_ts self) (stat_sig_ts self) (key_mapping self)
     (num_series self).

Definition set_anomaly_magnitude_ts (self : t) (r : ref) : t :=
  mk (scores self) (confidence_band self) (predicted_ts self)
     r (stat_sig_ts self) (key_mapping self) (num_series self).

Definition set_stat_sig_ts (self : t) (r : option ref) : t :=
  mk (scores self) (confidence_band self) (predicted_ts self)
     (anomaly_magnitude_ts self) r (key_mapping self) (num_series self).

(** Modelled from the spec: the constructor of
    [kats.consts.TimeSeriesData], whose source is not part of the
    module. The container is time-aligned: the time column and every
    value column have one length. *)
Definition new_TimeSeriesData (time : list datetime)
  (value : TimeSeriesData.Value) : Result TimeSeriesData.t :=
  let n := length time in
  let aligned :=
    match value with
    | TimeSeriesData.Series v => (length v =? n)%nat
    | TimeSeriesData.Frame cols =>
        forallb (fun p => (length (snd p) =? n)%nat) cols
    end in
  if aligned then Ok (TimeSeriesData.mk time value)
  else Raise (ValueError "time and value have different lengths").

(** [pd.Series(value)] *)
Definition series_of (value : Num) : list float :=
  match value with
  | Scalar x => [x]
  | Vector xs => xs
  end.

(** [ts.value[value_col]] *)
Definition value_column (ts : TimeSeriesData.t) (value_col : string)
  : Result (list float) :=
  match TimeSeriesData.value ts with
  | TimeSeriesData.Series _ => Raise (KeyError value_col)
  | TimeSeriesData.Frame cols =>
      match Pd.lookup_col cols value_col with
      | Some v => Ok v
      | None => Raise (KeyError value_col)
      end
  end.

(** The loop of [_update_ts_slice] over [enumerate(self.key_mapping)],
    from position [i] on. *)
Fixpoint update_columns (ts : TimeSeriesData.t) (value : list float)
  (i : nat) (key_mapping : list string)
  : Result (list (string * list float)) :=
  match key_mapping with
  | [] => Ok []
  | value_col :: rest =>
      col ← value_column ts value_col;
      x ← index value i;
      cols ← update_columns ts value (S i) rest;
      Ok ((value_col, tail col ++ [x]) :: cols)
  end.

(** [_update_ts_slice]: a new series, the first point of [ts] dropped
    and the point [(time, value)] added at the end. [ts] is read, not
    written. *)
Definition _update_ts_slice (self : t) (ts : TimeSeriesData.t)
  (time : datetime) (value : Num) : Result TimeSeriesData.t :=
  let time_df := tail (TimeSeriesData.time ts) ++ [time] in
  if num_series self =? 1 then
    match TimeSeriesData.value ts with
    | TimeSeriesData.Series v =>
        new_TimeSeriesData time_df
          (TimeSeriesData.Series (tail v ++ series_of value))
    | TimeSeriesData.Frame _ =>
        Raise (NotModelled "concat of a DataFrame and a Series")
    end
  else
    match value with
    | Scalar _ =>
        Raise (ValueError
                 (String.append "num_series = "
                    (String.append (str (num_series self))
                       " so value should have type ArrayLike.")))
    | Vector value =>
        cols ← update_columns ts value 0 (key_mapping self);
        new_TimeSeriesData time_df (TimeSeriesData.Frame cols)
    end.

(** One assignment [self.x = self._update_ts_slice(x, time, value)]:
    the new series is a new object. *)
Definition update_slot (self : t) (h : heap) (r : ref) (time : datetime)
  (value : Num) : Result (heap * ref) :=
  ts ← deref h r;
  new ← _update_ts_slice self ts time value;
  Ok (alloc h new).

(** [update]: returns [None]; what it computes is assigned to the
    attributes of [self]. *)
Definition update (self : t) (h : heap) (time : datetime)
  (score ci_upper ci_lower pred anom_mag stat_sig : Num)
  : Result (heap * t) :=
  '(h, r) ← update_slot self h (scores self) time score;
  let self := set_scores self r in
  '(h, self) ←
    match confidence_band self with
    | Some confidence_band =>
        '(h, lo) ← update_slot self h (lower confidence_band) time ci_lower;
        '(h, up) ← update_slot self h (upper confidence_band) time ci_upper;
        Ok (h, set_confidence_band self (Some (mkConfidenceBand lo up)))
    | None => Ok (h, self)
    end;
  '(h, self) ←
    match predicted_ts self with
    | Some predicted_ts =>
        '(h, r) ← update_slot self h predicted_ts time pred;
        Ok (h, set_predicted_ts self (Some r))
    | None => Ok (h, self)
    end;
  '(h, r) ← update_slot self h (anomaly_magnitude_ts self) time anom_mag;
  let self := set_anomaly_magnitude_ts self r in
  match stat_sig_ts self with
  | Some stat_sig_ts =>
      '(h, r) ← update_slot self h stat_sig_ts time stat_sig;
      Ok (h, set_stat_sig_ts self (Some r))
  | None => Ok (h, self)
  end.

(** [v.loc[tm == time] = x] on one column: the rows whose time is
    [time] receive [x]. *)
Fixpoint assign_where (tm : list datetime) (time : datetime) (x : float)
  (v : list float) : list float :=
  match tm, v with
  | t0 :: tm', v0 :: v' =>
      (if t0 =? time then x else v0) :: assign_where tm' time x v'
  | _, _ => v
  end.

(** [v.loc[tm == time] = xs] on one column, for a list-like [xs] with
    one entry per selected row: the selected rows receive the entries
    in order. *)
Fixpoint assign_list_where (tm : list datetime) (time : datetime)
  (xs v : list float) : list float :=
  match tm, v with
  | t0 :: tm', v0 :: v' =>
      if t0 =? time then
        match xs with
        | x :: xs' => x :: assign_list_where tm' time xs' v'
        | [] => v0 :: v'
        end
      else v0 :: assign_list_where tm' time xs v'
  | _, _ => v
  end.

(** The number of rows the mask [tm == time] selects. *)
Definition selected (tm : list datetime) (time : datetime) : nat :=
  length (List.filter (fun t0 => t0 =? time) tm).

(** [_inplace_update_ts]: the series object itself is written. Of the
    assignments of pandas, these are described: a scalar to the selected
    rows (of a series, or of every column of a frame); to the selected
    rows of a series a list-like, which pandas accepts when it has one
    entry per selected row or one entry per row of the series (NumPy
    then accepts it when it has a single entry); and to the selected
    rows of a frame an array with one entry per column. *)
Definition _inplace_update_ts (self : t) (h : heap) (ts : option ref)
  (time : datetime) (value : Num) : Result heap :=
  match ts with
  | None => Ok h
  | Some r =>
      obj ← deref h r;
      let tm := TimeSeriesData.time obj in
      let every x cols :=
        map (fun p : string * list float =>
               (fst p, assign_where tm time x (snd p))) cols in
      if num_series self =? 1 then
        match TimeSeriesData.value obj, value with
        | TimeSeriesData.Series v, Scalar x =>
            Ok (<[r := TimeSeriesData.mk tm
                         (TimeSeriesData.Series (assign_where tm time x v))]> h)
        | TimeSeriesData.Frame cols, Scalar x =>
            Ok (<[r := TimeSeriesData.mk tm
                         (TimeSeriesData.Frame (every x cols))]> h)
        | TimeSeriesData.Series v, Vector xs =>
            if (length xs =? selected tm time)%nat then
              Ok (<[r := TimeSeriesData.mk tm
                           (TimeSeriesData.Series
                              (assign_list_where tm time xs v))]> h)
            else if (length xs =? length tm)%nat then
              match xs with
              | [x] =>
                  Ok (<[r := TimeSeriesData.mk tm
                               (TimeSeriesData.Series
                                  (assign_where tm time x v))]> h)
              | _ =>
                  Raise (ValueError
                    (String.append
                       "NumPy boolean array indexing assignment cannot assign "
                       (String.append (str (Z.of_nat (length xs)))
                          (String.append " input values to the "
                             (String.append
                                (str (Z.of_nat (selected tm time)))
                                " output values where the mask is true")))))
              end
            else
              Raise (ValueError
                "cannot set using a list-like indexer with a different length than the value")
        | TimeSeriesData.Frame _, Vector _ =>
            Raise (NotModelled "an array assigned to rows of a table")
        end
      else
        match TimeSeriesData.value obj, value with
        | TimeSeriesData.Series _, _ =>
            Raise (IndexingError "Too many indexers")
        | TimeSeriesData.Frame cols, Scalar x =>
            Ok (<[r := TimeSeriesData.mk tm
                         (TimeSeriesData.Frame (every x cols))]> h)
        | TimeSeriesData.Frame cols, Vector xs =>
            if (length xs =? length cols)%nat then
              Ok (<[r := TimeSeriesData.mk tm
                     (TimeSeriesData.Frame
                        (map (fun q : (string * list float) * float =>
                                (fst (fst q),
                                 assign_where tm time (snd q) (snd (fst q))))
                             (combine cols xs)))]> h)
            else Raise (NotModelled "an array of another length")
        end
  end.

Definition inplace_update (self : t) (h : heap) (time : datetime)
  (score ci_upper ci_lower pred anom_mag stat_sig : Num) : Result heap :=
  h ← _inplace_update_ts self h (Some (scores self)) time score;
  h ← match confidence_band self with
      | Some cb =>
          h ← _inplace_update_ts self h (Some (lower cb)) time ci_lower;
          _inplace_update_ts self h (Some (upper cb)) time ci_upper
      | None => Ok h
      end;
  h ← match predicted_ts self with
      | Some _ => _inplace_update_ts self h (predicted_ts self) time pred
      | None => Ok h
      end;
  h ← _inplace_update_ts self h (Some (anomaly_magnitude_ts self)) time
        anom_mag;
  match stat_sig_ts self with
  | Some _ => _inplace_update_ts self h (stat_sig_ts self) time stat_sig
  | None => Ok h
  end.

Section GetLastN.

(** [ts[-N:]], the slicing of [TimeSeriesData], whose source is not
    part of the module: the series it returns, a new object. *)
Variable ts_last : TimeSeriesData.t -> Z -> Result TimeSeriesData.t.

(** One argument [x[-N:]] of the constructor call in [get_last_n]. *)
Definition last_slot (h : heap) (r : ref) (N : Z) : Result (heap * ref) :=
  ts ← deref h r;
  new ← ts_last ts N;
  Ok (alloc h new).

(** [get_last_n]: a new response, built by the constructor from the
    slices of the components that are present. *)
Definition get_last_n (self : t) (h : heap) (N : Z) : Result (heap * t) :=
  '(h, scores) ← last_slot h (scores self) N;
  '(h, confidence_band) ←
    match confidence_band self with
    | None => Ok (h, None)
    | Some cb =>
        '(h, up) ← last_slot h (upper cb) N;
        '(h, lo) ← last_slot h (lower cb) N;
        Ok (h, Some (mkConfidenceBand lo up))
    end;
  '(h, predicted_ts) ←
    match predicted_ts self with
    | None => Ok (h, None)
    | Some pts => '(h, r) ← last_slot h pts N; Ok (h, Some r)
    end;
  '(h, anomaly_magnitude_ts) ← last_slot h (anomaly_magnitude_ts self) N;
  '(h, stat_sig_ts) ←
    match stat_sig_ts self with
    | None => Ok (h, None)
    | Some ssts => '(h, r) ← last_slot h ssts N; Ok (h, Some r)
    end;
  new ← __init__ h scores confidence_band predicted_ts anomaly_magnitude_ts
          stat_sig_ts;
  Ok (h, new).

End GetLastN.

(** The argument [other] of [extend]: any Python object. *)
Inductive PyObject : Type :=
| AnomalyResponseObject (r : t)
| OtherObject.

Definition is_None {A} (o : option A) : bool :=
  match o with None => true | Some _ => false end.

Definition component_mismatch_error_msg (component : string) : string :=
  String.append "The "
    (String.append component
       " in one of the AnomalyResponse objects is None while the other is not. Either both should be None or neither.").

Section Extend.

(** [TimeSeriesData.extend(other, validate)], whose source is not part
    of the module: the contents of the receiver after the call, or the
    exception of a failed validation. *)
Variable ts_extend :
  TimeSeriesData.t -> TimeSeriesData.t -> bool -> Result TimeSeriesData.t.

(** [a.extend(b, validate=validate)] for the objects at [a] and [b]. *)
Definition extend_at (h : heap) (a b : ref) (validate : bool) : Result heap :=
  x ← deref h a;
  y ← deref h b;
  new ← ts_extend x y validate;
  Ok (<[a := new]> h).

Definition extend (self : t) (h : heap) (other : PyObject) (validate : bool)
  : Result heap :=
  match other with
  | OtherObject =>
      Raise (TypeError "extend must take another AnomalyResponse object")
  | AnomalyResponseObject other =>
      if xorb (is_None (confidence_band self)) (is_None (confidence_band other))
      then Raise (ValueError (component_mismatch_error_msg "confidence_band"))
      else if xorb (is_None (predicted_ts self)) (is_None (predicted_ts other))
      then Raise (ValueError (component_mismatch_error_msg "predicted_ts"))
      else if xorb (is_None (stat_sig_ts self)) (is_None (stat_sig_ts other))
      then Raise (ValueError (component_mismatch_error_msg "stat_sig_ts"))
      else
        (* Past the three tests a component of [self] is present
           exactly when it is in [other]: the [Some _, None] cases below
           are not reached. *)
        h ← extend_at h (scores self) (scores other) validate;
        h ← match confidence_band self, confidence_band other with
            | Some cb, Some other_cb =>
                h ← extend_at h (upper cb) (upper other_cb) validate;
                extend_at h (lower cb) (lower other_cb) validate
            | Some _, None =>
                Raise (AttributeError "'NoneType' object has no attribute 'upper'")
            | None, _ => Ok h
            end;
        h ← match predicted_ts self, predicted_ts other with
            | Some p, Some q => extend_at h p q validate
            | Some _, None =>
                Raise (AttributeError "'NoneType' object has no attribute 'time'")
            | None, _ => Ok h
            end;
        h ← extend_at h (anomaly_magnitude_ts self)
              (anomaly_magnitude_ts other) validate;
        match stat_sig_ts self, stat_sig_ts other with
        | Some p, Some q => extend_at h p q validate
        | Some _, None =>
            Raise (AttributeError "'NoneType' object has no attribute 'time'")
        | None, _ => Ok h
        end
  end.

End Extend.

End AnomalyResponse.

(** * Vocabulary of the statements *)

(** ** Intervals *)

Module IntervalSpec.

Import ChangePointInterval.

(** The state the setter of [data] leaves: a table is bound, it has
    the value columns the interval reads, and [num_series] counts
    them. The threshold is not not-a-number and the names of the
    series are identifiers, so that the query of [_detect_spikes]
    denotes the comparison it is meant to. *)
Definition bound_table (self : t) (df : Pd.DataFrame) : Prop :=
  data_df self = Some df /\
  is_nan (spike_std_threshold self) = false /\
  if num_series self =? 1 then Pd.has_column df "value" = true
  else
    Z.of_nat (length (_ts_cols self)) = num_series self /\
    Forall (fun c => Pd.has_column df c = true) (_ts_cols self) /\
    Forall (fun c => Pd.ident_chars c = true) (_ts_cols self).

(** Every column of the table has one entry per row. *)
Definition table_aligned (df : Pd.DataFrame) : Prop :=
  Forall (fun p : string * list float =>
            length (snd p) = length (Pd.df_time df)) (Pd.df_cols df).

(** The [SingleSpike] of a row of the table, for the mean [m] and the
    variance [v], and whether the row is a spike at the threshold
    [thr]. *)
Definition spike_of_row (m v : float) (row : datetime * float)
  : SingleSpike.t :=
  SingleSpike.mk (fst row) (snd row) (z_score m v (snd row)).

Definition is_spike_row (thr m v : float) (row : datetime * float) : bool :=
  PrimFloat.leb thr (z_score m v (snd row)).

(** Every row of the table lies in the bound of the interval. *)
Definition rows_in_bound (self : t) (df : Pd.DataFrame) : Prop :=
  Forall (fun tm => start_time self <= tm < end_time self) (Pd.df_time df).

End IntervalSpec.

(** ** Comparators *)

Module ComparatorSpec.

(** The pooled standard deviation in the words of the specification:
    [sqrt(((n1-1) var_prev + (n2-1) var_cur) / (n1+n2-2))], scaled by
    [sqrt(1/n1 + 1/n2)] when corrected scores are asked for. *)
Definition pooled_formula (n1 n2 : Z) (corrected : bool)
  (var_prev var_cur : float) : float :=
  let s :=
    sqrt ((Np.of_int (n1 - 1) * var_prev + Np.of_int (n2 - 1) * var_cur)
          / Np.of_int (n1 + n2 - 2))%float in
  if corrected
  then (s * sqrt (1 / Np.of_int n1 + 1 / Np.of_int n2))%float
  else s.

(** The sample sizes at which [_pooled_stddev] returns 0 without
    computing the formula. *)
Definition guarded (n1 n2 : Z) : bool :=
  (n1 =? 0) || (n2 =? 0) || ((n1 =? n2) && (n2 =? 1)).

(** A univariate interval with a table that has the column the
    statistics read. *)
Definition bound_univariate (iv : ChangePointInterval.t) : Prop :=
  ChangePointInterval.num_series iv = 1 /\
  exists df, ChangePointInterval.data_df iv = Some df /\
             Pd.has_column df "value" = true.

(** A univariate interval with no data. *)
Definition unbound_univariate (iv : ChangePointInterval.t) : Prop :=
  ChangePointInterval.num_series iv = 1 /\
  ChangePointInterval.data_df iv = None.

End ComparatorSpec.

(** ** Responses *)

Module ResponseSpec.

Import AnomalyResponse.

(** What a holder of the response reads through it: the contents of
    every component. *)
Record Contents : Type := mkContents {
  c_scores : option TimeSeriesData.t;
  c_lower : option TimeSeriesData.t;
  c_upper : option TimeSeriesData.t;
  c_predicted : option TimeSeriesData.t;
  c_anomaly_magnitude : option TimeSeriesData.t;
  c_stat_sig : option TimeSeriesData.t
}.

Definition contents (h : heap) (self : t) : Contents :=
  mkContents
    (h !! scores self)
    (cb ← confidence_band self; h !! lower cb)
    (cb ← confidence_band self; h !! upper cb)
    (r ← predicted_ts self; h !! r)
    (h !! anomaly_magnitude_ts self)
    (r ← stat_sig_ts self; h !! r).

(** The univariate series [ts] after one step of the sliding window:
    the oldest point dropped, the point [(time, x)] added. *)
Definition slide (time : datetime) (x : float) (ts : TimeSeriesData.t)
  : TimeSeriesData.t :=
  TimeSeriesData.mk (tail (TimeSeriesData.time ts) ++ [time])
    match TimeSeriesData.value ts with
    | TimeSeriesData.Series v => TimeSeriesData.Series (tail v ++ [x])
    | TimeSeriesData.Frame cols => TimeSeriesData.Frame cols
    end.

(** A univariate series whose time and value columns are aligned. *)
Definition aligned (ts : TimeSeriesData.t) : Prop :=
  exists v, TimeSeriesData.value ts = TimeSeriesData.Series v /\
            length v = length (TimeSeriesData.time ts).

Definition held (h : heap) (r : ref) : Prop :=
  exists ts, h !! r = Some ts /\ aligned ts.

(** A univariate response all of whose series are aligned. *)
Definition univariate (h : heap) (self : t) : Prop :=
  num_series self = 1 /\
  held h (scores self) /\
  (forall cb, confidence_band self = Some cb ->
              held h (lower cb) /\ held h (upper cb)) /\
  (forall r, predicted_ts self = Some r -> held h r) /\
  held h (anomaly_magnitude_ts self) /\
  (forall r, stat_sig_ts self = Some r -> held h r).

(** Every object of [h] is an object of [h'], with the same contents:
    between the two heaps objects were created and none was written. *)
Definition grows (h h' : heap) : Prop :=
  forall q x, h !! q = Some x -> h' !! q = Some x.

(** The value written by [inplace_update] fits the series: a float for
    a univariate response; for a multivariate one a float, or an array
    with one entry per column of the series. *)
Definition shape_ok (self : t) (ts : TimeSeriesData.t) (value : Num) : Prop :=
  if num_series self =? 1 then exists x, value = Scalar x
  else
    exists cols,
      TimeSeriesData.value ts = TimeSeriesData.Frame cols /\
      match value with
      | Scalar _ => True
      | Vector xs => length xs = length cols
      end.

(** The component at [r] is a series in which the timestamp [time]
    does not occur (and [value] fits it). *)
Definition absent_in (self : t) (h : heap) (time : datetime) (r : ref)
  (value : Num) : Prop :=
  exists ts,
    h !! r = Some ts /\
    ~ In time (TimeSeriesData.time ts) /\
    shape_ok self ts value.

(** The columns [cols'] are the columns [cols] after one step of the
    window: under the [j]-th key the column of that key without its
    first entry, followed by entry [i + j] of [value]. *)
Definition slid_columns (cols cols' : list (string * list float))
  (key_mapping : list string) (value : list float) (i : nat) : Prop :=
  length cols' = length key_mapping /\
  forall (j : nat) (k : string),
    key_mapping !! j = Some k ->
    exists col x,
      Pd.lookup_col cols k = Some col /\
      value !! (i + j)%nat = Some x /\
      cols' !! j = Some (k, tail col ++ [x]).

(** The series objects a response holds, in the order of its
    attributes. *)
Definition components (self : t) : list ref :=
  scores self ::
  match confidence_band self with
  | Some cb => [lower cb; upper cb]
  | None => []
  end ++
  match predicted_ts self with Some r => [r] | None => [] end ++
  anomaly_magnitude_ts self ::
  match stat_sig_ts self with Some r => [r] | None => [] end.

(** What no in-place write changes of a series: its timestamps, whether
    it is univariate, and the names and lengths of its columns. *)
Definition layout (ts : TimeSeriesData.t)
  : list datetime * list (option string * nat) :=
  (TimeSeriesData.time ts,
   match TimeSeriesData.value ts with
   | TimeSeriesData.Series v => [(None, length v)]
   | TimeSeriesData.Frame cols =>
       map (fun p => (Some (fst p), length (snd p))) cols
   end).

(** Between [h] and [h'] no object was created or deleted, only
    objects among [rs] were written, and only their values. *)
Definition written_within (rs : list ref) (h h' : heap) : Prop :=
  (forall r, layout <$> h' !! r = layout <$> h !! r) /\
  (forall r, r ∉ rs -> h' !! r = h !! r).

(** The calls [a.extend(b)] that [extend] makes on a response and
    another with the same components, in the order of the calls: the
    receiver and the argument of each. *)
Definition extended_pairs (self other : t) : list (ref * ref) :=
  (scores self, scores other) ::
  match confidence_band self, confidence_band other with
  | Some cb, Some other_cb =>
      [(upper cb, upper other_cb); (lower cb, lower other_cb)]
  | _, _ => []
  end ++
  match predicted_ts self, predicted_ts other with
  | Some p, Some q => [(p, q)]
  | _, _ => []
  end ++
  (anomaly_magnitude_ts self, anomaly_magnitude_ts other) ::
  match stat_sig_ts self, stat_sig_ts other with
  | Some p, Some q => [(p, q)]
  | _, _ => []
  end.

(** The calls [a.extend(b)] for the pairs [(a, b)] of a list, one after
    the other. *)
Fixpoint extend_all
  (ts_extend :
     TimeSeriesData.t -> TimeSeriesData.t -> bool -> Result TimeSeriesData.t)
  (h : heap) (ps : list (ref * ref)) (validate : bool) : Result heap :=
  match ps with
  | [] => Ok h
  | (a, b) :: ps =>
      h ← extend_at ts_extend h a b validate;
      extend_all ts_extend h ps validate
  end.

End ResponseSpec.

(** * Scenarios *)

Module Scenarios.

(** A univariate series of the five values 1, 1, 1, 1, 100. *)
Definition five_values (t1 t2 t3 t4 t5 : datetime) : TimeSeriesData.t :=
  TimeSeriesData.mk [t1; t2; t3; t4; t5]
    (TimeSeriesData.Series [1; 1; 1; 1; 100]%float).

(** A univariate series of seven values, the last of which is a
    spike. *)
Definition seven_values : TimeSeriesData.t :=
  TimeSeriesData.mk [1; 2; 3; 4; 5; 6; 7]
    (TimeSeriesData.Series [1; 1; 1; 1; 1; 1; 100]%float).

(** Two more points for the interval of the seven values. *)
Definition two_more_values : TimeSeriesData.t :=
  TimeSeriesData.mk [8; 9] (TimeSeriesData.Series [100; 100]%float).

(** A flat univariate series. *)
Definition flat_values : TimeSeriesData.t :=
  TimeSeriesData.mk [1; 2; 3] (TimeSeriesData.Series [5; 5; 5]%float).

(** A series of two columns, and the interval [0, 10) bound to it. *)
Definition two_columns : TimeSeriesData.t :=
  TimeSeriesData.mk [1; 2; 3]
    (TimeSeriesData.Frame [("a", [1; 2; 3]%float); ("b", [4; 4; 5]%float)]).

Definition two_columns_bound : ChangePointInterval.t :=
  ChangePointInterval.mk 0 10 None 2%float
     (Some (Pd.mkDataFrame [1; 2; 3]
              [("a", [1; 2; 3]%float); ("b", [4; 4; 5]%float)]))
     ["a"; "b"] 2.

(** The univariate interval [0, 100) bound to the values [v] at the
    times [tm], and the same interval with no data. *)
Definition bound_to (tm : list datetime) (v : list float)
  : ChangePointInterval.t :=
  ChangePointInterval.mk 0 100 None 2%float
    (Some (Pd.mkDataFrame tm [("value", v)])) ["value"] 1.

Definition unbound : ChangePointInterval.t := ChangePointInterval.init 0 100 1.


Definition comparator (current previous : ChangePointInterval.t)
  : PercentageChange.t :=
  PercentageChange.__init__ current previous "fdr_bh" false false 0%float.

(** previous: 1, 2, 3; current: 2, 4, 6. *)
Definition three_and_three : PercentageChange.t :=
  comparator (bound_to [4; 5; 6] [2; 4; 6]%float)
             (bound_to [1; 2; 3] [1; 2; 3]%float).

(** previous: no data; current: 1, 2, 3. *)
Definition none_and_three : PercentageChange.t :=
  comparator (bound_to [4; 5; 6] [1; 2; 3]%float) unbound.

(** previous: 5, 5; current: 7, 7. *)
Definition flat_pairs : PercentageChange.t :=
  comparator (bound_to [4; 5] [7; 7]%float) (bound_to [1; 2] [5; 5]%float).



(** Two series of three points, objects 0 and 1 of a heap. *)
Definition three_points (v : list float) : TimeSeriesData.t :=
  TimeSeriesData.mk [1; 2; 3] (TimeSeriesData.Series v).

Definition two_series : AnomalyResponse.heap :=
  <[0%nat := three_points [1; 2; 3]%float]>
    (<[1%nat := three_points [0; 0; 5]%float]> ∅).

(** A response with scores and anomaly magnitudes only. *)
Definition plain_response : AnomalyResponse.t :=
  AnomalyResponse.mk 0%nat None None 1%nat None [] 1.

(** The same response with a confidence band. *)
Definition banded_response : AnomalyResponse.t :=
  AnomalyResponse.mk 0%nat
    (Some (AnomalyResponse.mkConfidenceBand 1%nat 1%nat)) None 1%nat None [] 1.

(** The univariate interval [a, b) with no data. *)
Definition window (a b : datetime) : ChangePointInterval.t :=
  ChangePointInterval.init a b 1.

(** Two points at and after the end of the interval [0, 100). *)
Definition later_values : TimeSeriesData.t :=
  TimeSeriesData.mk [100; 200] (TimeSeriesData.Series [1; 2]%float).

(** The interval [0, 100) bound to the seven values. *)
Definition seven_bound : ChangePointInterval.t :=
  bound_to [1; 2; 3; 4; 5; 6; 7] [1; 1; 1; 1; 1; 1; 100]%float.

(** The interval [0, 100) bound to two series of seven points: the
    seven values, and a flat series. *)
Definition seven_rows_of_two : ChangePointInterval.t :=
  ChangePointInterval.mk 0 100 None 2%float
    (Some (Pd.mkDataFrame [1; 2; 3; 4; 5; 6; 7]
             [("a", [1; 1; 1; 1; 1; 1; 100]%float);
              ("b", [5; 5; 5; 5; 5; 5; 5]%float)]))
    ["a"; "b"] 2.

(** Neither side has data. *)
Definition none_and_none : PercentageChange.t := comparator unbound unbound.

(** Two series of three points on each side. *)
Definition two_and_two : PercentageChange.t :=
  comparator two_columns_bound two_columns_bound.

(** Two series: three points now, no data before. *)
Definition two_and_none : PercentageChange.t :=
  comparator two_columns_bound (ChangePointInterval.init 0 10 2).

(** A response whose scores and anomaly magnitudes are one object, a
    series of two columns. *)
Definition one_frame : AnomalyResponse.heap := <[0%nat := two_columns]> ∅.

Definition frame_response : AnomalyResponse.t :=
  AnomalyResponse.mk 0%nat None None 0%nat None ["a"; "b"] 2.

(** Two more series, objects 2 and 3, and the response that holds
    them. *)
Definition four_series : AnomalyResponse.heap :=
  <[2%nat := three_points [7; 8; 9]%float]>
    (<[3%nat := three_points [0; 1; 0]%float]> two_series).

Definition other_response : AnomalyResponse.t :=
  AnomalyResponse.mk 2%nat None None 3%nat None [] 1.

End Scenarios.

(** * Facts about the arrays *)

Module NpFacts.

Import Np.

(** The fuel of [pairwise_sum] is never used up: any two amounts of at
    least the length of the array give the same sum, so that [sum] is
    the pairwise sum NumPy computes, whatever the length. *)
Lemma pairwise_sum_fuel (fuel : nat) :
  forall (fuel' : nat) (a : list float),
  (length a <= fuel)%nat -> (length a <= fuel')%nat ->
  pairwise_sum fuel a = pairwise_sum fuel' a.
Proof.
  induction fuel as [|fuel IH]; intros fuel' a Hf Hf'.
  - destruct a; [|simpl in Hf; lia]. now destruct fuel'.
  - destruct fuel' as [|fuel'].
    { destruct a; [reflexivity|simpl in Hf'; lia]. }
    cbn [pairwise_sum].
    destruct (length a <=? 128)%nat eqn:E; [reflexivity|].
    apply Nat.leb_gt in E.
    set (n2 := (length a / 2 - (length a / 2) mod 8)%nat).
    assert (Hdiv : (length a / 2 <= length a)%nat)
      by (apply Nat.Div0.div_le_upper_bound; lia).
    assert (Hmod : ((length a / 2) mod 8 < 8)%nat)
      by (apply Nat.mod_upper_bound; lia).
    assert (Hhalf : (64 <= length a / 2)%nat)
      by (apply Nat.div_le_lower_bound; lia).
    assert (Hhalf' : (2 * (length a / 2) <= length a)%nat)
      by (apply Nat.Div0.mul_div_le).
    assert (H1 : (0 < n2 < length a)%nat) by (subst n2; lia).
    f_equal; apply IH;
      rewrite ?length_firstn, ?length_skipn; lia.
Qed.

End NpFacts.

(** * Facts about the tables *)

Module PdFacts.

Import Pd.

Lemma lookup_replace_same cols c v :
  lookup_col (replace_col cols c v) c = Some v.
Proof.
  induction cols as [|[name w] rest IH]; simpl.
  - now rewrite String.eqb_refl.
  - destruct (String.eqb c name) eqn:E; simpl; now rewrite E.
Qed.

Lemma lookup_replace_other cols c v c' :
  c' <> c -> lookup_col (replace_col cols c v) c' = lookup_col cols c'.
Proof.
  intros Hne.
  assert (Hc : String.eqb c' c = false) by now apply String.eqb_neq.
  induction cols as [|[name w] rest IH]; simpl.
  - now rewrite Hc.
  - destruct (String.eqb c name) eqn:E; simpl.
    + apply String.eqb_eq in E. subst name. now rewrite Hc.
    + now rewrite IH.
Qed.



Lemma lookup_select cols mask c :
  lookup_col (map (fun p => (fst p, select mask (snd p))) cols) c
  = option_map (select mask) (lookup_col cols c).
Proof.
  induction cols as [|[name w] rest IH]; simpl; [reflexivity|].
  now destruct (String.eqb c name).
Qed.

Lemma has_column_loc df mask c : has_column (loc df mask) c = has_column df c.
Proof.
  unfold has_column, loc. simpl. rewrite lookup_select.
  now destruct (lookup_col (df_cols df) c).
Qed.


Lemma lookup_in_columns cols c v :
  lookup_col cols c = Some v -> In c (map fst cols).
Proof.
  induction cols as [|[name w] rest IH]; simpl; [discriminate|].
  destruct (String.eqb c name) eqn:E.
  - apply String.eqb_eq in E. now left.
  - intros H. right. now apply IH.
Qed.




Lemma index_lt {A} (l : list A) i :
  (i < length l)%nat -> exists x, index l i = Ok x.
Proof.
  intros Hi. unfold index.
  destruct (nth_error l i) eqn:E; [now eauto|].
  apply nth_error_None in E. lia.
Qed.



End PdFacts.

(** * Properties of [ChangePointInterval] *)

Module ChangePointIntervalProps.

Import ChangePointInterval PdFacts IntervalSpec Scenarios.

Lemma in_bound_true (self : t) (tm : datetime) :
  start_time self <= tm < end_time self -> in_bound self tm = true.
Proof.
  intros [Hlo Hhi]. unfold in_bound.
  apply andb_true_intro. split.
  - now apply Z.leb_le.
  - now apply Z.ltb_lt.
Qed.

(** *** Unbound intervals *)

Lemma zeros_nonneg (n : Z) :
  0 <= n -> Np.zeros n = Ok (repeat 0%float (Z.to_nat n)).
Proof.
  intros Hn. unfold Np.zeros.
  destruct (n <? 0) eqn:E; [apply Z.ltb_lt in E; lia | reflexivity].
Qed.

(** C3, as amended: an interval to which no data is bound has length 0,
    and its mean and its variance are 0: the float 0 when the interval
    is univariate, a vector of [num_series] zeros when it is
    multivariate. *)
Theorem C3_unbound_mean_variance_zero (self : t) :
  data_df self = None ->
  __len__ self = 0 /\
  (num_series self = 1 ->
     mean_val self = Ok (Scalar 0%float) /\
     variance_val self = Ok (Scalar 0%float)) /\
  (1 < num_series self ->
     mean_val self
       = Ok (Vector (repeat 0%float (Z.to_nat (num_series self)))) /\
     variance_val self
       = Ok (Vector (repeat 0%float (Z.to_nat (num_series self))))).
Proof.
  intros Hdf. unfold __len__, mean_val, variance_val, data.
  rewrite Hdf. split; [reflexivity|]. split.
  - intros ->. split; reflexivity.
  - intros Hn.
    destruct (num_series self =? 1) eqn:E; [apply Z.eqb_eq in E; lia|].
    rewrite zeros_nonneg by lia. split; reflexivity.
Qed.

Lemma C3_unbound_mean_variance_zero_witness :
  data_df (init 0 10 3) = None /\
  mean_val (init 0 10 3) = Ok (Vector [0; 0; 0]%float) /\
  variance_val (init 0 10 1) = Ok (Scalar 0%float).
Proof.
  split; [reflexivity|]. split.
  - exact (proj1 (proj2 (proj2
      (C3_unbound_mean_variance_zero (init 0 10 3) eq_refl)) eq_refl)).
  - exact (proj2 (proj1 (proj2
      (C3_unbound_mean_variance_zero (init 0 10 1) eq_refl)) eq_refl)).
Defined.

(** C3, as stated, fails: an interval bound to a series that has no
    point inside its bound has length 0, yet its mean and its variance
    are not-a-number, in the univariate and in the multivariate case. *)
Lemma C3_bound_empty_mean_is_nan :
  (exists self,
     set_data (init 10 20 1) seven_values = Ok self /\
     __len__ self = 0 /\
     mean_val self = Ok (Scalar nan) /\
     variance_val self = Ok (Scalar nan) /\
     mean_val self <> Ok (Scalar 0%float) /\
     variance_val self <> Ok (Scalar 0%float)) /\
  (exists self,
     set_data (init 10 20 1)
       (TimeSeriesData.mk [1; 2]
          (TimeSeriesData.Frame [("a", [1; 2]%float); ("b", [3; 4]%float)]))
       = Ok self /\
     __len__ self = 0 /\
     mean_val self = Ok (Vector [nan; nan]) /\
     variance_val self = Ok (Vector [nan; nan])).
Proof.
  split; eexists; (split; [vm_compute; reflexivity|]);
    repeat split; vm_compute; (reflexivity || discriminate).
Qed.

(** *** The scenario of the five values *)

(** C4, as amended: a univariate interval bound to the five values
    1, 1, 1, 1, 100 (at any five times inside its bound), with the
    default threshold 2.0, has no spike: the mean is 20.8, the sample
    variance 1960.2, and the score of the point 100 is
    79.2 / sqrt 1960.2, about 1.79, below the threshold. *)
Theorem C4_five_values_no_spike
  (start_time end_time t1 t2 t3 t4 t5 : datetime) :
  Forall (fun tm => start_time <= tm < end_time) [t1; t2; t3; t4; t5] ->
  exists self self',
    set_data (init start_time end_time 1) (five_values t1 t2 t3 t4 t5)
      = Ok self /\
    __len__ self = 5 /\
    spike_std_threshold self = 2%float /\
    spikes self = Ok (SpikeList [], self') /\
    _all_spikes self' = Some (SpikeList []).
Proof.
  intros Hin.
  repeat match goal with
         | H : Forall _ (_ :: _) |- _ => inversion H; subst; clear H
         end.
  unfold set_data, five_values. cbn -[in_bound].
  rewrite !in_bound_true by (cbn; assumption).
  do 2 eexists. split; [reflexivity|].
  repeat split; vm_compute; reflexivity.
Qed.

Lemma C4_five_values_no_spike_witness :
  exists self self',
    set_data (init 0 10 1) (five_values 1 2 3 4 5) = Ok self /\
    __len__ self = 5 /\
    spike_std_threshold self = 2%float /\
    spikes self = Ok (SpikeList [], self') /\
    _all_spikes self' = Some (SpikeList []).
Proof.
  apply (C4_five_values_no_spike 0 10 1 2 3 4 5).
  repeat constructor; lia.
Defined.

(** C4, as stated, fails: the spike list of the interval bound to
    1, 1, 1, 1, 100 is empty, and the score computed for the point 100
    is below the threshold 2.0. *)
Lemma C4_spike_list_is_empty :
  exists self self' df z,
    set_data (init 0 10 1) (five_values 1 2 3 4 5) = Ok self /\
    spikes self = Ok (SpikeList [], self') /\
    data_df self' = Some df /\
    Pd.getitem df "z_score" = Ok z /\
    Forall (fun x => PrimFloat.leb 2 x = false) z.
Proof.
  do 4 eexists. split; [vm_compute; reflexivity|].
  split; [vm_compute; reflexivity|].
  split; [vm_compute; reflexivity|].
  split; [vm_compute; reflexivity|].
  repeat constructor.
Qed.

(** *** Statistics and spike detection before any data is bound *)




(** *** The memoized spike list *)

Lemma set_data_keeps_memo (self self' : t) (data : TimeSeriesData.t) :
  set_data self data = Ok self' -> _all_spikes self' = _all_spikes self.
Proof.
  unfold set_data.
  destruct (Pd.set_columns _ _); simpl; [|discriminate].
  destruct (contains _ _); [discriminate|].
  intros [= <-]. now destruct (negb _).
Qed.

Lemma extend_data_keeps_memo (self self' : t) (data : TimeSeriesData.t) :
  extend_data self data = Ok self' -> _all_spikes self' = _all_spikes self.
Proof.
  unfold extend_data.
  destruct (Pd.set_columns _ _); simpl; [|discriminate].
  now intros [= <-].
Qed.

(** C2, as amended: neither the setter of [data] nor [extend_data]
    touches the memoized spike list. Once a list is memoized, the next
    access to [spikes] after a bind or an extend returns that same
    list, whatever the new table holds, and leaves the interval as it
    is. *)
Theorem C2_memo_survives_bind_and_extend (self self' : t)
  (data : TimeSeriesData.t) (memo : Spikes) :
  _all_spikes self = Some memo ->
  set_data self data = Ok self' \/ extend_data self data = Ok self' ->
  _all_spikes self' = Some memo /\ spikes self' = Ok (memo, self').
Proof.
  intros Hmemo Hcall.
  assert (H : _all_spikes self' = Some memo).
  { destruct Hcall as [H|H].
    - now rewrite (set_data_keeps_memo _ _ _ H).
    - now rewrite (extend_data_keeps_memo _ _ _ H). }
  split; [assumption|]. unfold spikes. now rewrite H.
Qed.

Lemma C2_memo_survives_bind_and_extend_witness :
  exists self',
    set_data (set__all_spikes (init 0 10 1) (Some (SpikeList [])))
      flat_values = Ok self' /\
    spikes self' = Ok (SpikeList [], self').
Proof.
  eexists. split; [vm_compute; reflexivity|].
  exact (proj2 (C2_memo_survives_bind_and_extend
                  (set__all_spikes (init 0 10 1) (Some (SpikeList [])))
                  _ flat_values (SpikeList []) eq_refl
                  (or_introl eq_refl))).
Defined.

(** C2, as stated, fails. The interval is bound to seven values with a
    spike, and its spikes are read. After it is bound again, to a flat
    series, [spikes] still returns the spike of the first series, where
    detection on the new table finds none; the same holds after
    [extend_data] with two more points. *)
Lemma C2_stale_spikes_after_bind_and_extend :
  exists a memo a' sp,
    set_data (init 0 10 1) seven_values = Ok a /\
    spikes a = Ok (memo, a') /\
    memo = SpikeList [sp] /\ SingleSpike.value sp = 100%float /\
    (exists b b',
       set_data a' flat_values = Ok b /\
       spikes b = Ok (memo, b) /\
       _detect_spikes b = Ok (SpikeList [], b')) /\
    (exists b b',
       extend_data a' two_more_values = Ok b /\
       spikes b = Ok (memo, b) /\
       _detect_spikes b = Ok (SpikeList [], b')).
Proof.
  do 4 eexists.
  split; [vm_compute; reflexivity|].
  split; [vm_compute; reflexivity|].
  split; [reflexivity|].
  split; [reflexivity|].
  split; do 2 eexists;
    (split; [vm_compute; reflexivity|]);
    (split; vm_compute; reflexivity).
Qed.

(** *** The score columns written by spike detection *)








(** The setter establishes [bound_table] on a new interval. *)
Lemma set_data_univariate_bound_table (start_time end_time : datetime)
  (tm : list datetime) (v : list float) :
  exists self df,
    set_data (init start_time end_time 1)
      (TimeSeriesData.mk tm (TimeSeriesData.Series v)) = Ok self /\
    bound_table self df /\ _all_spikes self = None.
Proof.
  do 2 eexists. split; [reflexivity|]. split; [|reflexivity].
  split; [reflexivity|]. split; reflexivity.
Qed.

Lemma rename_same (cols : list (string * list float)) :
  map (fun p => (fst p, snd (snd p))) (combine (map fst cols) cols) = cols.
Proof.
  induction cols as [|[name v] rest IH]; simpl; [reflexivity|].
  now rewrite IH.
Qed.

Lemma has_own_columns (cols : list (string * list float)) (tm : list datetime) :
  Forall (fun c => Pd.has_column (Pd.mkDataFrame tm cols) c = true)
         (map fst cols).
Proof.
  apply List.Forall_forall. intros c Hin. unfold Pd.has_column. simpl.
  induction cols as [|[name v] rest IH]; simpl in *; [contradiction|].
  destruct (String.eqb c name) eqn:E; [reflexivity|].
  apply IH. destruct Hin as [->|]; [|assumption].
  now rewrite String.eqb_refl in E.
Qed.

Lemma set_data_multivariate_bound_table (start_time end_time : datetime)
  (n : Z) (tm : list datetime) (cols : list (string * list float)) :
  (2 <= length cols)%nat ->
  contains (map fst cols) "time" = false ->
  Forall (fun c => Pd.ident_chars c = true) (map fst cols) ->
  exists self df,
    set_data (init start_time end_time n)
      (TimeSeriesData.mk tm (TimeSeriesData.Frame cols)) = Ok self /\
    bound_table self df /\ _all_spikes self = None.
Proof.
  intros Hlen Htime Hid. unfold set_data. cbn -[contains].
  unfold Pd.set_columns. cbn -[contains].
  rewrite length_map, Nat.eqb_refl, rename_same, Htime. cbn.
  do 2 eexists. split; [reflexivity|]. split; [|reflexivity].
  unfold bound_table. cbn.
  split; [reflexivity|]. split; [reflexivity|].
  destruct (Z.of_nat (length cols) =? 1) eqn:E.
  { apply Z.eqb_eq in E. lia. }
  split; [now rewrite length_map|]. split; [|exact Hid].
  eapply List.Forall_impl; [|apply (has_own_columns cols tm)].
  intros c Hc. now rewrite has_column_loc.
Qed.



End ChangePointIntervalProps.

(** * Properties of [PercentageChange] *)

Module PercentageChangeProps.

Import PercentageChange ComparatorSpec Scenarios.

Lemma broadcast_same_length (f : float -> float -> float) (xs ys : list float) :
  length xs = length ys ->
  NumOps.broadcast f xs ys
  = Ok (map (fun p => f (fst p) (snd p)) (combine xs ys)).
Proof.
  intros Hlen. unfold NumOps.broadcast.
  destruct xs as [|x [|x' xs]], ys as [|y [|y' ys]]; try discriminate Hlen;
    try reflexivity.
  rewrite Hlen, Nat.eqb_refl. reflexivity.
Qed.

Lemma pooled_columns (n1 n2 : Z) (corrected : bool) (xs ys : list float) :
  map (fun x => if corrected
                then (x * sqrt (1 / Np.of_int n1 + 1 / Np.of_int n2))%float
                else x)
    (map sqrt
       (map (fun x => (x / Np.of_int (n1 + n2 - 2))%float)
          (map (fun p => (fst p + snd p)%float)
             (combine (map (fun x => (Np.of_int (n1 - 1) * x)%float) xs)
                      (map (fun x => (Np.of_int (n2 - 1) * x)%float) ys)))))
  = map (fun p => pooled_formula n1 n2 corrected (fst p) (snd p))
        (combine xs ys).
Proof.
  revert ys. induction xs as [|x xs IH]; intros [|y ys]; simpl;
    try reflexivity.
  rewrite IH. unfold pooled_formula. now destruct corrected.
Qed.

(** C6, as amended: the degrees of freedom are [n1 + n2 - 2].
    [_pooled_stddev] returns 0 when either sample is empty or both
    have one point; for all other sample sizes it returns the formula
    [sqrt(((n1-1) var_prev + (n2-1) var_cur) / (n1+n2-2))], scaled by
    [sqrt(1/n1 + 1/n2)] exactly when [use_corrected_scores] is set, for
    a univariate comparator on the two variances and for a
    multivariate one column by column. *)
Theorem C6_pooled_stddev_guard_and_formula (self : t) (var_prev var_cur : Num) :
  let n1 := ChangePointInterval.__len__ (previous self) in
  let n2 := ChangePointInterval.__len__ (current self) in
  ChangePointInterval.variance_val (previous self) = Ok var_prev ->
  ChangePointInterval.variance_val (current self) = Ok var_cur ->
  _get_df self = n1 + n2 - 2 /\
  (n1 = 0 \/ n2 = 0 \/ (n1 = 1 /\ n2 = 1) ->
     _pooled_stddev self = Ok (Scalar 0%float)) /\
  (~ (n1 = 0 \/ n2 = 0 \/ (n1 = 1 /\ n2 = 1)) ->
     (forall x y, var_prev = Scalar x -> var_cur = Scalar y ->
        _pooled_stddev self
        = Ok (Scalar (pooled_formula n1 n2 (use_corrected_scores self) x y))) /\
     (forall xs ys, var_prev = Vector xs -> var_cur = Vector ys ->
        length xs = length ys ->
        _pooled_stddev self
        = Ok (Vector (map (fun p => pooled_formula n1 n2
                                      (use_corrected_scores self)
                                      (fst p) (snd p))
                          (combine xs ys))))).
Proof.
  intros n1 n2 Hprev Hcur. split; [reflexivity|].
  unfold _pooled_stddev. rewrite Hprev, Hcur. cbn [mbind result_bind].
  fold n1 n2. fold (guarded n1 n2).
  assert (Hg : guarded n1 n2 = true <-> n1 = 0 \/ n2 = 0 \/ (n1 = 1 /\ n2 = 1)).
  { unfold guarded. rewrite !orb_true_iff, andb_true_iff, !Z.eqb_eq. lia. }
  split.
  - intros H. apply Hg in H. now rewrite H.
  - intros H.
    destruct (guarded n1 n2) eqn:E; [exfalso; apply H, Hg; reflexivity|].
    split.
    + intros x y -> ->. cbn. unfold pooled_formula.
      now destruct (use_corrected_scores self).
    + intros xs ys -> -> Hlen. cbn.
      rewrite broadcast_same_length by now rewrite !length_map.
      cbn [mbind result_bind].
      destruct (use_corrected_scores self) eqn:Ec; cbn.
      * f_equal. f_equal. apply (pooled_columns n1 n2 true).
      * f_equal. f_equal. rewrite <- (pooled_columns n1 n2 false).
        now rewrite map_id.
Qed.

Lemma C6_pooled_stddev_guard_and_formula_witness :
  ChangePointInterval.variance_val (previous three_and_three)
    = Ok (Scalar 1%float) /\
  ChangePointInterval.variance_val (current three_and_three)
    = Ok (Scalar 4%float) /\
  _pooled_stddev three_and_three
    = Ok (Scalar (pooled_formula 3 3 false 1 4)).
Proof.
  split; [reflexivity|]. split; [reflexivity|].
  refine (proj1 (proj2 (proj2
    (C6_pooled_stddev_guard_and_formula three_and_three
       (Scalar 1%float) (Scalar 4%float) eq_refl eq_refl)) _)
    1%float 4%float eq_refl eq_refl).
  vm_compute. intros [H|[H|[H _]]]; discriminate H.
Defined.

(** C6, as stated, fails. With no point on the previous side and
    three on the current one (not both empty, not both of one point),
    [_pooled_stddev] returns 0 where the formula gives [sqrt 2]. With
    two flat points on each side the formula itself is 0, outside the
    guard. *)
Lemma C6_zero_when_one_sample_is_empty :
  ChangePointInterval.__len__ (previous none_and_three) = 0 /\
  ChangePointInterval.__len__ (current none_and_three) = 3 /\
  ChangePointInterval.variance_val (previous none_and_three)
    = Ok (Scalar 0%float) /\
  ChangePointInterval.variance_val (current none_and_three)
    = Ok (Scalar 1%float) /\
  _pooled_stddev none_and_three = Ok (Scalar 0%float) /\
  pooled_formula 0 3 false 0 1 = sqrt 2%float /\
  PrimFloat.eqb (pooled_formula 0 3 false 0 1) 0 = false /\
  ChangePointInterval.__len__ (previous flat_pairs) = 2 /\
  ChangePointInterval.__len__ (current flat_pairs) = 2 /\
  _pooled_stddev flat_pairs = Ok (Scalar 0%float).
Proof. repeat split; vm_compute; reflexivity. Qed.

Section Scipy.

Variable t_sf : float -> Z -> float.
Variable t_ppf : float -> Z -> float.
Variable ttest_ind : list float -> list float -> float * float.
Variable multipletests : list float -> float -> string -> Result (list float).



End Scipy.


End PercentageChangeProps.

(** * Properties of [AnomalyResponse] *)

Module AnomalyResponseProps.

Import AnomalyResponse ResponseSpec Scenarios.

(** *** [update] *)

Lemma alloc_fresh (h : heap) (ts : TimeSeriesData.t) :
  h !! (alloc h ts).2 = None /\
  (alloc h ts).1 !! (alloc h ts).2 = Some ts /\
  forall r x, h !! r = Some x -> (alloc h ts).1 !! r = Some x.
Proof.
  unfold alloc. cbn [fst snd].
  assert (Hf : h !! fresh (dom h) = None).
  { apply not_elem_of_dom. apply is_fresh. }
  split; [exact Hf|]. split; [apply lookup_insert_eq|].
  intros r x Hr. rewrite lookup_insert_ne; [exact Hr|].
  intros <-. rewrite Hf in Hr. discriminate.
Qed.

Lemma update_slot_spec (self : t) (h h' : heap) (r r' : ref)
  (time : datetime) (value : Num) :
  update_slot self h r time value = Ok (h', r') ->
  exists old new,
    h !! r = Some old /\
    _update_ts_slice self old time value = Ok new /\
    h !! r' = None /\ h' !! r' = Some new /\
    forall q x, h !! q = Some x -> h' !! q = Some x.
Proof.
  unfold update_slot, deref.
  destruct (h !! r) as [old|] eqn:Hr; [|discriminate]. cbn.
  destruct (_update_ts_slice self old time value) as [new|] eqn:Hnew;
    [|discriminate].
  cbn. intros [= <- <-].
  destruct (alloc_fresh h new) as (H1 & H2 & H3).
  exists old, new.
  split; [reflexivity|]. split; [exact Hnew|].
  split; [exact H1|]. split; [exact H2|exact H3].
Qed.

Lemma grows_refl (h : heap) : grows h h.
Proof. now intros q x. Qed.

Lemma grows_trans (h1 h2 h3 : heap) : grows h1 h2 -> grows h2 h3 -> grows h1 h3.
Proof. intros H12 H23 q x Hq. now apply H23, H12. Qed.

Lemma grows_fresh (h1 h2 : heap) (r : ref) :
  grows h1 h2 -> h2 !! r = None -> h1 !! r = None.
Proof.
  intros Hg Hr. destruct (h1 !! r) as [x|] eqn:E; [|reflexivity].
  apply Hg in E. congruence.
Qed.

Lemma update_slot_univariate (self : t) (h0 h : heap) (r : ref)
  (old : TimeSeriesData.t) (time : datetime) (x : float) :
  num_series self = 1 -> grows h0 h ->
  h0 !! r = Some old -> aligned old ->
  exists h' r',
    update_slot self h r time (Scalar x) = Ok (h', r') /\
    h !! r' = None /\ h' !! r' = Some (slide time x old) /\
    grows h h' /\ grows h0 h'.
Proof.
  intros Hn G0 Hr (v & Hv & Hlen). apply G0 in Hr.
  unfold update_slot, deref. rewrite Hr. cbn.
  unfold _update_ts_slice. rewrite Hn, Hv. cbn [Z.eqb Pos.eqb].
  unfold new_TimeSeriesData.
  assert (Hal : (length (tail v ++ [x])
                 =? length (tail (TimeSeriesData.time old) ++ [time]))%nat
                = true).
  { apply Nat.eqb_eq. rewrite !length_app.
    destruct v, (TimeSeriesData.time old); simpl in *; lia. }
  cbn [series_of]. rewrite Hal. cbn [mbind result_bind].
  set (new := TimeSeriesData.mk _ _).
  destruct (alloc_fresh h new) as (H1 & H2 & H3).
  exists (alloc h new).1, (alloc h new).2.
  split; [now destruct (alloc h new)|].
  split; [exact H1|]. split; [|split; [exact H3|]].
  - rewrite H2. unfold new, slide. now rewrite Hv.
  - intros q y Hq. apply H3, G0, Hq.
Qed.

Lemma bind_Ok {A B} (m : Result A) (f : A -> Result B) (b : B) :
  m ≫= f = Ok b -> exists a, m = Ok a /\ f a = Ok b.
Proof. destruct m as [a|e]; [now exists a|discriminate]. Qed.

Lemma held_grows (h h' : heap) (r : ref) :
  grows h h' -> held h r -> held h' r.
Proof.
  intros Hg (ts & Hr & Hal). exists ts. split; [now apply Hg|exact Hal].
Qed.

(** Every call of [update] that returns leaves every object of the heap
    as it was, and binds [scores] and [anomaly_magnitude_ts] to
    objects the heap did not have; no component appears or
    disappears. *)
Lemma update_allocates (self self' : t) (h h' : heap) (time : datetime)
  (score ci_upper ci_lower pred anom_mag stat_sig : Num) :
  update self h time score ci_upper ci_lower pred anom_mag stat_sig
    = Ok (h', self') ->
  grows h h' /\
  h !! scores self' = None /\
  h !! anomaly_magnitude_ts self' = None /\
  is_None (confidence_band self') = is_None (confidence_band self) /\
  is_None (predicted_ts self') = is_None (predicted_ts self) /\
  is_None (stat_sig_ts self') = is_None (stat_sig_ts self).
Proof.
  unfold update. intros H.
  apply bind_Ok in H as ([h1 r1] & H1 & H).
  apply update_slot_spec in H1 as (_ & _ & _ & _ & F1 & _ & G1).
  apply bind_Ok in H as ([h2 self2] & H2 & H).
  assert (S2 : grows h1 h2 /\ scores self2 = r1 /\
               is_None (confidence_band self2)
                 = is_None (confidence_band self) /\
               predicted_ts self2 = predicted_ts self /\
               anomaly_magnitude_ts self2 = anomaly_magnitude_ts self /\
               stat_sig_ts self2 = stat_sig_ts self).
  { cbn in H2. destruct (confidence_band self) as [cb|] eqn:Ecb.
    - apply bind_Ok in H2 as ([ha lo] & Ha & H2).
      apply update_slot_spec in Ha as (_ & _ & _ & _ & _ & _ & Ga).
      apply bind_Ok in H2 as ([hb up] & Hb & H2).
      apply update_slot_spec in Hb as (_ & _ & _ & _ & _ & _ & Gb).
      injection H2 as <- <-. cbn.
      split; [eapply grows_trans; eassumption|]. repeat split.
    - injection H2 as <- <-. cbn. rewrite Ecb.
      split; [apply grows_refl|]. repeat split. }
  destruct S2 as (G2 & Sc2 & Cb2 & P2 & A2 & St2).
  apply bind_Ok in H as ([h3 self3] & H3 & H).
  assert (S3 : grows h2 h3 /\ scores self3 = r1 /\
               is_None (confidence_band self3)
                 = is_None (confidence_band self) /\
               is_None (predicted_ts self3) = is_None (predicted_ts self) /\
               anomaly_magnitude_ts self3 = anomaly_magnitude_ts self /\
               stat_sig_ts self3 = stat_sig_ts self).
  { rewrite <- P2. destruct (predicted_ts self2) as [p|] eqn:Ep.
    - apply bind_Ok in H3 as ([ha r] & Ha & H3).
      apply update_slot_spec in Ha as (_ & _ & _ & _ & _ & _ & Ga).
      injection H3 as <- <-. cbn. repeat split; assumption || reflexivity.
    - injection H3 as <- <-. rewrite Ep.
      split; [apply grows_refl|]. repeat split; assumption || reflexivity. }
  destruct S3 as (G3 & Sc3 & Cb3 & P3 & A3 & St3).
  apply bind_Ok in H as ([h4 r4] & H4 & H).
  apply update_slot_spec in H4 as (_ & _ & _ & _ & F4 & _ & G4).
  assert (G04 : grows h h4).
  { eapply grows_trans; [exact G1|]. eapply grows_trans; [exact G2|].
    eapply grows_trans; [exact G3|exact G4]. }
  assert (G03 : grows h h3).
  { eapply grows_trans; [exact G1|]. eapply grows_trans; [exact G2|exact G3]. }
  cbn in H. rewrite St3 in H.
  destruct (stat_sig_ts self) as [st|] eqn:Est.
  - apply bind_Ok in H as ([h5 r5] & H5 & H).
    apply update_slot_spec in H5 as (_ & _ & _ & _ & _ & _ & G5).
    injection H as <- <-. cbn. rewrite Sc3.
    split; [exact (grows_trans _ _ _ G04 G5)|].
    split; [exact F1|]. split; [exact (grows_fresh _ _ _ G03 F4)|].
    repeat split; assumption || reflexivity.
  - injection H as <- <-. cbn. rewrite Sc3, St3.
    split; [exact G04|].
    split; [exact F1|]. split; [exact (grows_fresh _ _ _ G03 F4)|].
    repeat split; assumption || reflexivity.
Qed.

Ltac response_cbn :=
  cbn [scores confidence_band predicted_ts anomaly_magnitude_ts stat_sig_ts
       num_series key_mapping set_scores set_confidence_band
       set_predicted_ts set_anomaly_magnitude_ts set_stat_sig_ts
       lower upper mbind result_bind option_bind fmap option_fmap option_map
       c_scores c_lower c_upper c_predicted c_anomaly_magnitude c_stat_sig].

(** One assignment of [update] on a univariate response: the slot is
    read in the heap [h0] the call started from. *)
Ltac slide_slot h0 Hn :=
  match goal with
  | |- context [update_slot ?s ?hc ?r ?tm (Scalar ?x)] =>
      match goal with
      | Hr : h0 !! r = Some ?old, Hal : aligned ?old, G : grows h0 hc |- _ =>
          destruct (update_slot_univariate s h0 hc r old tm x Hn G Hr Hal)
            as (? & ? & -> & _ & ? & ? & ?);
          response_cbn
      end
  end.

Lemma update_univariate (self : t) (h : heap) (time : datetime)
  (score ci_upper ci_lower pred anom_mag stat_sig : float) :
  univariate h self ->
  exists h' self',
    update self h time (Scalar score) (Scalar ci_upper) (Scalar ci_lower)
      (Scalar pred) (Scalar anom_mag) (Scalar stat_sig) = Ok (h', self') /\
    contents h' self'
    = mkContents
        (slide time score <$> c_scores (contents h self))
        (slide time ci_lower <$> c_lower (contents h self))
        (slide time ci_upper <$> c_upper (contents h self))
        (slide time pred <$> c_predicted (contents h self))
        (slide time anom_mag <$> c_anomaly_magnitude (contents h self))
        (slide time stat_sig <$> c_stat_sig (contents h self)).
Proof.
  intros (Hn & (os & Hs & As) & Hcb & Hp & (oa & Ha & Aa) & Hst).
  pose proof (grows_refl h) as G0.
  unfold update, contents. response_cbn.
  slide_slot h Hn.
  destruct (confidence_band self) as [cb|] eqn:Ecb;
    [destruct (Hcb cb eq_refl) as [(ol & Hl & Al) (ou & Hu & Au)];
     response_cbn; do 2 slide_slot h Hn|];
  response_cbn;
  (destruct (predicted_ts self) as [p|] eqn:Ep;
    [destruct (Hp p eq_refl) as (op & Hop & Ap);
     response_cbn; slide_slot h Hn|]);
  response_cbn; slide_slot h Hn;
  (destruct (stat_sig_ts self) as [st|] eqn:Est;
    [destruct (Hst st eq_refl) as (ost & Host & Ast);
     response_cbn; slide_slot h Hn|]);
  response_cbn;
  (do 2 eexists; split; [reflexivity|]);
  response_cbn; rewrite ?Ecb, ?Ep, ?Est; response_cbn;
  rewrite ?Hs, ?Ha, ?Hl, ?Hu, ?Hop, ?Host; response_cbn;
  unfold grows in *; f_equal; eauto 10.
Qed.


Lemma plain_response_univariate : univariate two_series plain_response.
Proof.
  split; [reflexivity|].
  split; [eexists; split; [reflexivity|eexists; split; reflexivity]|].
  split; [discriminate|]. split; [discriminate|].
  split; [eexists; split; [reflexivity|eexists; split; reflexivity]|].
  discriminate.
Qed.



(** *** [inplace_update] *)

Lemma assign_where_absent (tm : list datetime) (time : datetime) (x : float)
  (v : list float) :
  ~ In time tm -> assign_where tm time x v = v.
Proof.
  revert v. induction tm as [|t0 tm IH]; intros v Hin; [reflexivity|].
  destruct v as [|v0 v]; [reflexivity|]. simpl.
  destruct (t0 =? time) eqn:E.
  - apply Z.eqb_eq in E. exfalso. apply Hin. now left.
  - rewrite IH; [reflexivity|]. intros H. apply Hin. now right.
Qed.

Lemma assign_every_absent (tm : list datetime) (time : datetime) (x : float)
  (cols : list (string * list float)) :
  ~ In time tm ->
  map (fun p : string * list float => (fst p, assign_where tm time x (snd p)))
      cols = cols.
Proof.
  intros Hin. induction cols as [|[name v] cols IH]; [reflexivity|].
  simpl. now rewrite IH, assign_where_absent.
Qed.

Lemma assign_each_absent (tm : list datetime) (time : datetime)
  (cols : list (string * list float)) : forall xs : list float,
  ~ In time tm -> length xs = length cols ->
  map (fun q : (string * list float) * float =>
         (fst (fst q), assign_where tm time (snd q) (snd (fst q))))
      (combine cols xs) = cols.
Proof.
  induction cols as [|[name v] cols IH]; intros [|x xs] Hin Hlen;
    try discriminate Hlen; [reflexivity|].
  simpl. rewrite IH by (assumption || now injection Hlen).
  now rewrite assign_where_absent.
Qed.

Lemma _inplace_update_ts_absent (self : t) (h : heap) (time : datetime)
  (r : ref) (value : Num) :
  absent_in self h time r value ->
  _inplace_update_ts self h (Some r) time value = Ok h.
Proof.
  intros ([tm val] & Hr & Hin & Hshape). simpl in Hin.
  unfold _inplace_update_ts, deref. rewrite Hr. cbn [mbind result_bind].
  unfold shape_ok in Hshape.
  cbn [TimeSeriesData.time TimeSeriesData.value] in *.
  destruct (num_series self =? 1).
  - destruct Hshape as [x ->].
    destruct val as [v|cols].
    + rewrite assign_where_absent by assumption. now rewrite insert_id.
    + rewrite assign_every_absent by assumption. now rewrite insert_id.
  - destruct Hshape as (cols & -> & Hval).
    destruct value as [x|xs].
    + rewrite assign_every_absent by assumption. now rewrite insert_id.
    + rewrite Hval, Nat.eqb_refl.
      rewrite assign_each_absent by assumption. now rewrite insert_id.
Qed.

(** C10, as amended: [inplace_update] with a timestamp that occurs in
    no present component series, and with values of the shape of the
    response (a float when it is univariate; when it is multivariate a
    float, or an array with one entry per column of the series), raises
    nothing and leaves the heap as it is: every series keeps its
    contents. *)
Theorem C10_inplace_update_absent_time (self : t) (h : heap) (time : datetime)
  (score ci_upper ci_lower pred anom_mag stat_sig : Num) :
  absent_in self h time (scores self) score ->
  (forall cb, confidence_band self = Some cb ->
     absent_in self h time (lower cb) ci_lower /\
     absent_in self h time (upper cb) ci_upper) ->
  (forall r, predicted_ts self = Some r -> absent_in self h time r pred) ->
  absent_in self h time (anomaly_magnitude_ts self) anom_mag ->
  (forall r, stat_sig_ts self = Some r -> absent_in self h time r stat_sig) ->
  inplace_update self h time score ci_upper ci_lower pred anom_mag stat_sig
  = Ok h.
Proof.
  intros Hs Hcb Hp Ha Hst. unfold inplace_update.
  rewrite (_inplace_update_ts_absent _ _ _ _ _ Hs). cbn [mbind result_bind].
  destruct (confidence_band self) as [cb|].
  - destruct (Hcb cb eq_refl) as [Hl Hu].
    rewrite (_inplace_update_ts_absent _ _ _ _ _ Hl). cbn [mbind result_bind].
    rewrite (_inplace_update_ts_absent _ _ _ _ _ Hu). cbn [mbind result_bind].
    destruct (predicted_ts self) as [p|];
      [rewrite (_inplace_update_ts_absent _ _ _ _ _ (Hp p eq_refl))|];
      cbn [mbind result_bind];
      rewrite (_inplace_update_ts_absent _ _ _ _ _ Ha); cbn [mbind result_bind];
      (destruct (stat_sig_ts self) as [st|];
        [apply (_inplace_update_ts_absent _ _ _ _ _ (Hst st eq_refl))
        |reflexivity]).
  - cbn [mbind result_bind].
    destruct (predicted_ts self) as [p|];
      [rewrite (_inplace_update_ts_absent _ _ _ _ _ (Hp p eq_refl))|];
      cbn [mbind result_bind];
      rewrite (_inplace_update_ts_absent _ _ _ _ _ Ha); cbn [mbind result_bind];
      (destruct (stat_sig_ts self) as [st|];
        [apply (_inplace_update_ts_absent _ _ _ _ _ (Hst st eq_refl))
        |reflexivity]).
Qed.

Lemma C10_inplace_update_absent_time_witness :
  ~ In 9 (TimeSeriesData.time (three_points [1; 2; 3]%float)) /\
  inplace_update banded_response two_series 9 (Scalar 1) (Scalar 2) (Scalar 3)
    (Scalar 4) (Scalar 5) (Scalar 6) = Ok two_series.
Proof.
  assert (Habsent : ~ In 9 [1; 2; 3]) by (simpl; lia).
  split; [exact Habsent|].
  assert (H : forall (r : nat) v x, two_series !! r = Some (three_points v) ->
                absent_in banded_response two_series 9 r (Scalar x)).
  { intros r v x Hr. exists (three_points v).
    split; [exact Hr|]. split; [exact Habsent|]. now exists x. }
  apply C10_inplace_update_absent_time.
  - now apply (H 0%nat [1; 2; 3]%float).
  - intros cb [= <-]. split; now apply (H 1%nat [0; 0; 5]%float).
  - discriminate.
  - now apply (H 1%nat [0; 0; 5]%float).
  - discriminate.
Defined.

(** C10, as stated, fails: a timestamp that occurs in no series does
    not make every call a silent no-op. On a univariate response whose
    scores have three points, none at the time 9, [inplace_update] with
    the score given as an array of one entry raises [ValueError]: the
    array has neither one entry per selected row (none is selected) nor
    one per row of the series, and pandas refuses it before it writes
    anything. *)
Lemma C10_array_on_univariate_series_raises :
  c_scores (contents two_series plain_response)
    = Some (three_points [1; 2; 3]%float) /\
  selected (TimeSeriesData.time (three_points [1; 2; 3]%float)) 9 = 0%nat /\
  inplace_update plain_response two_series 9 (Vector [1%float]) (Scalar 2)
    (Scalar 3) (Scalar 4) (Scalar 5) (Scalar 6)
  = Raise (ValueError
      "cannot set using a list-like indexer with a different length than the value").
Proof. repeat split. Qed.

(** *** [extend] *)

Section Extend.

Variable ts_extend :
  TimeSeriesData.t -> TimeSeriesData.t -> bool -> Result TimeSeriesData.t.

(** C8: [extend] raises [TypeError] on an argument that is no
    [AnomalyResponse], and [ValueError] whenever the confidence band,
    the predicted series or the significance series is present on one
    side and absent on the other. The three are checked one after the
    other, each with its own message; in particular a response with a
    confidence band is not extended by the same response without
    one. *)
Theorem C8_extend_rejects_mismatch (self other : t) (h : heap)
  (validate : bool) :
  let ext := extend ts_extend self h in
  ext OtherObject validate
    = Raise (TypeError "extend must take another AnomalyResponse object") /\
  (is_None (confidence_band self) <> is_None (confidence_band other) ->
     ext (AnomalyResponseObject other) validate
     = Raise (ValueError (component_mismatch_error_msg "confidence_band"))) /\
  (is_None (confidence_band self) = is_None (confidence_band other) ->
   is_None (predicted_ts self) <> is_None (predicted_ts other) ->
     ext (AnomalyResponseObject other) validate
     = Raise (ValueError (component_mismatch_error_msg "predicted_ts"))) /\
  (is_None (confidence_band self) = is_None (confidence_band other) ->
   is_None (predicted_ts self) = is_None (predicted_ts other) ->
   is_None (stat_sig_ts self) <> is_None (stat_sig_ts other) ->
     ext (AnomalyResponseObject other) validate
     = Raise (ValueError (component_mismatch_error_msg "stat_sig_ts"))) /\
  (is_None (confidence_band self) <> is_None (confidence_band other) \/
   is_None (predicted_ts self) <> is_None (predicted_ts other) \/
   is_None (stat_sig_ts self) <> is_None (stat_sig_ts other) ->
     exists component,
       ext (AnomalyResponseObject other) validate
       = Raise (ValueError (component_mismatch_error_msg component))) /\
  (forall cb, confidence_band self = Some cb ->
     ext (AnomalyResponseObject (set_confidence_band self None)) validate
     = Raise (ValueError (component_mismatch_error_msg "confidence_band"))).
Proof.
  intros ext. subst ext. unfold extend.
  split; [reflexivity|].
  destruct (is_None (confidence_band self)) eqn:E1,
           (is_None (confidence_band other)) eqn:E2,
           (is_None (predicted_ts self)) eqn:E3,
           (is_None (predicted_ts other)) eqn:E4,
           (is_None (stat_sig_ts self)) eqn:E5,
           (is_None (stat_sig_ts other)) eqn:E6;
    cbn [xorb];
    (split; [|split; [|split; [|split]]]);
    try (intros; try reflexivity; congruence);
    try (intros Hany; try (eexists; reflexivity);
         exfalso; destruct Hany as [?|[?|?]]; congruence);
    try (intros cb Hcb; cbn; rewrite Hcb in E1; cbn in E1;
         try discriminate E1; reflexivity).
Qed.

End Extend.

Lemma C8_extend_rejects_mismatch_witness :
  is_None (confidence_band banded_response)
    <> is_None (confidence_band plain_response) /\
  extend (fun a _ _ => Ok a) banded_response two_series
    (AnomalyResponseObject plain_response) true
  = Raise (ValueError (component_mismatch_error_msg "confidence_band")).
Proof.
  assert (H : is_None (confidence_band banded_response)
              <> is_None (confidence_band plain_response)) by discriminate.
  split; [exact H|].
  exact (proj1 (proj2 (C8_extend_rejects_mismatch (fun a _ _ => Ok a)
                         banded_response plain_response two_series true)) H).
Defined.

End AnomalyResponseProps.

(** * Further properties of [ChangePointInterval] *)

Module IntervalInvariants.

Import ChangePointInterval PdFacts IntervalSpec Scenarios.

(** *** The rows of the table *)

Lemma in_bound_spec (self : t) (tm : datetime) :
  in_bound self tm = true <-> start_time self <= tm < end_time self.
Proof.
  unfold in_bound. rewrite andb_true_iff, Z.leb_le, Z.ltb_lt. tauto.
Qed.

Lemma select_map_Forall {A} (f : A -> bool) (l : list A) :
  Forall (fun x => f x = true) (Pd.select (map f l) l).
Proof.
  induction l as [|a l IH]; simpl; [constructor|].
  destruct (f a) eqn:E; [constructor; assumption|assumption].
Qed.

Lemma loc_rows_in_bound (self self' : t) (df : Pd.DataFrame) :
  start_time self' = start_time self -> end_time self' = end_time self ->
  rows_in_bound self' (Pd.loc df (map (in_bound self) (Pd.df_time df))).
Proof.
  intros Hs He. unfold rows_in_bound, Pd.loc. simpl. rewrite Hs, He.
  eapply List.Forall_impl; [|apply select_map_Forall].
  intros tm. apply in_bound_spec.
Qed.

(** X1: the setter of [data] keeps the bound of the interval, and the
    table it binds holds rows of the bound only: every timestamp [tm]
    of the table has [start_time <= tm < end_time]. *)
Theorem X1_set_data_rows_in_bound (self self' : t) (data : TimeSeriesData.t) :
  set_data self data = Ok self' ->
  start_time self' = start_time self /\ end_time self' = end_time self /\
  exists df, data_df self' = Some df /\ rows_in_bound self' df.
Proof.
  unfold set_data.
  destruct (Pd.set_columns _ _) as [df|]; simpl; [|discriminate].
  destruct (contains _ _); [discriminate|].
  intros [= <-].
  destruct (negb (TimeSeriesData.is_univariate data)); simpl;
    (split; [reflexivity|]; split; [reflexivity|]);
    eexists; (split; [reflexivity|]); now apply loc_rows_in_bound.
Qed.

Lemma X1_set_data_rows_in_bound_witness :
  exists self',
    set_data (window 2 6) seven_values = Ok self' /\
    start_time self' = 2 /\ end_time self' = 6 /\
    exists df, data_df self' = Some df /\ rows_in_bound self' df.
Proof.
  eexists. split; [reflexivity|].
  exact (X1_set_data_rows_in_bound (window 2 6) _ seven_values eq_refl).
Defined.

(** X2: [extend_data] keeps the bound of the interval, and the table
    it leaves holds rows of the bound only, whatever the table held
    before and whatever rows the new series brings. *)
Theorem X2_extend_data_rows_in_bound (self self' : t)
  (data : TimeSeriesData.t) :
  extend_data self data = Ok self' ->
  start_time self' = start_time self /\ end_time self' = end_time self /\
  exists df, data_df self' = Some df /\ rows_in_bound self' df.
Proof.
  unfold extend_data.
  destruct (Pd.set_columns _ _) as [df|]; simpl; [|discriminate].
  intros [= <-]. simpl. split; [reflexivity|]. split; [reflexivity|].
  eexists. split; [reflexivity|]. now apply loc_rows_in_bound.
Qed.

Lemma X2_extend_data_rows_in_bound_witness :
  exists self',
    extend_data (window 0 9) two_more_values = Ok self' /\
    start_time self' = 0 /\ end_time self' = 9 /\
    exists df, data_df self' = Some df /\ rows_in_bound self' df.
Proof.
  eexists. split; [reflexivity|].
  exact (X2_extend_data_rows_in_bound (window 0 9) _ two_more_values eq_refl).
Defined.

Ltac interval_cbn :=
  cbn [start_time end_time _all_spikes spike_std_threshold data_df _ts_cols
       num_series set_data_df set__all_spikes set__ts_cols set_num_series
       in_bound mbind result_bind].

(** X3: binding is idempotent: an interval that was bound to a series
    and is bound to the same series again is left as it is (the column
    names, the number of series, the table and the memoized spikes). *)
Theorem X3_set_data_idempotent (self self' : t) (data : TimeSeriesData.t) :
  set_data self data = Ok self' -> set_data self' data = Ok self'.
Proof.
  unfold set_data.
  destruct (negb (TimeSeriesData.is_univariate data)) eqn:E;
    interval_cbn;
    (destruct (Pd.set_columns _ _) as [df|] eqn:Hc; [|discriminate]);
    interval_cbn;
    (destruct (contains _ _) eqn:Ht; [discriminate|]);
    intros [= <-]; interval_cbn; rewrite ?Hc; interval_cbn;
    rewrite ?Ht; reflexivity.
Qed.

Lemma X3_set_data_idempotent_witness :
  exists self',
    set_data (window 2 6) seven_values = Ok self' /\
    set_data self' seven_values = Ok self'.
Proof.
  eexists. split; [reflexivity|].
  exact (X3_set_data_idempotent (window 2 6) _ seven_values eq_refl).
Defined.

(** *** Extending with rows outside the bound *)

Lemma select_app_outside {A B} (f : A -> bool) (ta tb : list A) :
  forall la lb : list B,
  length la = length ta ->
  Forall (fun x => f x = true) ta ->
  Forall (fun x => f x = false) tb ->
  Pd.select (map f (ta ++ tb)) (la ++ lb) = la.
Proof.
  induction ta as [|a ta IH]; intros la lb Hlen Ha Hb.
  - destruct la; [|discriminate]. simpl.
    revert lb. induction Hb as [|b tb Hb _ IHb]; intros lb; simpl.
    + now destruct lb.
    + destruct lb as [|y lb]; [reflexivity|]. rewrite Hb. apply IHb.
  - destruct la as [|x la]; [discriminate|].
    inversion Ha as [|? ? Hfa Ha']; subst. simpl. rewrite Hfa.
    f_equal. apply IH; [now injection Hlen|assumption|assumption].
Qed.

Lemma columns_set_columns (df new : Pd.DataFrame) (names : list string) :
  Pd.set_columns df names = Ok new ->
  Pd.columns new = names /\ Pd.df_time new = Pd.df_time df.
Proof.
  unfold Pd.set_columns.
  destruct (length names =? length (Pd.df_cols df))%nat eqn:E;
    [|discriminate].
  apply Nat.eqb_eq in E. intros [= <-]. split; [|reflexivity].
  unfold Pd.columns. simpl. rewrite map_map. simpl.
  revert E. generalize (Pd.df_cols df).
  induction names as [|n names IH]; intros [|c cols] E;
    try discriminate E; [reflexivity|].
  simpl. f_equal. apply IH. now injection E.
Qed.

Lemma filter_known_columns (df : Pd.DataFrame) (names : list string) :
  Forall (fun c => Pd.has_column df c = true) names ->
  List.filter (fun c => negb (Pd.has_column df c)) names = [].
Proof.
  induction 1 as [|c names Hc _ IH]; simpl; [reflexivity|].
  now rewrite Hc.
Qed.

Lemma rebuild_columns (cols : list (string * list float))
  (h : string -> list float) :
  List.NoDup (map fst cols) ->
  (forall c v, Pd.lookup_col cols c = Some v -> h c = v) ->
  map (fun c => (c, h c)) (map fst cols) = cols.
Proof.
  induction cols as [|[n v] cols IH]; intros Hnd Hh; [reflexivity|].
  inversion Hnd as [|? ? Hn Hnd']; subst.
  simpl. rewrite (Hh n v) by (simpl; now rewrite String.eqb_refl).
  f_equal. apply IH; [assumption|].
  intros c w Hc. apply Hh. simpl.
  destruct (String.eqb c n) eqn:E; [|exact Hc].
  apply String.eqb_eq in E. subst.
  exfalso. apply Hn. eapply lookup_in_columns, Hc.
Qed.

Lemma lookup_aligned (df : Pd.DataFrame) (c : string) (v : list float) :
  table_aligned df -> Pd.lookup_col (Pd.df_cols df) c = Some v ->
  length v = length (Pd.df_time df).
Proof.
  unfold table_aligned. generalize (Pd.df_time df) as tm.
  induction (Pd.df_cols df) as [|[n w] cols IH]; intros tm Hal Hc;
    [discriminate|].
  inversion Hal as [|? ? Hw Hal']; subst. simpl in Hc.
  destruct (String.eqb c n); [now injection Hc as <-|now apply IH].
Qed.

Lemma concat_loc_outside (f : datetime -> bool) (a b : Pd.DataFrame) :
  table_aligned a ->
  List.NoDup (Pd.columns a) ->
  Forall (fun tm => f tm = true) (Pd.df_time a) ->
  Forall (fun tm => f tm = false) (Pd.df_time b) ->
  Forall (fun c => Pd.has_column a c = true) (Pd.columns b) ->
  Pd.loc (Pd.concat a b) (map f (Pd.df_time (Pd.concat a b))) = a.
Proof.
  intros Hal Hnd Hin Hout Hcols.
  unfold Pd.loc, Pd.concat. cbn [Pd.df_time Pd.df_cols].
  rewrite (filter_known_columns a _ Hcols), app_nil_r.
  rewrite <- (app_nil_r (Pd.df_time a ++ Pd.df_time b)) at 2.
  rewrite <- app_assoc.
  rewrite (select_app_outside f _ _ (Pd.df_time a) _ eq_refl Hin Hout).
  rewrite map_map. cbn [fst snd].
  unfold Pd.columns in *.
  rewrite (rebuild_columns (Pd.df_cols a)
             (fun c => Pd.select (map f (Pd.df_time a ++ Pd.df_time b))
                         (Pd.col_or_nan a c ++ Pd.col_or_nan b c)) Hnd).
  - now destruct a.
  - intros c v Hc. unfold Pd.col_or_nan at 1. rewrite Hc.
    apply select_app_outside; [|assumption|assumption].
    eapply lookup_aligned; eassumption.
Qed.

Lemma set_data_df_same (self : t) (df : Pd.DataFrame) :
  data_df self = Some df -> set_data_df self (Some df) = self.
Proof. destruct self. simpl. now intros ->. Qed.

(** X4: extending with a series all of whose timestamps lie outside
    the bound changes nothing: on an interval whose table is aligned,
    has distinct column names and the columns of [_ts_cols], and holds
    rows of the bound only, [extend_data] returns the interval as it
    was. *)
Theorem X4_extend_data_outside_bound (self : t) (df : Pd.DataFrame)
  (data : TimeSeriesData.t) :
  data_df self = Some df ->
  table_aligned df ->
  List.NoDup (Pd.columns df) ->
  rows_in_bound self df ->
  Forall (fun c => Pd.has_column df c = true) (_ts_cols self) ->
  length (_ts_cols self)
    = length (Pd.df_cols (TimeSeriesData.to_dataframe data)) ->
  Forall (fun tm => in_bound self tm = false) (TimeSeriesData.time data) ->
  extend_data self data = Ok self.
Proof.
  intros Hdf Hal Hnd Hrows Hcols Hlen Hout.
  unfold extend_data. rewrite Hdf.
  destruct (Pd.set_columns _ _) as [new|] eqn:Hnew; cbn [mbind result_bind].
  2:{ unfold Pd.set_columns in Hnew.
      rewrite Hlen, Nat.eqb_refl in Hnew. discriminate. }
  destruct (columns_set_columns _ _ _ Hnew) as [Hnames Htm].
  rewrite concat_loc_outside; try assumption.
  - now rewrite set_data_df_same.
  - eapply List.Forall_impl; [|exact Hrows]. intros tm. apply in_bound_spec.
  - now rewrite Htm.
  - now rewrite Hnames.
Qed.

Lemma X4_extend_data_outside_bound_witness :
  extend_data (bound_to [1; 2; 3] [5; 5; 5]%float) later_values
  = Ok (bound_to [1; 2; 3] [5; 5; 5]%float).
Proof.
  eapply X4_extend_data_outside_bound.
  - reflexivity.
  - repeat constructor.
  - repeat constructor. simpl. tauto.
  - unfold rows_in_bound. cbn. repeat (constructor; [lia|]). constructor.
  - repeat constructor.
  - reflexivity.
  - repeat constructor.
Defined.

(** *** What spike detection returns *)

Lemma getitem_loc (df : Pd.DataFrame) (mask : list bool) (c : string)
  (v : list float) :
  Pd.getitem (Pd.loc df mask) c = Ok v ->
  exists w, Pd.lookup_col (Pd.df_cols df) c = Some w /\ v = Pd.select mask w.
Proof.
  unfold Pd.getitem, Pd.loc. simpl. rewrite lookup_select.
  destruct (Pd.lookup_col (Pd.df_cols df) c) as [w|]; [|discriminate].
  simpl. intros [= <-]. now exists w.
Qed.

Lemma query_ge_Ok (df res : Pd.DataFrame) (c : string) (thr : float) :
  Pd.query_ge df c thr = Ok res ->
  exists z, Pd.lookup_col (Pd.df_cols df) c = Some z /\
            res = Pd.loc df (map (fun x => PrimFloat.leb thr x) z).
Proof.
  unfold Pd.query_ge, Pd.getitem.
  destruct (Pd.ident_chars c && negb (is_nan thr)); [|discriminate].
  destruct (Pd.lookup_col (Pd.df_cols df) c) as [z|]; [|discriminate].
  cbn. intros [= <-]. now exists z.
Qed.

Lemma spike_rows_of_rows (f : float -> float) (thr : float) :
  forall (value : list float) (tm : list datetime),
  let mask := map (fun x => PrimFloat.leb thr (f x)) value in
  spike_rows (Pd.select mask tm) (Pd.select mask value)
             (Pd.select mask (map f value))
  = map (fun row => SingleSpike.mk (fst row) (snd row) (f (snd row)))
        (List.filter (fun row => PrimFloat.leb thr (f (snd row)))
                     (combine tm value)).
Proof.
  induction value as [|x value IH]; intros [|t0 tm]; simpl;
    try reflexivity.
  destruct (PrimFloat.leb thr (f x)) eqn:E; simpl;
    [f_equal|]; apply IH.
Qed.

(** X5: what the univariate [_detect_spikes] returns: the rows of the
    table whose z-score is at least the threshold, in the order of the
    table and none left out, each as a [SingleSpike] with the time and
    the value of its row and, as [n_sigma], the z-score of that value
    under the mean and the variance of the interval. *)
Theorem X5_univariate_spikes_sound (self self' : t) (df : Pd.DataFrame)
  (l : list SingleSpike.t) :
  num_series self = 1 ->
  data_df self = Some df ->
  _detect_spikes self = Ok (SpikeList l, self') ->
  exists m v value,
    mean_val self = Ok (Scalar m) /\
    variance_val self = Ok (Scalar v) /\
    Pd.getattr df "value" = Ok value /\
    l = map (spike_of_row m v)
          (List.filter (is_spike_row (spike_std_threshold self) m v)
                       (combine (Pd.df_time df) value)).
Proof.
  intros Hn Hdf. unfold _detect_spikes. rewrite Hdf, Hn. cbn [Z.eqb Pos.eqb].
  destruct (Pd.getattr df "value") as [value|] eqn:Hval; [|discriminate].
  cbn [mbind result_bind].
  destruct (mean_val self) as [[m|ms]|], (variance_val self) as [[v|vs]|];
    cbn [mbind result_bind]; try discriminate.
  change (spike_std_threshold (set_data_df self _))
    with (spike_std_threshold self).
  set (thr := spike_std_threshold self).
  destruct (Pd.query_ge _ _ _) as [spike_df|] eqn:Hq; [|discriminate].
  cbn [mbind result_bind].
  apply query_ge_Ok in Hq as (z & Hz & ->).
  unfold Pd.setitem in Hz. cbn [Pd.df_cols] in Hz.
  rewrite lookup_replace_same in Hz. injection Hz as <-.
  destruct (Pd.getitem _ "value") as [sv|] eqn:Hsv; [|discriminate].
  destruct (Pd.getitem _ "z_score") as [sz|] eqn:Hsz; [|discriminate].
  cbn [mbind result_bind]. intros [= <- _].
  apply getitem_loc in Hsv as (w1 & Hw1 & ->).
  apply getitem_loc in Hsz as (w2 & Hw2 & ->).
  unfold Pd.setitem in Hw1, Hw2. cbn [Pd.df_cols] in Hw1, Hw2.
  rewrite lookup_replace_same in Hw2. injection Hw2 as <-.
  rewrite lookup_replace_other in Hw1 by discriminate.
  unfold Pd.getattr in Hval. rewrite Hw1 in Hval. injection Hval as <-.
  exists m, v, w1. split; [reflexivity|]. split; [reflexivity|].
  split; [reflexivity|].
  rewrite map_map. cbn [Pd.loc Pd.df_time Pd.setitem].
  apply (spike_rows_of_rows (z_score m v) thr w1 (Pd.df_time df)).
Qed.

Lemma X5_univariate_spikes_sound_witness :
  exists df l self' m v,
    data_df seven_bound = Some df /\
    _detect_spikes seven_bound = Ok (SpikeList l, self') /\
    mean_val seven_bound = Ok (Scalar m) /\
    variance_val seven_bound = Ok (Scalar v) /\
    l = [SingleSpike.mk 7 100%float (z_score m v 100%float)].
Proof.
  destruct (X5_univariate_spikes_sound seven_bound _ _ _
              eq_refl eq_refl ltac:(vm_compute; reflexivity))
    as (m & v & value & Hm & Hv & Hval & Hl).
  do 3 eexists. exists m, v.
  split; [reflexivity|]. split; [vm_compute; reflexivity|].
  split; [exact Hm|]. split; [exact Hv|].
  injection Hval as <-. rewrite Hl.
  injection Hm as <-. injection Hv as <-. vm_compute. reflexivity.
Defined.

Lemma select_length {A B} (mask : list bool) :
  forall (l : list A) (l' : list B),
  length l = length l' ->
  length (Pd.select mask l) = length (Pd.select mask l').
Proof.
  induction mask as [|b mask IH]; intros [|x l] [|y l'] Hlen;
    try discriminate Hlen; try reflexivity.
  simpl. injection Hlen as Hlen.
  destruct b; simpl; [f_equal|]; now apply IH.
Qed.

Lemma spike_rows_length (tm : list datetime) :
  forall v z : list float,
  length v = length tm -> length z = length tm ->
  length (spike_rows tm v z) = length tm.
Proof.
  induction tm as [|t0 tm IH]; intros [|v0 v] [|z0 z] Hv Hz;
    try discriminate; [reflexivity|].
  simpl. f_equal. apply IH; [now injection Hv|now injection Hz].
Qed.

Lemma aligned_setitem (df : Pd.DataFrame) (c : string) (v : list float) :
  table_aligned df -> length v = length (Pd.df_time df) ->
  table_aligned (Pd.setitem df c v).
Proof.
  unfold table_aligned, Pd.setitem. cbn [Pd.df_time Pd.df_cols].
  generalize (Pd.df_time df) as tm. intros tm Hal Hv.
  induction Hal as [|[n w] cols Hw Hal' IH]; simpl.
  - constructor; [exact Hv|constructor].
  - destruct (String.eqb c n); constructor; assumption.
Qed.

Lemma multivariate_loop_nonempty (rest : list string) :
  forall (self self' : t) (df : Pd.DataFrame) (i : nat)
         (acc acc' : list (list SingleSpike.t)),
  table_aligned df ->
  _detect_spikes_loop self df i rest acc = Ok (acc', self') ->
  Forall (fun l => l <> []) acc ->
  Forall (fun l => l <> []) acc' /\
  (length acc' <= length acc + length rest)%nat.
Proof.
  induction rest as [|c rest IH]; intros self self' df i acc acc' Hal H Hacc.
  - cbn in H. injection H as <- _. split; [exact Hacc|lia].
  - cbn [_detect_spikes_loop] in H.
    destruct (mean_val self) as [[m|ms]|], (variance_val self) as [[v|vs]|];
      cbn [mbind result_bind] in H; try discriminate.
    destruct (Pd.getitem df c) as [col|] eqn:Hcol;
      cbn [mbind result_bind] in H; [|discriminate].
    destruct (index ms i) as [mi|]; cbn [mbind result_bind] in H;
      [|discriminate].
    destruct (index vs i) as [vi|]; cbn [mbind result_bind] in H;
      [|discriminate].
    set (zc := String.append "z_score_" c) in *.
    set (df1 := Pd.setitem df zc (map (z_score mi vi) col)) in *.
    assert (Hcollen : length col = length (Pd.df_time df)).
    { unfold Pd.getitem in Hcol.
      destruct (Pd.lookup_col (Pd.df_cols df) c) as [w|] eqn:E;
        [|discriminate].
      injection Hcol as <-. eapply lookup_aligned; eassumption. }
    assert (Hal1 : table_aligned df1).
    { apply aligned_setitem; [exact Hal|]. now rewrite length_map. }
    destruct (Pd.query_ge df1 zc _) as [spike_df|] eqn:Hq;
      cbn [mbind result_bind] in H; [|discriminate].
    apply query_ge_Ok in Hq as (z & Hz & ->).
    destruct (Pd.len (Pd.loc df1 _) =? 0) eqn:Hrows.
    + destruct (IH _ _ _ _ _ _ Hal1 H Hacc) as [H1 H2].
      split; [exact H1|simpl; lia].
    + destruct (Pd.getitem (Pd.loc df1 _) c) as [value|] eqn:Hvalue;
        cbn [mbind result_bind] in H; [|discriminate].
      destruct (Pd.getitem (Pd.loc df1 _) zc) as [n_sigma|] eqn:Hsigma;
        cbn [mbind result_bind] in H; [|discriminate].
      apply getitem_loc in Hvalue as (w1 & Hw1 & ->).
      apply getitem_loc in Hsigma as (w2 & Hw2 & ->).
      apply (lookup_aligned _ _ _ Hal1) in Hw1, Hw2.
      apply IH in H as [H1 H2]; [|exact Hal1|].
      * split; [exact H1|]. rewrite length_app in H2. simpl in *. lia.
      * apply Forall_app. split; [exact Hacc|].
        constructor; [|constructor].
        intros Hnil. apply (f_equal (@length _)) in Hnil.
        rewrite spike_rows_length in Hnil.
        -- apply Z.eqb_neq in Hrows. apply Hrows. unfold Pd.len.
           now rewrite Hnil.
        -- cbn [Pd.loc Pd.df_time]. now apply select_length.
        -- cbn [Pd.loc Pd.df_time]. now apply select_length.
Qed.

(** X6: the multivariate [_detect_spikes] returns one list for each
    series that has a spike and nothing for the others: on an aligned
    table no list of the result is empty, and there are at most as many
    lists as series. (The position of a list in the result therefore
    does not tell which series it belongs to.) *)
Theorem X6_multivariate_spikes_have_no_empty_entry (self self' : t)
  (df : Pd.DataFrame) (ls : list (list SingleSpike.t)) :
  data_df self = Some df ->
  table_aligned df ->
  _detect_spikes self = Ok (SpikeLists ls, self') ->
  Forall (fun l => l <> []) ls /\
  (length ls <= length (_ts_cols self))%nat.
Proof.
  intros Hdf Hal. unfold _detect_spikes. rewrite Hdf.
  destruct (num_series self =? 1).
  - destruct (Pd.getattr df "value"); [|discriminate].
    cbn [mbind result_bind].
    destruct (mean_val self) as [[m|ms]|], (variance_val self) as [[v|vs]|];
      cbn [mbind result_bind]; try discriminate.
    destruct (Pd.query_ge _ _ _); [|discriminate]. cbn [mbind result_bind].
    destruct (Pd.getitem _ "value"); [|discriminate].
    destruct (Pd.getitem _ "z_score"); [|discriminate].
    discriminate.
  - destruct (_detect_spikes_loop _ _ _ _ _) as [[acc s1]|] eqn:Hloop;
      [|discriminate].
    cbn [mbind result_bind]. intros [= <- _].
    apply (multivariate_loop_nonempty _ _ _ _ _ _ _ Hal Hloop).
    constructor.
Qed.

Lemma X6_multivariate_spikes_have_no_empty_entry_witness :
  exists ls self',
    _detect_spikes seven_rows_of_two = Ok (SpikeLists ls, self') /\
    length ls = 1%nat /\
    Forall (fun l => l <> []) ls /\
    (length ls <= length (_ts_cols seven_rows_of_two))%nat.
Proof.
  do 2 eexists. split; [vm_compute; reflexivity|]. split; [reflexivity|].
  eapply (X6_multivariate_spikes_have_no_empty_entry seven_rows_of_two).
  - reflexivity.
  - repeat constructor.
  - vm_compute. reflexivity.
Defined.

(** *** Lengths and column names *)

Lemma select_map_filter {A} (f : A -> bool) (l : list A) :
  Pd.select (map f l) l = List.filter f l.
Proof.
  induction l as [|a l IH]; simpl; [reflexivity|].
  destruct (f a); now rewrite IH.
Qed.

(** X7: the length of an interval after a binding is the number of
    points of the series within the bound [start_time <= tm <
    end_time]. *)
Theorem X7_set_data_length (self self' : t) (data : TimeSeriesData.t) :
  set_data self data = Ok self' ->
  __len__ self'
  = Z.of_nat (length (List.filter (in_bound self)
                                  (TimeSeriesData.time data))).
Proof.
  unfold set_data.
  destruct (Pd.set_columns _ _) as [df|] eqn:Hdf; simpl; [|discriminate].
  apply columns_set_columns in Hdf as [_ Htm].
  destruct (contains _ _); [discriminate|].
  intros [= <-]. unfold __len__, Pd.len. cbn [data_df set_data_df].
  cbn [Pd.loc Pd.df_time]. rewrite Htm.
  cbn [TimeSeriesData.to_dataframe Pd.df_time].
  destruct (negb (TimeSeriesData.is_univariate data));
    now rewrite <- select_map_filter.
Qed.

Lemma X7_set_data_length_witness :
  exists self',
    set_data (window 2 6) seven_values = Ok self' /\ __len__ self' = 4.
Proof.
  eexists. split; [reflexivity|].
  exact (X7_set_data_length (window 2 6) _ seven_values eq_refl).
Defined.

(** X8: the column names are assigned by position, and pandas
    refuses a list of names of another length; a value column named
    ["time"] clashes with the time column. Binding a multivariate
    series returns when none of its columns is named ["time"] (the
    names are taken from the series) and raises [ValueError] when one
    is; binding a univariate series to an interval that keeps more or
    fewer than one column name (as an interval does that was bound to a
    multivariate series before) raises [ValueError]. [extend_data]
    raises [ValueError] when the series has more or fewer value columns
    than the interval has names, and returns when it has as many, the
    names and the columns of the table the interval holds being
    distinct and none of them ["time"]. *)
Theorem X8_bind_and_extend_need_matching_columns (self : t)
  (data : TimeSeriesData.t) :
  let width := length (Pd.df_cols (TimeSeriesData.to_dataframe data)) in
  (TimeSeriesData.is_univariate data = false ->
     contains (TimeSeriesData.value_columns data) "time" = false ->
     exists self', set_data self data = Ok self') /\
  (TimeSeriesData.is_univariate data = false ->
     contains (TimeSeriesData.value_columns data) "time" = true ->
     exists msg, set_data self data = Raise (ValueError msg)) /\
  (TimeSeriesData.is_univariate data = true ->
     length (_ts_cols self) <> 1%nat ->
     exists msg, set_data self data = Raise (ValueError msg)) /\
  (length (_ts_cols self) <> width ->
     exists msg, extend_data self data = Raise (ValueError msg)) /\
  (length (_ts_cols self) = width ->
     contains (_ts_cols self) "time" = false ->
     List.NoDup (_ts_cols self) ->
     (forall df, data_df self = Some df ->
        Pd.has_column df "time" = false /\ List.NoDup (Pd.columns df)) ->
     exists self', extend_data self data = Ok self').
Proof.
  intros width. subst width. unfold set_data, extend_data, Pd.set_columns.
  destruct data as [tm [v|cols]];
    cbn [TimeSeriesData.is_univariate TimeSeriesData.value negb
         TimeSeriesData.to_dataframe TimeSeriesData.value_columns
         Pd.df_cols _ts_cols set__ts_cols set_num_series length].
  - split; [discriminate|]. split; [discriminate|]. split; [|split].
    + intros _ Hne.
      destruct (length (_ts_cols self) =? 1)%nat eqn:E;
        [apply Nat.eqb_eq in E; contradiction|].
      eexists. reflexivity.
    + intros Hne.
      destruct (length (_ts_cols self) =? 1)%nat eqn:E;
        [apply Nat.eqb_eq in E; contradiction|].
      eexists. reflexivity.
    + intros -> _ _ _. eexists. reflexivity.
  - split; [|split; [|split; [discriminate|split]]].
    + intros _ Ht. rewrite length_map, Nat.eqb_refl.
      cbn [mbind result_bind]. rewrite Ht. eexists. reflexivity.
    + intros _ Ht. rewrite length_map, Nat.eqb_refl.
      cbn [mbind result_bind]. rewrite Ht. eexists. reflexivity.
    + intros Hne.
      destruct (length (_ts_cols self) =? length cols)%nat eqn:E;
        [apply Nat.eqb_eq in E; contradiction|].
      eexists. reflexivity.
    + intros -> _ _ _. rewrite Nat.eqb_refl. eexists. reflexivity.
Qed.

Lemma X8_bind_and_extend_need_matching_columns_witness :
  exists msg, set_data two_columns_bound seven_values = Raise (ValueError msg).
Proof.
  exact (proj1 (proj2 (proj2 (X8_bind_and_extend_need_matching_columns
                                two_columns_bound seven_values)))
               eq_refl ltac:(discriminate)).
Defined.

End IntervalInvariants.

(** * Further properties of [PercentageChange] *)

Module ComparatorBehaviour.

Import PercentageChange ComparatorSpec Scenarios.

Lemma bound_univariate_statistics (iv : ChangePointInterval.t) :
  bound_univariate iv ->
  exists m v,
    ChangePointInterval.mean_val iv = Ok (Scalar m) /\
    ChangePointInterval.variance_val iv = Ok (Scalar v).
Proof.
  intros (Hn & df & Hdf & Hcol).
  unfold ChangePointInterval.mean_val, ChangePointInterval.variance_val,
    ChangePointInterval.data.
  rewrite Hn, Hdf. cbn [Z.eqb Pos.eqb].
  unfold Pd.has_column in Hcol. unfold Pd.getattr.
  destruct (Pd.lookup_col (Pd.df_cols df) "value") as [v|]; [|discriminate].
  cbn. destruct (Z.of_nat (length v) =? 1); eauto.
Qed.

Lemma unbound_univariate_statistics (iv : ChangePointInterval.t) :
  unbound_univariate iv ->
  ChangePointInterval.mean_val iv = Ok (Scalar 0%float) /\
  ChangePointInterval.variance_val iv = Ok (Scalar 0%float) /\
  ChangePointInterval.__len__ iv = 0.
Proof.
  intros (Hn & Hdf).
  unfold ChangePointInterval.mean_val, ChangePointInterval.variance_val,
    ChangePointInterval.data, ChangePointInterval.__len__.
  rewrite Hn, Hdf. repeat split.
Qed.

Lemma pooled_scalar (self : t) (v1 v2 : float) :
  ChangePointInterval.variance_val (previous self) = Ok (Scalar v1) ->
  ChangePointInterval.variance_val (current self) = Ok (Scalar v2) ->
  exists s, _pooled_stddev self = Ok (Scalar s).
Proof.
  intros H1 H2. unfold _pooled_stddev. rewrite H1, H2.
  cbn [mbind result_bind].
  destruct (_ || _); [now eauto|]. cbn.
  destruct (negb (use_corrected_scores self)); eauto.
Qed.

Section Scipy.

Variable t_sf : float -> Z -> float.
Variable t_ppf : float -> Z -> float.
Variable ttest_ind : list float -> list float -> float * float.
Variable multipletests : list float -> float -> string -> Result (list float).

(** X9: on a univariate comparator both of whose intervals are bound
    to data, [_ttest] raises nothing, whatever the sizes of the two
    samples: it sets a float t-score and a float p-value. *)
Theorem X9_ttest_returns_on_bound_intervals (self : t) :
  num_series self = 1 ->
  bound_univariate (current self) ->
  bound_univariate (previous self) ->
  exists t_score p_value,
    _ttest t_sf t_ppf ttest_ind multipletests self
    = Ok (set_ttest self (Scalar t_score) (Scalar p_value)).
Proof.
  intros Hn Hc Hp. unfold _ttest. rewrite Hn. cbn [Z.ltb Z.compare Pos.compare].
  destruct (_ && _); [now eauto|].
  unfold _ttest_manual.
  destruct (bound_univariate_statistics _ Hc) as (mc & vc & Hmc & Hvc).
  destruct (bound_univariate_statistics _ Hp) as (mp & vp & Hmp & Hvp).
  destruct (pooled_scalar self vp vc Hvp Hvc) as [s ->].
  rewrite Hmc, Hmp. cbn [mbind result_bind].
  destruct Hc as (_ & dfc & -> & _). cbn. eauto.
Qed.

(** X10: on a univariate comparator neither of whose intervals has
    data, [_ttest] raises [ZeroDivisionError]: the two means and the
    pooled standard deviation are Python's float 0.0, and the t-score
    is their quotient 0.0 / 0.0. [ratio_estimate] raises it for the
    same reason. *)
Theorem X10_ttest_raises_without_data (self : t) :
  num_series self = 1 ->
  unbound_univariate (current self) ->
  unbound_univariate (previous self) ->
  _ttest t_sf t_ppf ttest_ind multipletests self = Raise ZeroDivisionError /\
  ratio_estimate self = Raise ZeroDivisionError.
Proof.
  intros Hn Hc Hp.
  destruct (unbound_univariate_statistics _ Hc) as (Hmc & Hvc & Hlc).
  destruct (unbound_univariate_statistics _ Hp) as (Hmp & Hvp & Hlp).
  destruct Hc as [_ Hdc], Hp as [_ Hdp]. split.
  - unfold _ttest, _ttest_manual, _pooled_stddev.
    rewrite Hn, Hlc, Hlp, Hmc, Hmp, Hvc, Hvp, Hdc, Hdp. reflexivity.
  - unfold ratio_estimate. rewrite Hmc, Hmp, Hdc, Hdp. reflexivity.
Qed.

Lemma ttest_columns_length (cd pd : ArrayLike) (n : nat) :
  forall (tv pv tv' pv' : list float) (i : nat),
  ttest_columns ttest_ind cd pd tv pv i n = Ok (tv', pv') ->
  length tv = length pv ->
  length tv' = length tv /\ length pv' = length pv.
Proof.
  induction n as [|n IH]; intros tv pv tv' pv' i H Hlen.
  - cbn in H. now injection H as <- <-.
  - cbn [ttest_columns] in H.
    destruct (column cd i); cbn [mbind result_bind] in H; [|discriminate].
    destruct (column pd i); cbn [mbind result_bind] in H; [|discriminate].
    destruct (ttest_ind _ _) as [x y].
    destruct (i <? length tv)%nat; [|discriminate].
    apply IH in H; [|now rewrite !length_insert].
    now rewrite !length_insert in H.
Qed.

Lemma rescale_t_length (df : Z) (start : Num) (p : list float) (n : nat) :
  forall (ts ts' : list float) (i : nat),
  rescale_t t_ppf df start p ts i n = Ok ts' -> length ts' = length ts.
Proof.
  induction n as [|n IH]; intros ts ts' i H.
  - cbn in H. now injection H as <-.
  - cbn [rescale_t] in H.
    destruct (NumOps.getitem start i); cbn [mbind result_bind] in H;
      [|discriminate].
    destruct (index p i); cbn [mbind result_bind] in H; [|discriminate].
    destruct (i <? length ts)%nat; [|discriminate].
    apply IH in H. now rewrite length_insert in H.
Qed.

Lemma zeros_Ok (n : Z) (z : list float) :
  Np.zeros n = Ok z -> z = repeat 0%float (Z.to_nat n).
Proof.
  unfold Np.zeros. destruct (n <? 0); [discriminate|]. now intros [= <-].
Qed.

(** X11: when neither sample has exactly one point, a call of
    [_ttest_multivariate] that returns has set a vector t-score with
    one entry per series, and, when rescaling is skipped, a vector
    p-value with one entry per series. *)
Theorem X11_multivariate_ttest_lengths (self self' : t) :
  ChangePointInterval.__len__ (previous self) <> 1 ->
  ChangePointInterval.__len__ (current self) <> 1 ->
  _ttest_multivariate t_sf t_ppf ttest_ind multipletests self = Ok self' ->
  exists ts ps,
    self' = set_ttest self (Vector ts) (Vector ps) /\
    length ts = Z.to_nat (num_series self) /\
    (skip_rescaling self = true -> length ps = Z.to_nat (num_series self)).
Proof.
  intros H1 H2. unfold _ttest_multivariate.
  destruct (Np.zeros (num_series self)) as [z|] eqn:Hz;
    cbn [mbind result_bind]; [|discriminate].
  apply zeros_Ok in Hz.
  apply Z.eqb_neq in H1, H2. rewrite H1, H2. cbn [andb orb].
  destruct (ChangePointInterval.data (current self)) as [[cd|]|];
    cbn [mbind result_bind]; try discriminate;
    destruct (ChangePointInterval.data (previous self)) as [[pd|]|];
    cbn [mbind result_bind]; try discriminate.
  destruct (ttest_columns _ _ _ _ _ _ _) as [[tv pv]|] eqn:Hcols;
    cbn [mbind result_bind]; [|discriminate].
  apply ttest_columns_length in Hcols as [Ht Hp]; [|reflexivity].
  assert (Hzlen : length z = Z.to_nat (num_series self))
    by (subst z; apply repeat_length).
  destruct (skip_rescaling self).
  - intros [= <-]. exists tv, pv. split; [reflexivity|].
    split; [congruence|]. intros _. congruence.
  - destruct (multipletests _ _ _) as [p|]; cbn [mbind result_bind];
      [|discriminate].
    destruct (rescale_t _ _ _ _ _ _ _) as [ts|] eqn:Hts;
      cbn [mbind result_bind]; [|discriminate].
    apply rescale_t_length in Hts.
    intros [= <-]. exists ts, p. split; [reflexivity|].
    split; [congruence|discriminate].
Qed.

(** X12: when neither sample has exactly one point and one of the two
    intervals has no data, [_ttest_multivariate] raises [ValueError]
    with the message [Interval data not set]. *)
Theorem X12_multivariate_ttest_needs_data (self : t)
  (cd pd : option ArrayLike) :
  0 <= num_series self ->
  ChangePointInterval.__len__ (previous self) <> 1 ->
  ChangePointInterval.__len__ (current self) <> 1 ->
  ChangePointInterval.data (current self) = Ok cd ->
  ChangePointInterval.data (previous self) = Ok pd ->
  cd = None \/ pd = None ->
  _ttest_multivariate t_sf t_ppf ttest_ind multipletests self
  = Raise (ValueError "Interval data not set").
Proof.
  intros Hn H1 H2 Hc Hp Hnone. unfold _ttest_multivariate.
  unfold Np.zeros. destruct (num_series self <? 0) eqn:E;
    [apply Z.ltb_lt in E; lia|].
  cbn [mbind result_bind].
  apply Z.eqb_neq in H1, H2. rewrite H1, H2, Hc, Hp. cbn.
  destruct Hnone as [-> | ->]; [reflexivity|now destruct cd].
Qed.

Lemma abs_not_negative (x : float) : (abs x <? 0)%float = false.
Proof.
  rewrite ltb_spec, abs_spec.
  destruct (Prim2SF x) as [s|s| |s m e]; reflexivity.
Qed.

Lemma ttest_sets_scores (self self' : t) :
  _ttest t_sf t_ppf ttest_ind multipletests self = Ok self' ->
  exists ts ps, self' = set_ttest self ts ps.
Proof.
  unfold _ttest, _ttest_multivariate.
  destruct (1 <? num_series self).
  - intros H.
    repeat match type of H with
    | (_ ≫= _) = Ok _ =>
        apply AnomalyResponseProps.bind_Ok in H as (? & _ & H)
    | (if ?b then _ else _) = Ok _ => destruct b
    | (let (_, _) := ?p in _) = Ok _ => destruct p
    | (match ?p with _ => _ end) = Ok _ => destruct p
    end; injection H as <-; eauto.
  - destruct (_ && _); [intros [= <-]; eauto|].
    destruct (_ttest_manual _ _) as [[ts ps]|]; [|discriminate].
    cbn. intros [= <-]. eauto.
Qed.

(** X13: with the default [min_perc_change] of 0 the [score] property
    is the t-score of [_ttest], whatever the percent change (not-a-number
    included): no magnitude is below 0. On the first access, if [_ttest]
    and [perc_change] return, then [_ttest] has set a t-score, and
    [score] returns it with the comparator [_ttest] left, for a
    univariate comparator and for a multivariate one whose t-score has
    one entry per entry of the percent change. *)
Theorem X13_score_is_t_score_by_default (self self' : t) (pc : Num) :
  min_perc_change self = 0%float ->
  _t_score self = None ->
  _ttest t_sf t_ppf ttest_ind multipletests self = Ok self' ->
  perc_change self = Ok pc ->
  exists t_score,
    _t_score self' = Some t_score /\
    (num_series self = 1 -> forall x, pc = Scalar x ->
       score t_sf t_ppf ttest_ind multipletests self = Ok (t_score, self')) /\
    (num_series self <> 1 -> forall ps ts,
       pc = Vector ps -> t_score = Vector ts -> length ps = length ts ->
       score t_sf t_ppf ttest_ind multipletests self = Ok (t_score, self')).
Proof.
  intros Hm Hnone Ht Hpc.
  destruct (ttest_sets_scores _ _ Ht) as (ts0 & ps0 & ->).
  exists ts0. split; [reflexivity|].
  unfold score. rewrite Hnone, Ht. cbn [mbind result_bind].
  cbn [_t_score set_ttest].
  change (perc_change (set_ttest self ts0 ps0)) with (perc_change self).
  rewrite Hpc. cbn [mbind result_bind].
  change (num_series (set_ttest self ts0 ps0)) with (num_series self).
  change (min_perc_change (set_ttest self ts0 ps0))
    with (min_perc_change self).
  rewrite Hm. split.
  - intros -> x ->. cbn. now rewrite abs_not_negative.
  - intros Hn ps ts -> -> Hlen.
    destruct (num_series self =? 1) eqn:E; [apply Z.eqb_eq in E; lia|].
    unfold NumOps.map2.
    rewrite PercentageChangeProps.broadcast_same_length by exact Hlen.
    cbn [mbind result_bind]. do 3 f_equal.
    clear -Hlen. revert ts Hlen.
    induction ps as [|a ps IH]; intros [|b ts] Hlen;
      try discriminate Hlen; [reflexivity|].
    simpl. rewrite abs_not_negative. f_equal. apply IH. now injection Hlen.
Qed.

(** X14: the first access to [score] runs [_ttest] once and keeps its
    result: the comparator it leaves is the one [_ttest] leaves, a
    second access to [score] returns the same score and changes nothing,
    and [p_value] then returns the p-value of that run without running
    the test again. *)
Theorem X14_first_score_runs_the_test_once (self self' : t) (s : Num) :
  _t_score self = None ->
  score t_sf t_ppf ttest_ind multipletests self = Ok (s, self') ->
  exists t_score p,
    _ttest t_sf t_ppf ttest_ind multipletests self = Ok self' /\
    self' = set_ttest self t_score p /\
    score t_sf t_ppf ttest_ind multipletests self' = Ok (s, self') /\
    p_value t_sf t_ppf ttest_ind multipletests self' = Ok (p, self').
Proof.
  intros Hnone H. unfold score in H. rewrite Hnone in H.
  apply AnomalyResponseProps.bind_Ok in H as (self1 & Ht & H).
  destruct (ttest_sets_scores _ _ Ht) as (ts & ps & ->).
  exists ts, ps.
  assert (E : self' = set_ttest self ts ps).
  { cbn [_t_score set_ttest] in H.
    apply AnomalyResponseProps.bind_Ok in H as (pc & _ & H).
    destruct (num_series (set_ttest self ts ps) =? 1).
    - destruct pc as [x|[|x [|y xs]]]; try discriminate; now injection H.
    - apply AnomalyResponseProps.bind_Ok in H as (r & _ & H).
      now injection H. }
  subst self'. split; [exact Ht|]. split; [reflexivity|]. split.
  - unfold score at 1. cbn [_t_score set_ttest mbind result_bind].
    exact H.
  - reflexivity.
Qed.

End Scipy.

Lemma three_and_three_bound :
  bound_univariate (current three_and_three) /\
  bound_univariate (previous three_and_three).
Proof.
  split; (split; [reflexivity|]); eexists; split; reflexivity.
Qed.

Lemma X9_ttest_returns_on_bound_intervals_witness :
  exists t_score p_value,
    _ttest (fun _ _ => 0%float) (fun _ _ => 0%float)
      (fun _ _ => (0%float, 0%float)) (fun p _ _ => Ok p) three_and_three
    = Ok (set_ttest three_and_three (Scalar t_score) (Scalar p_value)).
Proof.
  exact (X9_ttest_returns_on_bound_intervals
           (fun _ _ => 0%float) (fun _ _ => 0%float)
           (fun _ _ => (0%float, 0%float)) (fun p _ _ => Ok p)
           three_and_three eq_refl
           (proj1 three_and_three_bound) (proj2 three_and_three_bound)).
Defined.

Lemma X10_ttest_raises_without_data_witness :
  _ttest (fun _ _ => 0%float) (fun _ _ => 0%float)
    (fun _ _ => (0%float, 0%float)) (fun p _ _ => Ok p) none_and_none
  = Raise ZeroDivisionError /\
  ratio_estimate none_and_none = Raise ZeroDivisionError.
Proof.
  exact (X10_ttest_raises_without_data
           (fun _ _ => 0%float) (fun _ _ => 0%float)
           (fun _ _ => (0%float, 0%float)) (fun p _ _ => Ok p)
           none_and_none eq_refl (conj eq_refl eq_refl)
           (conj eq_refl eq_refl)).
Defined.

Lemma X11_multivariate_ttest_lengths_witness :
  exists self' ts ps,
    _ttest_multivariate (fun _ _ => 0%float) (fun _ _ => 0%float)
      (fun _ _ => (0%float, 0%float)) (fun p _ _ => Ok p) two_and_two
    = Ok self' /\
    self' = set_ttest two_and_two (Vector ts) (Vector ps) /\
    length ts = 2%nat.
Proof.
  destruct (X11_multivariate_ttest_lengths
              (fun _ _ => 0%float) (fun _ _ => 0%float)
              (fun _ _ => (0%float, 0%float)) (fun p _ _ => Ok p)
              two_and_two _ ltac:(discriminate) ltac:(discriminate) eq_refl)
    as (ts & ps & E & Hlen & _).
  eexists. exists ts, ps. split; [reflexivity|]. split; [exact E|exact Hlen].
Defined.

Lemma X12_multivariate_ttest_needs_data_witness :
  _ttest_multivariate (fun _ _ => 0%float) (fun _ _ => 0%float)
    (fun _ _ => (0%float, 0%float)) (fun p _ _ => Ok p) two_and_none
  = Raise (ValueError "Interval data not set").
Proof.
  eapply (X12_multivariate_ttest_needs_data
            (fun _ _ => 0%float) (fun _ _ => 0%float)
            (fun _ _ => (0%float, 0%float)) (fun p _ _ => Ok p)
            two_and_none).
  - discriminate.
  - discriminate.
  - discriminate.
  - reflexivity.
  - reflexivity.
  - now right.
Defined.

Lemma X13_score_is_t_score_by_default_witness :
  exists t_score self',
    perc_change three_and_three = Ok (Scalar 100%float) /\
    _ttest (fun _ _ => 0%float) (fun _ _ => 0%float)
      (fun _ _ => (0%float, 0%float)) (fun p _ _ => Ok p) three_and_three
    = Ok self' /\
    score (fun _ _ => 0%float) (fun _ _ => 0%float)
      (fun _ _ => (0%float, 0%float)) (fun p _ _ => Ok p) three_and_three
    = Ok (t_score, self').
Proof.
  assert (Hpc : perc_change three_and_three = Ok (Scalar 100%float))
    by (vm_compute; reflexivity).
  destruct (X13_score_is_t_score_by_default
              (fun _ _ => 0%float) (fun _ _ => 0%float)
              (fun _ _ => (0%float, 0%float)) (fun p _ _ => Ok p)
              three_and_three _ _ eq_refl eq_refl eq_refl Hpc)
    as (t_score & _ & Huni & _).
  exists t_score. eexists. split; [exact Hpc|]. split; [reflexivity|].
  exact (Huni eq_refl _ eq_refl).
Defined.

Lemma X14_first_score_runs_the_test_once_witness :
  exists s self',
    score (fun _ _ => 0%float) (fun _ _ => 0%float)
      (fun _ _ => (0%float, 0%float)) (fun p _ _ => Ok p) three_and_three
    = Ok (s, self') /\
    score (fun _ _ => 0%float) (fun _ _ => 0%float)
      (fun _ _ => (0%float, 0%float)) (fun p _ _ => Ok p) self'
    = Ok (s, self').
Proof.
  do 2 eexists. split; [vm_compute; reflexivity|].
  destruct (X14_first_score_runs_the_test_once
              (fun _ _ => 0%float) (fun _ _ => 0%float)
              (fun _ _ => (0%float, 0%float)) (fun p _ _ => Ok p)
              three_and_three _ _ eq_refl ltac:(vm_compute; reflexivity))
    as (ts & p & _ & _ & H & _).
  exact H.
Defined.

End ComparatorBehaviour.

(** * Further properties of [AnomalyResponse] *)

Module ResponseBehaviour.

Import AnomalyResponse ResponseSpec Scenarios AnomalyResponseProps.

(** *** [_update_ts_slice] *)

Lemma sorted_tail_snoc (tm : list datetime) (time : datetime) :
  Sorted Z.le (tm ++ [time]) -> Sorted Z.le (tail tm ++ [time]).
Proof.
  destruct tm as [|t0 tm]; simpl; [auto|]. intros H. now inversion H.
Qed.

Lemma aligned_slide (time : datetime) (x : float) (ts : TimeSeriesData.t) :
  aligned ts -> aligned (slide time x ts).
Proof.
  intros (v & Hv & Hlen). exists (tail v ++ [x]). unfold slide.
  rewrite Hv. split; [reflexivity|]. cbn [TimeSeriesData.time].
  rewrite !length_app.
  destruct v, (TimeSeriesData.time ts); simpl in *; lia.
Qed.

(** X15: on a univariate response, [_update_ts_slice] of an aligned
    series in time order and a float, at a [time] not before the
    timestamps of the series, returns an aligned series in time order:
    the old one with its first point dropped and the point [(time, x)]
    added. A series that has points keeps its length (an empty one gets
    one point), the newest timestamp is [time], and the timestamps
    before it are the old ones moved up by one place. *)
Theorem X15_update_ts_slice_univariate (self : t) (ts : TimeSeriesData.t)
  (time : datetime) (x : float) :
  num_series self = 1 ->
  aligned ts ->
  Sorted Z.le (TimeSeriesData.time ts ++ [time]) ->
  let new := slide time x ts in
  _update_ts_slice self ts time (Scalar x) = Ok new /\
  aligned new /\
  Sorted Z.le (TimeSeriesData.time new) /\
  length (TimeSeriesData.time new)
    = Nat.max 1 (length (TimeSeriesData.time ts)) /\
  last (TimeSeriesData.time new) = Some time /\
  (forall i : nat,
     (S i < length (TimeSeriesData.time ts))%nat ->
     TimeSeriesData.time new !! i = TimeSeriesData.time ts !! S i).
Proof.
  intros Hn Hal Hord new.
  split; [|split; [now apply aligned_slide|]];
    [|split; [now apply sorted_tail_snoc|]].
  - destruct Hal as (v & Hv & Hlen).
    unfold _update_ts_slice, new, slide, new_TimeSeriesData.
    rewrite Hn, Hv. cbn [Z.eqb Pos.eqb series_of].
    assert (Hal : (length (tail v ++ [x])
                   =? length (tail (TimeSeriesData.time ts) ++ [time]))%nat
                  = true).
    { apply Nat.eqb_eq. rewrite !length_app.
      destruct v, (TimeSeriesData.time ts); simpl in *; lia. }
    now rewrite Hal.
  - unfold new, slide. cbn [TimeSeriesData.time].
    split; [|split].
    + rewrite length_app. destruct (TimeSeriesData.time ts); simpl; lia.
    + apply last_snoc.
    + intros i Hi. destruct (TimeSeriesData.time ts) as [|t0 tm];
        [simpl in Hi; lia|].
      simpl in *. rewrite lookup_app_l by lia. reflexivity.
Qed.

Lemma X15_update_ts_slice_univariate_witness :
  _update_ts_slice plain_response (three_points [1; 2; 3]%float) 4
    (Scalar 9%float)
  = Ok (TimeSeriesData.mk [2; 3; 4] (TimeSeriesData.Series [2; 3; 9]%float)).
Proof.
  apply (X15_update_ts_slice_univariate plain_response
           (three_points [1; 2; 3]%float) 4 9%float eq_refl).
  - eexists. split; reflexivity.
  - repeat constructor. all: discriminate.
Defined.

Lemma index_lookup {A} (l : list A) (i : nat) (x : A) :
  index l i = Ok x <-> l !! i = Some x.
Proof.
  unfold index.
  replace (l !! i) with (nth_error l i).
  - destruct (nth_error l i); split; congruence.
  - revert i. induction l as [|a l IH]; intros [|i]; simpl; auto.
Qed.

Lemma update_columns_spec (ts : TimeSeriesData.t)
  (cols : list (string * list float)) (value : list float) :
  TimeSeriesData.value ts = TimeSeriesData.Frame cols ->
  forall (key_mapping : list string) (i : nat),
  Forall (fun k => Pd.lookup_col cols k <> None) key_mapping ->
  (i + length key_mapping <= length value)%nat ->
  exists cols',
    update_columns ts value i key_mapping = Ok cols' /\
    slid_columns cols cols' key_mapping value i.
Proof.
  intros Hv key_mapping.
  induction key_mapping as [|k keys IH]; intros i Hkeys Hlen.
  - exists []. split; [reflexivity|]. split; [reflexivity|].
    intros j k' Hj. discriminate.
  - inversion Hkeys as [|? ? Hk Hkeys']; subst.
    cbn [update_columns]. unfold value_column. rewrite Hv.
    destruct (Pd.lookup_col cols k) as [col|] eqn:Hcol; [|contradiction].
    cbn [mbind result_bind].
    simpl in Hlen.
    destruct (PdFacts.index_lt value i ltac:(lia)) as [x Hx].
    rewrite Hx. cbn [mbind result_bind].
    destruct (IH (S i) Hkeys' ltac:(lia)) as (cols' & -> & Hlen' & Hspec).
    cbn [mbind result_bind]. eexists. split; [reflexivity|].
    split; [simpl; now rewrite Hlen'|].
    intros [|j] k' Hj.
    + injection Hj as <-. exists col, x. split; [exact Hcol|].
      split; [|reflexivity]. rewrite Nat.add_0_r. now apply index_lookup.
    + destruct (Hspec j k' Hj) as (c & y & H1 & H2 & H3).
      exists c, y. split; [exact H1|]. split; [|exact H3].
      now rewrite <- Nat.add_succ_comm.
Qed.

(** X16: on a multivariate response (at least two series, named by
    distinct keys, none of them ["time"]), [_update_ts_slice] of a
    series in time order that has an aligned column under every key, at
    a [time] not before its timestamps, and an array with at least one
    entry per key returns the series, in time order, in which every
    key's column has lost its first entry and gained the entry of the
    array at the position of the key. Entries of the array beyond the
    number of keys are ignored. *)
Theorem X16_update_ts_slice_multivariate (self : t) (ts : TimeSeriesData.t)
  (cols : list (string * list float)) (time : datetime) (value : list float) :
  2 <= num_series self ->
  Z.of_nat (length (key_mapping self)) = num_series self ->
  List.NoDup (key_mapping self) ->
  ~ In "time" (key_mapping self) ->
  TimeSeriesData.value ts = TimeSeriesData.Frame cols ->
  Forall (fun k => exists col,
            Pd.lookup_col cols k = Some col /\
            length col = length (TimeSeriesData.time ts)) (key_mapping self) ->
  Sorted Z.le (TimeSeriesData.time ts ++ [time]) ->
  (length (key_mapping self) <= length value)%nat ->
  exists cols',
    _update_ts_slice self ts time (Vector value)
    = Ok (TimeSeriesData.mk (tail (TimeSeriesData.time ts) ++ [time])
            (TimeSeriesData.Frame cols')) /\
    Sorted Z.le (tail (TimeSeriesData.time ts) ++ [time]) /\
    slid_columns cols cols' (key_mapping self) value 0.
Proof.
  intros Hn _ _ _ Hv Hkeys Hord Hlen.
  assert (Hpresent : Forall (fun k => Pd.lookup_col cols k <> None)
                            (key_mapping self)).
  { eapply List.Forall_impl; [|exact Hkeys].
    intros k (col & -> & _). discriminate. }
  destruct (update_columns_spec ts cols value Hv (key_mapping self) 0%nat
              Hpresent ltac:(lia)) as (cols' & Hcols & Hspec).
  exists cols'. split; [|split; [now apply sorted_tail_snoc|exact Hspec]].
  unfold _update_ts_slice.
  destruct (num_series self =? 1) eqn:E; [apply Z.eqb_eq in E; lia|].
  rewrite Hcols. cbn [mbind result_bind]. unfold new_TimeSeriesData.
  assert (Hal : forallb
                  (fun p : string * list float =>
                     (length (snd p)
                      =? length (tail (TimeSeriesData.time ts) ++ [time]))%nat)
                  cols' = true).
  { apply forallb_forall. intros [k c] Hin.
    apply list_elem_of_In, list_elem_of_lookup in Hin as [j Hj].
    destruct Hspec as [Hl Hspec].
    assert (Hk : exists k', key_mapping self !! j = Some k').
    { apply lookup_lt_is_Some. rewrite <- Hl. now apply lookup_lt_Some in Hj. }
    destruct Hk as [k' Hk'].
    destruct (Hspec j k' Hk') as (col & x & Hcol & _ & Hj').
    rewrite Hj in Hj'. injection Hj' as -> ->.
    rewrite List.Forall_forall in Hkeys.
    destruct (Hkeys k') as (col' & Hcol' & Hlen').
    { apply list_elem_of_In. eapply list_elem_of_lookup_2, Hk'. }
    rewrite Hcol in Hcol'. injection Hcol' as <-.
    cbn [snd]. apply Nat.eqb_eq. rewrite !length_app.
    destruct col, (TimeSeriesData.time ts); simpl in *; lia. }
  now rewrite Hal.
Qed.

Lemma X16_update_ts_slice_multivariate_witness :
  exists cols',
    _update_ts_slice frame_response two_columns 4 (Vector [7; 8; 9]%float)
    = Ok (TimeSeriesData.mk [2; 3; 4] (TimeSeriesData.Frame cols')) /\
    Sorted Z.le [2; 3; 4] /\
    slid_columns [("a", [1; 2; 3]%float); ("b", [4; 4; 5]%float)] cols'
      ["a"; "b"] [7; 8; 9]%float 0.
Proof.
  apply (X16_update_ts_slice_multivariate frame_response two_columns
           [("a", [1; 2; 3]%float); ("b", [4; 4; 5]%float)] 4
           [7; 8; 9]%float).
  - cbn. lia.
  - reflexivity.
  - repeat constructor. all: simpl; intuition discriminate.
  - simpl. intuition discriminate.
  - reflexivity.
  - repeat constructor; eexists; split; reflexivity.
  - repeat constructor. all: discriminate.
  - simpl. lia.
Defined.

(** X17: what the multivariate [_update_ts_slice] refuses. A float
    raises [ValueError]; an array with fewer entries than keys, on a
    series that has a column under every key, raises [IndexError]; a
    key that the series has no column for, the first such key being
    within the length of the array, raises [KeyError] with that key. *)
Theorem X17_update_ts_slice_multivariate_rejects (self : t)
  (ts : TimeSeriesData.t) (cols : list (string * list float))
  (time : datetime) :
  num_series self <> 1 ->
  TimeSeriesData.value ts = TimeSeriesData.Frame cols ->
  (forall x : float,
     exists msg, _update_ts_slice self ts time (Scalar x)
                 = Raise (ValueError msg)) /\
  (forall value : list float,
     Forall (fun k => Pd.lookup_col cols k <> None) (key_mapping self) ->
     (length value < length (key_mapping self))%nat ->
     _update_ts_slice self ts time (Vector value) = Raise IndexError) /\
  (forall (value : list float) (pre : list string) (k : string)
          (rest : list string),
     key_mapping self = pre ++ k :: rest ->
     Forall (fun k' => Pd.lookup_col cols k' <> None) pre ->
     (length pre <= length value)%nat ->
     Pd.lookup_col cols k = None ->
     _update_ts_slice self ts time (Vector value) = Raise (KeyError k)).
Proof.
  intros Hn Hv. unfold _update_ts_slice.
  destruct (num_series self =? 1) eqn:E; [apply Z.eqb_eq in E; lia|].
  split; [intros x; eexists; reflexivity|]. split.
  - intros value Hkeys Hlen.
    enough (H : forall keys i,
              Forall (fun k => Pd.lookup_col cols k <> None) keys ->
              (i <= length value < i + length keys)%nat ->
              update_columns ts value i keys = Raise IndexError).
    { rewrite (H (key_mapping self) 0%nat Hkeys); [reflexivity|].
      simpl. lia. }
    clear Hkeys Hlen. intros keys.
    induction keys as [|k keys IH]; intros i Hkeys Hlen;
      [simpl in Hlen; lia|].
    inversion Hkeys as [|? ? Hk Hkeys']; subst.
    cbn [update_columns]. unfold value_column. rewrite Hv.
    destruct (Pd.lookup_col cols k) as [col|]; [|contradiction].
    cbn [mbind result_bind]. unfold index.
    destruct (nth_error value i) as [x|] eqn:Hx; [|reflexivity].
    cbn [mbind result_bind].
    assert (Hi : (i < length value)%nat).
    { apply nth_error_Some. congruence. }
    rewrite (IH (S i) Hkeys'); [reflexivity|]. simpl in Hlen. lia.
  - intros value pre k rest -> Hpre Hlen Hk.
    enough (H : forall i,
              (i + length pre <= length value)%nat ->
              update_columns ts value i (pre ++ k :: rest)
              = Raise (KeyError k)).
    { now rewrite (H 0%nat Hlen). }
    clear Hlen.
    induction Hpre as [|k' pre Hk' _ IH]; intros i Hlen.
    + cbn [app update_columns]. unfold value_column. now rewrite Hv, Hk.
    + cbn [app update_columns]. unfold value_column. rewrite Hv.
      destruct (Pd.lookup_col cols k') as [col|]; [|contradiction].
      cbn [mbind result_bind]. simpl in Hlen.
      destruct (PdFacts.index_lt value i ltac:(lia)) as [x ->].
      cbn [mbind result_bind].
      rewrite (IH (S i)); [reflexivity|lia].
Qed.

Lemma X17_update_ts_slice_multivariate_rejects_witness :
  _update_ts_slice frame_response two_columns 4 (Vector [7%float])
  = Raise IndexError.
Proof.
  apply (proj1 (proj2 (X17_update_ts_slice_multivariate_rejects
                         frame_response two_columns
                         [("a", [1; 2; 3]%float); ("b", [4; 4; 5]%float)] 4
                         ltac:(discriminate) eq_refl))).
  - repeat constructor; discriminate.
  - simpl. lia.
Defined.


(** *** [update] *)

Lemma update_keeps_shape (self self' : t) (h h' : heap) (time : datetime)
  (score ci_upper ci_lower pred anom_mag stat_sig : Num) :
  update self h time score ci_upper ci_lower pred anom_mag stat_sig
    = Ok (h', self') ->
  num_series self' = num_series self /\
  key_mapping self' = key_mapping self.
Proof.
  unfold update. intros H.
  apply bind_Ok in H as ([h1 r1] & _ & H).
  apply bind_Ok in H as ([h2 self2] & H2 & H).
  assert (S2 : num_series self2 = num_series self /\
               key_mapping self2 = key_mapping self).
  { cbn in H2. destruct (confidence_band self) as [cb|].
    - apply bind_Ok in H2 as ([ha lo] & _ & H2).
      apply bind_Ok in H2 as ([hb up] & _ & H2).
      injection H2 as <- <-. now cbn.
    - injection H2 as <- <-. now cbn. }
  apply bind_Ok in H as ([h3 self3] & H3 & H).
  assert (S3 : num_series self3 = num_series self /\
               key_mapping self3 = key_mapping self).
  { destruct (predicted_ts self2) as [p|].
    - apply bind_Ok in H3 as ([ha r] & _ & H3).
      injection H3 as <- <-. now cbn.
    - now injection H3 as <- <-. }
  apply bind_Ok in H as ([h4 r4] & _ & H).
  cbn in H. destruct (stat_sig_ts self3) as [st|].
  - apply bind_Ok in H as ([h5 r5] & _ & H).
    injection H as <- <-. now cbn.
  - injection H as <- <-. now cbn.
Qed.

Lemma slide_held (h : heap) (r : ref) (time : datetime) (x : float)
  (o : option TimeSeriesData.t) :
  (exists ts, o = Some ts /\ aligned ts) ->
  h !! r = slide time x <$> o -> held h r.
Proof.
  intros (ts & -> & Hal) Hr. exists (slide time x ts).
  split; [exact Hr|now apply aligned_slide].
Qed.

(** X18: [update] keeps a univariate response univariate with aligned
    series, so that it can be called again, as often as there are
    points to add; every object that existed before the call has the
    contents it had, and the response as it was before the call still
    reads aligned series in the heap the call leaves. *)
Theorem X18_update_keeps_univariate (self : t) (h : heap) (time : datetime)
  (score ci_upper ci_lower pred anom_mag stat_sig : float) :
  univariate h self ->
  exists h' self',
    update self h time (Scalar score) (Scalar ci_upper) (Scalar ci_lower)
      (Scalar pred) (Scalar anom_mag) (Scalar stat_sig) = Ok (h', self') /\
    univariate h' self' /\ univariate h' self /\ grows h h'.
Proof.
  intros Hu.
  destruct (update_univariate self h time score ci_upper ci_lower pred
              anom_mag stat_sig Hu) as (h' & self' & Hup & Hc).
  exists h', self'. split; [exact Hup|].
  destruct (update_allocates _ _ _ _ _ _ _ _ _ _ _ Hup)
    as (Hg & _ & _ & Ecb & Ep & Est).
  destruct (update_keeps_shape _ _ _ _ _ _ _ _ _ _ _ Hup) as [En _].
  destruct Hu as (Hn & Hs & Hcb & Hp & Ha & Hst).
  split; [|split; [|exact Hg]].
  - injection Hc as Cs Cl Cu Cp Ca Cst.
    split; [congruence|].
    split; [exact (slide_held _ _ _ _ _ Hs Cs)|].
    split; [|split; [|split]].
    + intros cb' Hcb'. rewrite Hcb' in Cl, Cu, Ecb.
      destruct (confidence_band self) as [cb|]; [|discriminate].
      destruct (Hcb cb eq_refl) as [Hl Hu']. cbn in Cl, Cu.
      split; [exact (slide_held _ _ _ _ _ Hl Cl)
             |exact (slide_held _ _ _ _ _ Hu' Cu)].
    + intros r Hr. rewrite Hr in Cp, Ep.
      destruct (predicted_ts self) as [p|]; [|discriminate].
      cbn in Cp. exact (slide_held _ _ _ _ _ (Hp p eq_refl) Cp).
    + exact (slide_held _ _ _ _ _ Ha Ca).
    + intros r Hr. rewrite Hr in Cst, Est.
      destruct (stat_sig_ts self) as [p|]; [|discriminate].
      cbn in Cst. exact (slide_held _ _ _ _ _ (Hst p eq_refl) Cst).
  - split; [exact Hn|].
    split; [now apply (held_grows h)|].
    split; [|split; [|split]].
    + intros cb Hcb'. destruct (Hcb cb Hcb').
      split; now apply (held_grows h).
    + intros r Hr. apply (held_grows h); auto.
    + now apply (held_grows h).
    + intros r Hr. apply (held_grows h); auto.
Qed.

Lemma X18_update_keeps_univariate_witness :
  exists h' self',
    update plain_response two_series 4 (Scalar 9) (Scalar 0) (Scalar 0)
      (Scalar 0) (Scalar 7) (Scalar 0) = Ok (h', self') /\
    univariate h' self' /\ univariate h' plain_response /\
    grows two_series h'.
Proof.
  exact (X18_update_keeps_univariate plain_response two_series 4
           9%float 0%float 0%float 0%float 7%float 0%float
           plain_response_univariate).
Defined.


(** *** [inplace_update] *)

Ltac in_components :=
  unfold components; apply list_elem_of_In;
  repeat match goal with H : _ = Some _ |- _ => rewrite H; clear H end;
  repeat match goal with |- context [match ?o with _ => _ end] =>
    destruct o end;
  simpl; tauto.

Lemma components_scores (self : t) : scores self ∈ components self.
Proof. in_components. Qed.

Lemma components_anomaly_magnitude_ts (self : t) :
  anomaly_magnitude_ts self ∈ components self.
Proof. in_components. Qed.

Lemma components_confidence_band (self : t) (cb : ConfidenceBand) :
  confidence_band self = Some cb ->
  lower cb ∈ components self /\ upper cb ∈ components self.
Proof. intros E. split; in_components. Qed.

Lemma components_predicted_ts (self : t) (r : ref) :
  predicted_ts self = Some r -> r ∈ components self.
Proof. intros E. in_components. Qed.

Lemma components_stat_sig_ts (self : t) (r : ref) :
  stat_sig_ts self = Some r -> r ∈ components self.
Proof. intros E. in_components. Qed.

Lemma assign_where_length (tm : list datetime) (time : datetime) (x : float) :
  forall v, length (assign_where tm time x v) = length v.
Proof.
  induction tm as [|t0 tm IH]; intros [|v0 v]; simpl; auto.
Qed.

Lemma assign_list_where_length (tm : list datetime) (time : datetime) :
  forall xs v, length (assign_list_where tm time xs v) = length v.
Proof.
  induction tm as [|t0 tm IH]; intros xs [|v0 v]; simpl; auto.
  destruct (t0 =? time); [destruct xs|]; simpl; auto.
Qed.

Lemma assign_where_lookup (tm : list datetime) (time : datetime) (x : float) :
  forall (v : list float) (i : nat) (t0 : datetime),
  length v = length tm ->
  tm !! i = Some t0 ->
  assign_where tm time x v !! i = if t0 =? time then Some x else v !! i.
Proof.
  induction tm as [|t1 tm IH]; intros [|v0 v] i t0 Hlen Hi;
    try discriminate.
  destruct i as [|i]; simpl in *.
  - injection Hi as ->. now destruct (t0 =? time).
  - apply IH; [lia|exact Hi].
Qed.

(** X19: on a univariate response, [_inplace_update_ts] with a float
    writes the object itself: the series keeps its timestamps and its
    length, every row whose timestamp is [time] holds [x] (all of them,
    when the timestamp occurs more than once), and every other row
    holds what it held. *)
Theorem X19_inplace_update_ts_univariate (self : t) (h : heap) (r : ref)
  (tm : list datetime) (v : list float) (time : datetime) (x : float) :
  num_series self = 1 ->
  h !! r = Some (TimeSeriesData.mk tm (TimeSeriesData.Series v)) ->
  length v = length tm ->
  exists v',
    _inplace_update_ts self h (Some r) time (Scalar x)
    = Ok (<[r := TimeSeriesData.mk tm (TimeSeriesData.Series v')]> h) /\
    length v' = length v /\
    forall (i : nat) (t0 : datetime),
      tm !! i = Some t0 ->
      v' !! i = if t0 =? time then Some x else v !! i.
Proof.
  intros Hn Hr Hlen. exists (assign_where tm time x v).
  split; [|split].
  - unfold _inplace_update_ts, deref. rewrite Hr, Hn. reflexivity.
  - apply assign_where_length.
  - intros i t0 Hi. now apply assign_where_lookup.
Qed.

Lemma X19_inplace_update_ts_univariate_witness :
  exists v',
    _inplace_update_ts plain_response two_series (Some 0%nat) 2
      (Scalar 9%float)
    = Ok (<[0%nat := TimeSeriesData.mk [1; 2; 3]
                       (TimeSeriesData.Series v')]> two_series) /\
    length v' = 3%nat /\
    forall (i : nat) (t0 : datetime),
      [1; 2; 3] !! i = Some t0 ->
      v' !! i = if t0 =? 2 then Some 9%float else [1; 2; 3]%float !! i.
Proof.
  exact (X19_inplace_update_ts_univariate plain_response two_series 0%nat
           [1; 2; 3] [1; 2; 3]%float 2 9%float eq_refl eq_refl eq_refl).
Defined.

(** X20: on a multivariate response, [_inplace_update_ts] with an
    array of one entry per column writes the object itself: the columns
    keep their names and lengths, and in the [j]-th column every row
    whose timestamp is [time] holds the [j]-th entry of the array, every
    other row what it held. *)
Theorem X20_inplace_update_ts_multivariate (self : t) (h : heap) (r : ref)
  (tm : list datetime) (cols : list (string * list float))
  (time : datetime) (xs : list float) :
  num_series self <> 1 ->
  h !! r = Some (TimeSeriesData.mk tm (TimeSeriesData.Frame cols)) ->
  Forall (fun p => length (snd p) = length tm) cols ->
  length xs = length cols ->
  exists cols',
    _inplace_update_ts self h (Some r) time (Vector xs)
    = Ok (<[r := TimeSeriesData.mk tm (TimeSeriesData.Frame cols')]> h) /\
    map fst cols' = map fst cols /\
    forall (j : nat) (name : string) (v : list float) (x : float),
      cols !! j = Some (name, v) -> xs !! j = Some x ->
      exists v',
        cols' !! j = Some (name, v') /\
        length v' = length v /\
        forall (i : nat) (t0 : datetime),
          tm !! i = Some t0 ->
          v' !! i = if t0 =? time then Some x else v !! i.
Proof.
  intros Hn Hr Hal Hlen.
  eexists. split; [|split].
  - unfold _inplace_update_ts, deref. rewrite Hr.
    cbn [mbind result_bind TimeSeriesData.time TimeSeriesData.value].
    destruct (num_series self =? 1) eqn:E; [apply Z.eqb_eq in E; lia|].
    rewrite Hlen, Nat.eqb_refl. reflexivity.
  - clear Hal Hr. revert xs Hlen.
    induction cols as [|[name v] cols IH]; intros [|x xs] Hlen;
      try discriminate; [reflexivity|].
    simpl. f_equal. apply IH. now injection Hlen.
  - intros j name v x Hj Hx.
    exists (assign_where tm time x v).
    split; [|split].
    + rewrite list_lookup_fmap.
      assert (Hc : combine cols xs !! j = Some ((name, v), x)).
      { clear Hal Hr Hlen. revert xs j Hj Hx.
        induction cols as [|c cols IH]; intros [|y xs] [|j] Hj Hx;
          try discriminate; simpl in *.
        - now injection Hj as ->; injection Hx as ->.
        - now apply IH. }
      now rewrite Hc.
    + apply assign_where_length.
    + intros i t0 Hi. apply assign_where_lookup; [|exact Hi].
      rewrite List.Forall_forall in Hal.
      apply (Hal (name, v)). apply list_elem_of_In.
      eapply list_elem_of_lookup_2, Hj.
Qed.

Lemma X20_inplace_update_ts_multivariate_witness :
  exists cols',
    _inplace_update_ts frame_response one_frame (Some 0%nat) 2
      (Vector [7; 8]%float)
    = Ok (<[0%nat := TimeSeriesData.mk [1; 2; 3]
                       (TimeSeriesData.Frame cols')]> one_frame) /\
    map fst cols' = ["a"; "b"].
Proof.
  destruct (X20_inplace_update_ts_multivariate frame_response one_frame
              0%nat [1; 2; 3]
              [("a", [1; 2; 3]%float); ("b", [4; 4; 5]%float)] 2
              [7; 8]%float ltac:(discriminate) eq_refl
              ltac:(repeat constructor) eq_refl)
    as (cols' & E & Hnames & _).
  exists cols'. split; [exact E|exact Hnames].
Defined.

Lemma layout_assign_every (tm : list datetime) (time : datetime)
  (x : float) (cols : list (string * list float)) :
  layout (TimeSeriesData.mk tm
            (TimeSeriesData.Frame
               (map (fun p : string * list float =>
                       (fst p, assign_where tm time x (snd p))) cols)))
  = layout (TimeSeriesData.mk tm (TimeSeriesData.Frame cols)).
Proof.
  unfold layout. cbn. f_equal. rewrite map_map. apply map_ext.
  intros [name v]. cbn. now rewrite assign_where_length.
Qed.

Lemma layout_assign_each (tm : list datetime) (time : datetime)
  (cols : list (string * list float)) : forall xs : list float,
  length xs = length cols ->
  layout (TimeSeriesData.mk tm
            (TimeSeriesData.Frame
               (map (fun q : (string * list float) * float =>
                       (fst (fst q),
                        assign_where tm time (snd q) (snd (fst q))))
                    (combine cols xs))))
  = layout (TimeSeriesData.mk tm (TimeSeriesData.Frame cols)).
Proof.
  unfold layout. cbn. intros xs Hlen. f_equal. revert xs Hlen.
  induction cols as [|[name v] cols IH]; intros [|x xs] Hlen;
    try discriminate; [reflexivity|].
  cbn. rewrite assign_where_length. f_equal. apply IH. now injection Hlen.
Qed.

Lemma written_within_refl (rs : list ref) (h : heap) : written_within rs h h.
Proof. now split. Qed.

Lemma written_within_trans (rs : list ref) (h1 h2 h3 : heap) :
  written_within rs h1 h2 -> written_within rs h2 h3 ->
  written_within rs h1 h3.
Proof.
  intros [L12 F12] [L23 F23]. split.
  - intros r. now rewrite L23.
  - intros r Hr. now rewrite F23, F12.
Qed.

Lemma written_within_insert (rs : list ref) (h : heap) (r : ref)
  (old new : TimeSeriesData.t) :
  r ∈ rs -> h !! r = Some old -> layout new = layout old ->
  written_within rs h (<[r := new]> h).
Proof.
  intros Hin Hr Hl. split.
  - intros q. destruct (decide (q = r)) as [->|Hq].
    + rewrite lookup_insert_eq, Hr. cbn. now rewrite Hl.
    + now rewrite lookup_insert_ne.
  - intros q Hq. rewrite lookup_insert_ne; [reflexivity|].
    intros <-. contradiction.
Qed.

Lemma _inplace_update_ts_written (rs : list ref) (self : t) (h h' : heap)
  (r : ref) (time : datetime) (value : Num) :
  r ∈ rs ->
  _inplace_update_ts self h (Some r) time value = Ok h' ->
  written_within rs h h'.
Proof.
  intros Hin. unfold _inplace_update_ts, deref.
  destruct (h !! r) as [[tm val]|] eqn:Hr; [|discriminate].
  cbn [mbind result_bind TimeSeriesData.time TimeSeriesData.value].
  destruct (num_series self =? 1), val as [v|cols], value as [x|xs];
    try discriminate.
  - intros [= <-]. eapply written_within_insert; [exact Hin|exact Hr|].
    unfold layout. cbn. now rewrite assign_where_length.
  - destruct (length xs =? selected tm time)%nat.
    + intros [= <-]. eapply written_within_insert; [exact Hin|exact Hr|].
      unfold layout. cbn. now rewrite assign_list_where_length.
    + destruct (length xs =? length tm)%nat; [|discriminate].
      destruct xs as [|x [|y xs]]; try discriminate.
      intros [= <-]. eapply written_within_insert; [exact Hin|exact Hr|].
      unfold layout. cbn. now rewrite assign_where_length.
  - intros [= <-]. eapply written_within_insert; [exact Hin|exact Hr|].
    apply layout_assign_every.
  - intros [= <-]. eapply written_within_insert; [exact Hin|exact Hr|].
    apply layout_assign_every.
  - destruct (length xs =? length cols)%nat eqn:E; [|discriminate].
    apply Nat.eqb_eq in E.
    intros [= <-]. eapply written_within_insert; [exact Hin|exact Hr|].
    now apply layout_assign_each.
Qed.

(** X21: whatever it is given, an [inplace_update] that returns has
    created and deleted no object, has written to no object other than
    the series the response holds, and has left every series its
    timestamps and the names and lengths of its columns: only values
    were written. *)
Theorem X21_inplace_update_writes_values_only (self : t) (h h' : heap)
  (time : datetime) (score ci_upper ci_lower pred anom_mag stat_sig : Num) :
  inplace_update self h time score ci_upper ci_lower pred anom_mag stat_sig
    = Ok h' ->
  written_within (components self) h h'.
Proof.
  unfold inplace_update, components. intros H.
  pose proof (components_scores self) as Hs.
  pose proof (components_anomaly_magnitude_ts self) as Ha.
  pose proof (components_confidence_band self) as Hcb.
  pose proof (components_predicted_ts self) as Hp.
  pose proof (components_stat_sig_ts self) as Hst.
  unfold components in Hs, Ha, Hcb, Hp, Hst.
  set (rs := scores self :: _) in *. clearbody rs.
  apply bind_Ok in H as (h1 & H1 & H).
  apply (_inplace_update_ts_written rs) in H1; [|exact Hs].
  apply bind_Ok in H as (h2 & H2 & H).
  assert (W2 : written_within rs h1 h2).
  { destruct (confidence_band self) as [cb|].
    - destruct (Hcb cb eq_refl) as [Hl Hu].
      apply bind_Ok in H2 as (ha & Ha' & H2).
      apply (_inplace_update_ts_written rs) in Ha'; [|exact Hl].
      apply (_inplace_update_ts_written rs) in H2; [|exact Hu].
      eapply written_within_trans; eassumption.
    - injection H2 as <-. apply written_within_refl. }
  apply bind_Ok in H as (h3 & H3 & H).
  assert (W3 : written_within rs h2 h3).
  { destruct (predicted_ts self) as [p|].
    - apply (_inplace_update_ts_written rs) in H3; [exact H3|now apply Hp].
    - injection H3 as <-. apply written_within_refl. }
  apply bind_Ok in H as (h4 & H4 & H).
  apply (_inplace_update_ts_written rs) in H4; [|exact Ha].
  assert (W5 : written_within rs h4 h').
  { destruct (stat_sig_ts self) as [p|].
    - apply (_inplace_update_ts_written rs) in H; [exact H|now apply Hst].
    - injection H as <-. apply written_within_refl. }
  eapply written_within_trans; [exact H1|].
  eapply written_within_trans; [exact W2|].
  eapply written_within_trans; [exact W3|].
  eapply written_within_trans; [exact H4|exact W5].
Qed.

Lemma X21_inplace_update_writes_values_only_witness :
  exists h',
    inplace_update plain_response two_series 2 (Scalar 9) (Scalar 0)
      (Scalar 0) (Scalar 0) (Scalar 7) (Scalar 0) = Ok h' /\
    written_within (components plain_response) two_series h'.
Proof.
  eexists. split; [vm_compute; reflexivity|].
  apply (X21_inplace_update_writes_values_only plain_response two_series _ 2
           (Scalar 9) (Scalar 0) (Scalar 0) (Scalar 0) (Scalar 7) (Scalar 0)).
  vm_compute. reflexivity.
Defined.


(** *** [get_last_n] *)

Section GetLastN.

Variable ts_last : TimeSeriesData.t -> Z -> Result TimeSeriesData.t.
Variable N : Z.
Variable slice : TimeSeriesData.t -> TimeSeriesData.t.
Hypothesis ts_last_returns : forall ts, ts_last ts N = Ok (slice ts).

Lemma last_slot_returns (h0 h : heap) (r : ref) (old : TimeSeriesData.t) :
  grows h0 h -> h0 !! r = Some old ->
  exists h' r',
    last_slot ts_last h r N = Ok (h', r') /\
    h0 !! r' = None /\ h' !! r' = Some (slice old) /\
    grows h h' /\ grows h0 h'.
Proof.
  intros G0 Hr. apply G0 in Hr.
  unfold last_slot, deref. rewrite Hr. cbn [mbind result_bind].
  rewrite ts_last_returns. cbn [mbind result_bind].
  destruct (alloc_fresh h (slice old)) as (H1 & H2 & H3).
  exists (alloc h (slice old)).1, (alloc h (slice old)).2.
  split; [now destruct (alloc h (slice old))|].
  split; [exact (grows_fresh _ _ _ G0 H1)|].
  split; [exact H2|]. split; [exact H3|].
  intros q y Hq. apply H3, G0, Hq.
Qed.

Ltac last_slot_step h0 :=
  match goal with
  | |- context [last_slot ts_last ?hc ?r N] =>
      match goal with
      | Hr : h0 !! r = Some ?old, G : grows h0 hc |- _ =>
          destruct (last_slot_returns h0 hc r old G Hr)
            as (? & ? & -> & ? & ? & ? & ?);
          response_cbn
      end
  end.

(** X22: [get_last_n], for a slicing [ts[-N:]] that returns: on a
    response all of whose series exist it returns a response with the
    same optional components, each component the slice of the one it
    comes from (the upper band of the upper band, the lower of the
    lower); the series of the new response are new objects, and no
    object that existed is written. *)
Theorem X22_get_last_n_slices_every_component (self : t) (h : heap) :
  (forall r, r ∈ components self -> is_Some (h !! r)) ->
  exists h' new,
    get_last_n ts_last self h N = Ok (h', new) /\
    grows h h' /\
    (forall r, r ∈ components new -> h !! r = None) /\
    (is_None (confidence_band new) = is_None (confidence_band self) /\
     is_None (predicted_ts new) = is_None (predicted_ts self) /\
     is_None (stat_sig_ts new) = is_None (stat_sig_ts self)) /\
    contents h' new
    = mkContents
        (slice <$> c_scores (contents h self))
        (slice <$> c_lower (contents h self))
        (slice <$> c_upper (contents h self))
        (slice <$> c_predicted (contents h self))
        (slice <$> c_anomaly_magnitude (contents h self))
        (slice <$> c_stat_sig (contents h self)).
Proof.
  intros Hall.
  destruct (Hall _ (components_scores self)) as [os Hs].
  destruct (Hall _ (components_anomaly_magnitude_ts self)) as [oa Ha].
  pose proof (components_confidence_band self) as Hcb.
  pose proof (components_predicted_ts self) as Hp.
  pose proof (components_stat_sig_ts self) as Hst.
  pose proof (grows_refl h) as G0.
  unfold get_last_n, contents. response_cbn.
  last_slot_step h.
  destruct (confidence_band self) as [cb|] eqn:Ecb;
    [destruct (Hcb cb eq_refl) as [Hl Hu];
     apply Hall in Hl as [ol Hl]; apply Hall in Hu as [ou Hu];
     response_cbn; do 2 last_slot_step h|];
  response_cbn;
  (destruct (predicted_ts self) as [p|] eqn:Ep;
    [destruct (Hall p (Hp p eq_refl)) as [op Hop];
     response_cbn; last_slot_step h|]);
  response_cbn; last_slot_step h;
  (destruct (stat_sig_ts self) as [st|] eqn:Est;
    [destruct (Hall st (Hst st eq_refl)) as [ost Host];
     response_cbn; last_slot_step h|]);
  response_cbn;
  match goal with
  | |- context [__init__ ?hf ?r1 _ _ _ _] =>
      assert (L : hf !! r1 = Some (slice os))
        by (unfold grows in *; eauto 10)
  end;
  unfold __init__, deref; rewrite L; response_cbn;
  (destruct (negb (TimeSeriesData.is_univariate (slice os)));
   do 2 eexists; (split; [reflexivity|]);
   (split; [assumption|]);
   (split;
    [intros r Hr; apply list_elem_of_In in Hr; cbn in Hr;
     intuition (subst; assumption)|]);
   (split; [repeat split|]);
   response_cbn; rewrite ?Hs, ?Ha, ?Hl, ?Hu, ?Hop, ?Host; response_cbn;
   unfold grows in *; f_equal; eauto 10).
Qed.

End GetLastN.

Lemma X22_get_last_n_slices_every_component_witness :
  exists h' new,
    get_last_n (fun ts _ => Ok ts) plain_response two_series 2
    = Ok (h', new) /\
    grows two_series h' /\
    (forall r, r ∈ components new -> two_series !! r = None) /\
    contents h' new = contents two_series plain_response.
Proof.
  destruct (X22_get_last_n_slices_every_component
              (fun ts _ => Ok ts) 2 (fun ts => ts) (fun ts => eq_refl)
              plain_response two_series)
    as (h' & new & E & G & F & _ & C).
  - intros r Hr. apply list_elem_of_In in Hr.
    destruct Hr as [<-|[<-|[]]]; eexists; reflexivity.
  - exists h', new. split; [exact E|]. split; [exact G|].
    split; [exact F|]. rewrite C. reflexivity.
Defined.


(** *** [extend] *)

Section Extend.

Variable ts_extend :
  TimeSeriesData.t -> TimeSeriesData.t -> bool -> Result TimeSeriesData.t.

Lemma extend_at_spec (h h' : heap) (a b : ref) (validate : bool) :
  extend_at ts_extend h a b validate = Ok h' ->
  exists x y new,
    h !! a = Some x /\ h !! b = Some y /\
    ts_extend x y validate = Ok new /\ h' = <[a := new]> h.
Proof.
  unfold extend_at, deref.
  destruct (h !! a) as [x|]; [|discriminate].
  destruct (h !! b) as [y|]; [|discriminate].
  cbn [mbind result_bind].
  destruct (ts_extend x y validate) as [new|] eqn:E; [|discriminate].
  intros [= <-]. now exists x, y, new.
Qed.

Lemma extend_unfold (self other : t) (h h' : heap) (validate : bool) :
  extend ts_extend self h (AnomalyResponseObject other) validate = Ok h' ->
  is_None (confidence_band self) = is_None (confidence_band other) /\
  is_None (predicted_ts self) = is_None (predicted_ts other) /\
  is_None (stat_sig_ts self) = is_None (stat_sig_ts other) /\
  extend_all ts_extend h (extended_pairs self other) validate = Ok h'.
Proof.
  unfold extend, extended_pairs.
  destruct (confidence_band self) as [cb|],
           (confidence_band other) as [ocb|],
           (predicted_ts self) as [p|], (predicted_ts other) as [q|],
           (stat_sig_ts self) as [s|], (stat_sig_ts other) as [u|];
    cbn [is_None xorb]; try discriminate;
    cbn [app extend_all];
    repeat match goal with
           | |- context [extend_at ts_extend ?h0 ?a ?b validate] =>
               destruct (extend_at ts_extend h0 a b validate);
               cbn [mbind result_bind]; try discriminate
           end;
    intros [= <-]; repeat split; reflexivity.
Qed.

Lemma extend_all_frame (validate : bool) (ps : list (ref * ref)) :
  forall h h' : heap,
  extend_all ts_extend h ps validate = Ok h' ->
  (forall r, r ∉ map fst ps -> h' !! r = h !! r) /\
  (forall r, is_Some (h' !! r) <-> is_Some (h !! r)).
Proof.
  induction ps as [|[a b] ps IH]; intros h h' H.
  - injection H as <-. now split.
  - cbn [extend_all] in H. apply bind_Ok in H as (h1 & H1 & H).
    apply extend_at_spec in H1 as (x & y & new & Ha & _ & _ & ->).
    apply IH in H as [F D]. split.
    + intros r Hr. cbn in Hr. rewrite not_elem_of_cons in Hr.
      destruct Hr as [Hne Hr]. rewrite (F r Hr).
      now rewrite lookup_insert_ne.
    + intros r. rewrite D. destruct (decide (r = a)) as [->|Hne].
      * rewrite lookup_insert_eq, Ha. split; eauto.
      * now rewrite lookup_insert_ne.
Qed.

Lemma extend_all_each (validate : bool) (ps : list (ref * ref)) :
  forall h h' : heap,
  NoDup (map fst ps) ->
  (forall a b, a ∈ map fst ps -> b ∈ map snd ps -> a <> b) ->
  extend_all ts_extend h ps validate = Ok h' ->
  Forall (fun p => exists x y new,
            h !! p.1 = Some x /\ h !! p.2 = Some y /\
            ts_extend x y validate = Ok new /\ h' !! p.1 = Some new) ps.
Proof.
  induction ps as [|[a b] ps IH]; intros h h' Hnd Hdis H; [constructor|].
  cbn [extend_all] in H. apply bind_Ok in H as (h1 & H1 & H).
  apply extend_at_spec in H1 as (x & y & new & Ha & Hb & Hnew & ->).
  cbn [map fst] in Hnd. apply NoDup_cons in Hnd as [Hna Hnd].
  constructor.
  - exists x, y, new. cbn [fst snd].
    split; [exact Ha|]. split; [exact Hb|]. split; [exact Hnew|].
    destruct (extend_all_frame _ _ _ _ H) as [F _].
    rewrite (F a Hna). apply lookup_insert_eq.
  - assert (Hdis' : forall a' b', a' ∈ map fst ps -> b' ∈ map snd ps ->
                      a' <> b').
    { intros a' b' Ha' Hb'. apply Hdis; cbn; now apply elem_of_cons; right. }
    specialize (IH _ _ Hnd Hdis' H).
    rewrite List.Forall_forall in IH. apply List.Forall_forall.
    intros [a' b'] Hin. destruct (IH _ Hin) as (x' & y' & new' & E1 & E2 & E3).
    cbn [fst snd] in *.
    apply list_elem_of_In in Hin.
    assert (Ha' : a' ∈ map fst ps).
    { apply list_elem_of_fmap. now exists (a', b'). }
    assert (Hb' : b' ∈ map snd ps).
    { apply list_elem_of_fmap. now exists (a', b'). }
    exists x', y', new'.
    rewrite lookup_insert_ne in E1 by (intros <-; contradiction).
    rewrite lookup_insert_ne in E2.
    2:{ apply (Hdis a b'); cbn; [now apply elem_of_cons; left
                                |now apply elem_of_cons; right]. }
    auto.
Qed.

Lemma extended_pairs_fst (self other : t) :
  is_None (confidence_band self) = is_None (confidence_band other) ->
  is_None (predicted_ts self) = is_None (predicted_ts other) ->
  is_None (stat_sig_ts self) = is_None (stat_sig_ts other) ->
  map fst (extended_pairs self other) ≡ₚ components self /\
  map snd (extended_pairs self other) ≡ₚ components other.
Proof.
  unfold extended_pairs, components.
  destruct (confidence_band self) as [cb|],
           (confidence_band other) as [ocb|],
           (predicted_ts self) as [p|], (predicted_ts other) as [q|],
           (stat_sig_ts self) as [s|], (stat_sig_ts other) as [u|];
    cbn [is_None]; try discriminate; intros _ _ _; cbn;
    split; try reflexivity;
    (constructor; apply perm_swap).
Qed.

(** X23: an [extend] that returns has created and deleted no object
    and has written to no object other than the series of the receiver.
    When the receiver holds distinct objects, none of them held by the
    argument, every component of the receiver, read after the call, is
    what [TimeSeriesData.extend] made of the component as it was before
    the call and of the argument's component as it was before the
    call. *)
Theorem X23_extend_writes_receiver_only (self other : t) (h h' : heap)
  (validate : bool) :
  extend ts_extend self h (AnomalyResponseObject other) validate = Ok h' ->
  (forall r, r ∉ components self -> h' !! r = h !! r) /\
  (forall r, is_Some (h' !! r) <-> is_Some (h !! r)) /\
  (NoDup (components self) ->
   (forall r, r ∈ components self -> r ∉ components other) ->
   Forall (fun p => exists x y new,
             h !! p.1 = Some x /\ h !! p.2 = Some y /\
             ts_extend x y validate = Ok new /\ h' !! p.1 = Some new)
          (extended_pairs self other)).
Proof.
  intros H. apply extend_unfold in H as (E1 & E2 & E3 & H).
  destruct (extended_pairs_fst self other E1 E2 E3) as [P1 P2].
  destruct (extend_all_frame _ _ _ _ H) as [F D].
  split; [|split; [exact D|]].
  - intros r Hr. apply F. now rewrite P1.
  - intros Hnd Hdis. apply (extend_all_each validate _ h h'); [| |exact H].
    + now rewrite P1.
    + intros a b Ha Hb ->. rewrite P1 in Ha. rewrite P2 in Hb.
      exact (Hdis b Ha Hb).
Qed.

End Extend.

Lemma X23_extend_writes_receiver_only_witness :
  exists h',
    extend (fun a _ _ => Ok a) plain_response four_series
      (AnomalyResponseObject other_response) true = Ok h' /\
    (forall r, r ∉ components plain_response ->
       h' !! r = four_series !! r) /\
    (forall r, is_Some (h' !! r) <-> is_Some (four_series !! r)).
Proof.
  eexists. split; [vm_compute; reflexivity|].
  destruct (X23_extend_writes_receiver_only (fun a _ _ => Ok a)
              plain_response other_response four_series _ true
              ltac:(vm_compute; reflexivity)) as (F & D & _).
  split; [exact F|exact D].
Defined.

End ResponseBehaviour.
